(** * Assemblyline UI: signature and archive API handlers

    A shallow embedding of the request handlers of
    [assemblyline_ui/api/v4/signature.py] and
    [assemblyline_ui/api/v4/archive.py], and the properties of the
    signature status lifecycle, the source configuration editor, the
    bundle download and the related-files aggregation that the
    specification states about them.

    Documents are handled as raw Python dictionaries (every datastore call
    of the handlers passes [as_obj=False]), handlers run in a state and
    exception monad over the datastore, and an exception that leaves a
    handler is kept as such (Flask turns it into a 500 response). The
    handlers are taken behind [api_login]: the caller is authenticated and
    passed in as [user]. *)

From Stdlib Require Import ZArith.
From stdpp Require Import gmap strings list fin_maps pretty sorting.

Open Scope string_scope.
Open Scope Z_scope.

Set Warnings "-register-all".

(** ** Python values, dictionaries and exceptions *)

Module Py.

(** JSON-like Python values. A dictionary keeps its insertion order, as
    Python's does, so it is an association list. *)
Inductive value : Type :=
| VNone
| VBool (b : bool)
| VInt (n : Z)
| VStr (s : string)
| VList (vs : list value)
| VDict (kvs : list (string * value)).

Abbreviation dict := (list (string * value)).

Inductive exn : Type :=
| KeyError (key : string)
| AttributeError (msg : string)
| IndexError (msg : string)
| TypeError (msg : string)
| ValueError (msg : string)
| SearchException (msg : string).

(** The result of running Python code: a value, or a raised exception. *)
Inductive outcome (A : Type) : Type :=
| Ok (a : A)
| Raise (e : exn).
Arguments Ok {A} a.
Arguments Raise {A} e.

Definition obind {A B} (o : outcome A) (k : A → outcome B) : outcome B :=
  match o with
  | Ok a => k a
  | Raise e => Raise e
  end.

(** [d.get(k)] *)
Fixpoint dict_get (k : string) (d : dict) : option value :=
  match d with
  | [] => None
  | (k', v) :: d' => if String.eqb k k' then Some v else dict_get k d'
  end.

(** [d.get(k, default)] *)
Definition dict_get_default (k : string) (default : value) (d : dict) : value :=
  match dict_get k d with
  | Some v => v
  | None => default
  end.

(** [d[k]] *)
Definition dict_item (k : string) (d : dict) : outcome value :=
  match dict_get k d with
  | Some v => Ok v
  | None => Raise (KeyError k)
  end.

(** [v[k]] on a value that should be a dictionary. *)
Definition subscript (v : value) (k : string) : outcome value :=
  match v with
  | VDict d => dict_item k d
  | VNone => Raise (TypeError "'NoneType' object is not subscriptable")
  | VStr _ => Raise (TypeError "string indices must be integers")
  | VList _ => Raise (TypeError "list indices must be integers or slices, not str")
  | VBool _ => Raise (TypeError "'bool' object is not subscriptable")
  | VInt _ => Raise (TypeError "'int' object is not subscriptable")
  end.

(** [d[k] = v]: an existing key keeps its place, a new one goes last. *)
Fixpoint dict_set (k : string) (v : value) (d : dict) : dict :=
  match d with
  | [] => [(k, v)]
  | (k', v') :: d' =>
      if String.eqb k k' then (k, v) :: d' else (k', v') :: dict_set k v d'
  end.

(** [v is None] *)
Definition is_none (v : value) : bool :=
  match v with
  | VNone => true
  | _ => false
  end.

(** [sep.join(l)] on Rocq strings. *)
Fixpoint join (sep : string) (l : list string) : string :=
  match l with
  | [] => ""
  | [s] => s
  | s :: l' => s ++ sep ++ join sep l'
  end.

(** [type(v).__name__] *)
Definition type_name (v : value) : string :=
  match v with
  | VNone => "NoneType"
  | VBool _ => "bool"
  | VInt _ => "int"
  | VStr _ => "str"
  | VList _ => "list"
  | VDict _ => "dict"
  end.

Definition QUOTE : Ascii.ascii := Ascii.ascii_of_nat 39.
Definition DOUBLE_QUOTE : Ascii.ascii := Ascii.ascii_of_nat 34.
Definition BACKSLASH : Ascii.ascii := Ascii.ascii_of_nat 92.

Fixpoint has_char (c : Ascii.ascii) (s : string) : bool :=
  match s with
  | EmptyString => false
  | String a s' => Ascii.eqb a c || has_char c s'
  end.

Definition hex_digit (n : nat) : Ascii.ascii :=
  if Nat.ltb n 10 then Ascii.ascii_of_nat (48 + n)
  else Ascii.ascii_of_nat (87 + n).

(** How [repr] writes one character of a string quoted with [q]: the
    quote and the backslash get a backslash, tab, newline and carriage
    return their letter, the other control characters their two hex
    digits. Bytes above 127 are the UTF-8 encoding of characters that
    [repr] prints as they are when they are printable. *)
Definition escape_char (q c : Ascii.ascii) : string :=
  let n := Ascii.nat_of_ascii c in
  if Ascii.eqb c q || Ascii.eqb c BACKSLASH then
    String BACKSLASH (String c EmptyString)
  else if Nat.eqb n 9 then String BACKSLASH "t"
  else if Nat.eqb n 10 then String BACKSLASH "n"
  else if Nat.eqb n 13 then String BACKSLASH "r"
  else if Nat.ltb n 32 || Nat.eqb n 127 then
    String BACKSLASH
      (String (Ascii.ascii_of_nat 120)
         (String (hex_digit (Nat.div n 16))
            (String (hex_digit (Nat.modulo n 16)) EmptyString)))
  else String c EmptyString.

Fixpoint escape_repr (q : Ascii.ascii) (s : string) : string :=
  match s with
  | EmptyString => EmptyString
  | String c s' => escape_char q c ++ escape_repr q s'
  end.

(** [repr(s)] of a string: single quotes, unless the string holds a single
    quote and no double quote. *)
Definition str_repr (s : string) : string :=
  let q :=
    if has_char QUOTE s && negb (has_char DOUBLE_QUOTE s) then DOUBLE_QUOTE
    else QUOTE in
  String q (escape_repr q s ++ String q EmptyString).

(** [repr(v)], which is how a container renders its items. *)
Fixpoint py_repr (v : value) : string :=
  match v with
  | VNone => "None"
  | VBool true => "True"
  | VBool false => "False"
  | VInt n => pretty n
  | VStr s => str_repr s
  | VList vs => "[" ++ join ", " (map py_repr vs) ++ "]"
  | VDict kvs =>
      "{" ++ join ", " (map (λ kv, str_repr kv.1 ++ ": " ++ py_repr kv.2) kvs) ++ "}"
  end.

(** [str(v)], as an f-string renders a value: a string is itself. *)
Definition py_str (v : value) : string :=
  match v with
  | VStr s => s
  | _ => py_repr v
  end.

(** [str(e)] for an exception. A [KeyError] prints the repr of its key. *)
Definition exn_str (e : exn) : string :=
  match e with
  | KeyError k => str_repr k
  | AttributeError m | IndexError m | TypeError m | ValueError m
  | SearchException m => m
  end.

(** [v in l] for a list of strings [l]: only a string can be equal to one. *)
Definition str_in (v : value) (l : list string) : bool :=
  match v with
  | VStr s => bool_decide (s ∈ l)
  | _ => false
  end.

End Py.
Export Py.

(** ** Handlers: state and exceptions *)

(** A handler reads and writes a state [S] and returns or raises. The state
    reached when an exception is raised is kept: what was saved before it
    stays saved. *)
Definition M (S A : Type) : Type := S → outcome A * S.

Definition ret {S A} (a : A) : M S A := λ s, (Ok a, s).
Definition raise {S A} (e : exn) : M S A := λ s, (Raise e, s).
Definition bind {S A B} (c : M S A) (k : A → M S B) : M S B :=
  λ s, match c s with
       | (Ok a, s') => k a s'
       | (Raise e, s') => (Raise e, s')
       end.
Definition lift {S A} (o : outcome A) : M S A := λ s, (o, s).
Definition gets {S A} (f : S → A) : M S A := λ s, (Ok (f s), s).
Definition modify {S} (f : S → S) : M S unit := λ s, (Ok tt, f s).

Notation "'let*' x ':=' c 'in' k" := (bind c (λ x, k))
  (at level 10, x name, c at level 100, k at level 200).
Notation "'let?' x ':=' o 'in' k" := (obind o (λ x, k))
  (at level 10, x name, o at level 100, k at level 200).

(** ** Responses *)

(** Modelled from the spec: [make_api_response] and [make_file_response] of
    [assemblyline_ui/api/base.py], which is not part of the slice. A JSON
    response is its payload, its error message and its HTTP status code; a
    file response is the blob, its download name, its size and its
    content type. *)
Inductive http_response : Type :=
| ApiResponse (api_response : value) (api_error_message : string)
    (api_status_code : Z)
| FileResponse (data : string) (name : string) (size : nat)
    (content_type : string).

Definition make_api_response (data : value) (err : string) (status_code : Z)
  : http_response := ApiResponse data err status_code.

Definition make_file_response (data name : string) (size : nat)
    (content_type : string) : http_response :=
  FileResponse data name size content_type.

Definition status_code (r : http_response) : Z :=
  match r with
  | ApiResponse _ _ c => c
  | FileResponse _ _ _ _ => 200
  end.

(** ** The datastore *)

Module Datastore.

(** A search query, as the search engine reads the query string. *)
Inductive query : Type :=
| QTerm (field term : string)   (* field:term *)
| QIdPrefix (p : string)        (* id:p*      *)
| QAll                          (* *          *)
| QAnd (a b : query)
| QOr (a b : query)
| QNot (a : query).

Fixpoint render (q : query) : string :=
  match q with
  | QTerm f t => f ++ ":" ++ t
  | QIdPrefix p => "id:" ++ p ++ "*"
  | QAll => "*"
  | QAnd a b => render a ++ " AND " ++ render b
  | QOr a b => render a ++ " OR " ++ render b
  | QNot a => "NOT " ++ render a
  end.

(** Whether the document [d] stored under [id] matches [q]. The field [id]
    is the key of the document. *)
Fixpoint matches (q : query) (id : string) (d : dict) : bool :=
  match q with
  | QTerm f t =>
      if String.eqb f "id" then String.eqb id t
      else match dict_get f d with
           | Some v => String.eqb (py_str v) t
           | None => false
           end
  | QIdPrefix p => bool_decide (String.prefix p id = true)
  | QAll => true
  | QAnd a b => matches a id d && matches b id d
  | QOr a b => matches a id d || matches b id d
  | QNot a => negb (matches a id d)
  end.

(** One collection: documents by key. *)
Abbreviation collection := (gmap string dict).

(** [collection.get(key, as_obj=False)] *)
Definition get (c : collection) (key : string) : option dict := c !! key.

(** [collection.save(key, doc)]: the document is written under [key]. *)
Definition save (key : string) (doc : dict) (c : collection) : collection :=
  <[key := doc]> c.

(** The documents of [c] that match [q], with their keys. *)
Definition hits (c : collection) (q : query) : list (string * dict) :=
  map_to_list (filter (λ kd, matches q kd.1 kd.2 = true) c).

(** [collection.search(q, fl="id")["items"]] and [stream_search]: the keys
    of all matching documents (the paging of [search] is left out). *)
Definition search (c : collection) (q : query) : list string := (hits c q).*1.

(** [collection.multiget(keys, as_dictionary=False, as_obj=False)]: the
    documents in the order of [keys]; a missing key is an error. *)
Fixpoint multiget (c : collection) (keys : list string) : outcome (list dict) :=
  match keys with
  | [] => Ok []
  | k :: ks =>
      match c !! k with
      | Some d => let? ds := multiget c ks in Ok (d :: ds)
      | None => Raise (KeyError k)
      end
  end.

End Datastore.

(** ** The in-memory archive *)

(** [InMemoryZip] of [assemblyline.common.memory_zip], in the assemblyline
    base library: the archive is a byte buffer that starts empty; [append]
    opens a [zipfile.ZipFile] on the buffer in append mode and writes one
    member to it; [read] returns the bytes of the buffer. Nothing writes to
    the buffer before the first [append]. *)
Module MemoryZip.

Section InMemoryZip.

(** The bytes of the buffer after
    [zipfile.ZipFile(buffer, "a", ZIP_DEFLATED, False)
       .writestr(filename_in_zip, file_contents)]. *)
Variable zipfile_writestr : string → string → string → string.

(** [self.in_memory_zip = BytesIO()] *)
Definition InMemoryZip : string := EmptyString.

Definition append (in_memory_zip filename_in_zip file_contents : string)
  : string :=
  zipfile_writestr in_memory_zip filename_in_zip file_contents.

Definition read (in_memory_zip : string) : string := in_memory_zip.

(** [output_zip = InMemoryZip()], an [append] for each entry, and
    [output_zip.read()]. *)
Definition zip_read (entries : list (string * string)) : string :=
  read (foldl (λ output_zip e, append output_zip e.1 e.2) InMemoryZip entries).

End InMemoryZip.

(** The signature [PK\005\006] of the end of central directory record,
    which is 22 bytes long without its comment. *)
Definition END_RECORD_SIGNATURE : string :=
  String (Ascii.ascii_of_nat 80)
    (String (Ascii.ascii_of_nat 75)
       (String (Ascii.ascii_of_nat 5)
          (String (Ascii.ascii_of_nat 6) EmptyString))).

Definition END_RECORD_SIZE : nat := 22.

(** [zipfile] opens data as an archive only when it finds that record in
    it: the signature, with the rest of the record after it. *)
Fixpoint has_end_record (blob : string) : bool :=
  match blob with
  | EmptyString => false
  | String _ rest =>
      (String.prefix END_RECORD_SIGNATURE blob
       && Nat.leb END_RECORD_SIZE (String.length blob))
      || has_end_record rest
  end.

(** The archive without members, as [zipfile] writes it: the end record
    alone, every count in it zero. *)
Definition EMPTY_ARCHIVE : string :=
  END_RECORD_SIGNATURE
  ++ String.concat EmptyString
       (replicate 18 (String (Ascii.ascii_of_nat 0) EmptyString)).

End MemoryZip.

(** ** signature.py *)

Module Signature.
Import Datastore.

(** The caller, as [api_login] passes it in [kwargs['user']]. *)
Record user : Type := User {
  uname : string;
  classification : value;
  access_control : query;
}.

(** A signature source of a service's update configuration, as the
    service model types it: [name] and [uri] are required, the other fields
    are optional. The stored sources and the request body are both taken
    as such objects, so that [source['name']], [data['name']] and
    [data['uri']] are there to be read. *)
Record source : Type := Source {
  name : string;
  uri : string;
  username : option string;
  password : option string;
  headers : list (string * string);
  public_key : option string;
  pattern : option string;
}.

(** The [update_config] of a service or of its delta: both keys are
    optional, as the handlers read them with [.get]. *)
Record update_config : Type := UpdateConfig {
  generates_signatures : option bool;
  sources : option (list source);
}.

(** A service document, and a service delta document, as far as the
    handlers look into them. *)
Record service_doc : Type := ServiceDoc {
  update_config_of : option update_config;
}.

(** STORAGE, and the cache store [al_ui.signature]. A cached blob is kept
    with the time-to-live it was saved with. *)
Record storage : Type := Storage {
  signature : gmap string dict;
  signature_last_modified : string;
  service : gmap string service_doc;
  service_delta : gmap string service_doc;
  signature_cache : gmap string (string * Z);
}.

Definition set_signature (f : gmap string dict → gmap string dict)
    (s : storage) : storage :=
  Storage (f (signature s)) (signature_last_modified s) (service s)
    (service_delta s) (signature_cache s).

Definition set_service_delta
    (f : gmap string service_doc → gmap string service_doc)
    (s : storage) : storage :=
  Storage (signature s) (signature_last_modified s) (service s)
    (f (service_delta s)) (signature_cache s).

Definition set_signature_cache
    (f : gmap string (string * Z) → gmap string (string * Z))
    (s : storage) : storage :=
  Storage (signature s) (signature_last_modified s) (service s)
    (service_delta s) (f (signature_cache s)).

(** [STORAGE.signature.save(key, doc)]; the datastore reports success. *)
Definition signature_save (key : string) (doc : dict) : M storage bool :=
  let* _ := modify (set_signature (save key doc)) in ret true.

(** [STORAGE.service_delta.save(service, delta)] *)
Definition service_delta_save (svc : string) (delta : service_doc)
  : M storage bool :=
  let* _ := modify (set_service_delta (insert svc delta)) in ret true.

Definition DEFAULT_CACHE_TTL : Z := 24 * 60 * 60.

Section Handlers.

(** The status sets of [assemblyline.odm.models.signature], the
    classification engine and the identifier hash come from the
    assemblyline base library. *)
Variable DEPLOYED_STATUSES STALE_STATUSES DRAFT_STATUSES : list string.
Variable is_accessible : value → value → bool.
Variable UNRESTRICTED : value.
Variable get_id_from_data : value → string.
(** The clock, as [now_as_iso()] reads it during the call. *)
Variable now_as_iso : string.

(** *** add_signature *)

(** [data.get('type', None) is None or data['name'] is None or
    data['data'] is None], evaluated left to right and stopping at the
    first true operand. *)
Definition mandatory_missing (data : dict) : outcome bool :=
  if is_none (dict_get_default "type" VNone data) then Ok true
  else
    let? n := dict_item "name" data in
    if is_none n then Ok true
    else
      let? d := dict_item "data" data in
      Ok (is_none d).

Definition add_signature (data : dict) : M storage http_response :=
  let* missing := lift (mandatory_missing data) in
  if (missing : bool) then
    ret (make_api_response (VStr "")
           "Signature name, type and data are mandatory fields." 400)
  else
    (* Compute signature ID if missing *)
    let* d := lift (dict_item "data" data) in
    let data :=
      dict_set "signature_id"
        (dict_get_default "signature_id" (VStr (get_id_from_data d)) data)
        data in
    let* ty := lift (dict_item "type" data) in
    let* sid := lift (dict_item "signature_id" data) in
    let* rev := lift (dict_item "revision" data) in
    let key := py_str ty ++ "_" ++ py_str sid ++ "_" ++ py_str rev in
    (* Test signature name *)
    let* n := lift (dict_item "name" data) in
    let* ty' := lift (dict_item "type" data) in
    let* src := lift (dict_item "source" data) in
    let* sid' := lift (dict_item "signature_id" data) in
    (* name:{..} AND type:{..} AND source:{..} AND NOT id:{signature_id}* *)
    let check_name_query :=
      QAnd (QTerm "name" (py_str n))
        (QAnd (QTerm "type" (py_str ty'))
           (QAnd (QTerm "source" (py_str src))
              (QNot (QIdPrefix (py_str sid'))))) in
    let* other := gets (λ s, search (signature s) check_name_query) in
    if bool_decide (0 < length other)%nat then
      ret (make_api_response (VDict [("success", VBool false)])
             "A signature with that name already exists" 400)
    else
      (* Save the signature *)
      let* ok := signature_save key data in
      ret (make_api_response
             (VDict [("success", VBool ok); ("id", VStr key)]) "" 200).

(** *** change_status *)

(** The body of the loop over the siblings found by the search. *)
Definition disable_other (today uname_ : string) (other : dict)
  : M storage unit :=
  let other := dict_set "state_change_date" (VStr today) other in
  let other := dict_set "state_change_user" (VStr uname_) other in
  let other := dict_set "status" (VStr "DISABLED") other in
  let* meta := lift (dict_item "meta" other) in
  let* rule_id := lift (subscript meta "rule_id") in
  let* meta' := lift (dict_item "meta" other) in
  let* rule_version := lift (subscript meta' "rule_version") in
  let* _ := signature_save (py_str rule_id ++ "r." ++ py_str rule_version) other in
  ret tt.

Fixpoint disable_others (today uname_ : string) (others : list dict)
  : M storage unit :=
  match others with
  | [] => ret tt
  | other :: rest =>
      let* _ := disable_other today uname_ other in
      disable_others today uname_ rest
  end.

Definition change_status (sid status : string) (u : user)
  : M storage http_response :=
  let possible_statuses := (DEPLOYED_STATUSES ++ DRAFT_STATUSES)%list in
  if negb (bool_decide (status ∈ possible_statuses)) then
    ret (make_api_response (VStr "")
           ("You cannot apply the status " ++ status ++ " on yara rules.") 403)
  else
    let* data := gets (λ s, get (signature s) sid) in
    match data with
    | Some ((_ :: _) as data) =>
        if negb (is_accessible (classification u)
                   (dict_get_default "classification" UNRESTRICTED data)) then
          ret (make_api_response (VStr "")
                 "You are not allowed change status on this signature" 403)
        else
          let* st := lift (dict_item "status" data) in
          if str_in st STALE_STATUSES
             && negb (bool_decide (status ∈ DRAFT_STATUSES)) then
            ret (make_api_response (VStr "")
                   ("Only action available while signature in " ++ py_str st
                    ++ " status is to change signature to a DRAFT status. ("
                    ++ join ", " DRAFT_STATUSES ++ ")") 403)
          else
            let* st := lift (dict_item "status" data) in
            if str_in st DEPLOYED_STATUSES
               && bool_decide (status ∈ DRAFT_STATUSES) then
              ret (make_api_response (VStr "")
                     ("You cannot change the status of signature " ++ sid
                      ++ " from " ++ py_str st ++ " to " ++ status ++ ".") 403)
            else
              let* family := lift (dict_item "signature_id" data) in
              (* status:{status} AND signature_id:{...} AND NOT id:{sid} *)
              let query :=
                QAnd (QTerm "status" status)
                  (QAnd (QTerm "signature_id" (py_str family))
                     (QNot (QTerm "id" sid))) in
              let today := now_as_iso in
              let uname_ := uname u in
              let* _ :=
                if negb (bool_decide (status ∈ ["DISABLED"; "INVALID"; "TESTING"]))
                then
                  let* keys := gets (λ s, search (signature s) query) in
                  let* others := (λ s, (multiget (signature s) keys, s)) in
                  disable_others today uname_ others
                else ret tt in
              let data := dict_set "state_change_date" (VStr today) data in
              let data := dict_set "state_change_user" (VStr uname_) data in
              let data := dict_set "status" (VStr status) data in
              let* ok := signature_save sid data in
              ret (make_api_response (VDict [("success", VBool ok)]) "" 200)
    | _ =>
        ret (make_api_response (VStr "")
               ("Signature not found. (" ++ sid ++ ")") 404)
    end.

(** *** Signature sources *)

(** [STORAGE.get_service_with_delta(service, as_obj=False)]: the service
    document, updated key by key with its delta; nothing when the delta or
    the service is missing. *)
Definition merge_update_config (base delta : option update_config)
  : option update_config :=
  match base, delta with
  | b, None => b
  | None, Some d => Some d
  | Some b, Some d =>
      Some (UpdateConfig
              (match generates_signatures d with
               | Some g => Some g
               | None => generates_signatures b
               end)
              (match sources d with
               | Some l => Some l
               | None => sources b
               end))
  end.

Definition get_service_with_delta (s : storage) (svc : string)
  : option service_doc :=
  match service_delta s !! svc with
  | None => None
  | Some d =>
      match service s !! svc with
      | None => None
      | Some b =>
          Some (ServiceDoc
                  (merge_update_config (update_config_of b) (update_config_of d)))
      end
  end.

(** [doc.get(...)] on what a datastore [get] returned: [None] has no
    attribute [get]. *)
Definition fetched {A} (o : option A) : outcome A :=
  match o with
  | Some a => Ok a
  | None => Raise (AttributeError "'NoneType' object has no attribute 'get'")
  end.

(** [service_data.get('update_config', {}).get('generates_signatures', False)] *)
Definition service_generates_signatures (service_data : service_doc) : bool :=
  match update_config_of service_data with
  | Some uc => default false (generates_signatures uc)
  | None => false
  end.

(** [service_data.get('update_config', {}).get('sources', [])] *)
Definition service_sources (service_data : service_doc) : list source :=
  match update_config_of service_data with
  | Some uc => default [] (sources uc)
  | None => []
  end.

(** The delta with its [update_config['sources']] set: a delta without an
    update configuration gets one that holds only the sources. *)
Definition delta_with_sources (service_delta_ : service_doc)
    (new_sources : list source) : service_doc :=
  match update_config_of service_delta_ with
  | None => ServiceDoc (Some (UpdateConfig None (Some new_sources)))
  | Some uc =>
      ServiceDoc (Some (UpdateConfig (generates_signatures uc) (Some new_sources)))
  end.

(** The loop of [add_signature_source] over the current sources: the
    response of the first collision, if any. *)
Fixpoint find_collision (data : source) (current_sources : list source)
  : option http_response :=
  match current_sources with
  | [] => None
  | src :: rest =>
      if String.eqb (name src) (name data) then
        Some (make_api_response (VDict [("success", VBool false)])
                ("Update source filename already exist: " ++ name data) 400)
      else if String.eqb (uri src) (uri data) then
        Some (make_api_response (VDict [("success", VBool false)])
                ("Update source uri already exist: " ++ uri data) 400)
      else find_collision data rest
  end.

Definition add_signature_source (svc : string) (request_json : outcome source)
  : M storage http_response :=
  match request_json with
  | Raise (ValueError _) | Raise (KeyError _) =>
      ret (make_api_response (VDict [("success", VBool false)])
             "Invalid source object data" 400)
  | Raise e => raise e
  | Ok data =>
      let* service_data := (λ s, (fetched (get_service_with_delta s svc), s)) in
      if negb (service_generates_signatures service_data) then
        ret (make_api_response (VDict [("success", VBool false)])
               ("This service does not generate alerts therefor "
                ++ "you cannot add a source to get the alerts from") 400)
      else
        let current_sources := service_sources service_data in
        match find_collision data current_sources with
        | Some response => ret response
        | None =>
            let current_sources := (current_sources ++ [data])%list in
            let* service_delta_ :=
              (λ s, (fetched (service_delta s !! svc), s)) in
            let service_delta_ := delta_with_sources service_delta_ current_sources in
            (* Save the signature *)
            let* ok := service_delta_save svc service_delta_ in
            ret (make_api_response (VDict [("success", VBool ok)]) "" 200)
        end
  end.

(** The loop of [delete_signature_source]: the sources kept, and whether
    [name_] was found. *)
Fixpoint remove_source (name_ : string) (current_sources : list source)
  : list source * bool :=
  match current_sources with
  | [] => ([], false)
  | src :: rest =>
      let '(new_sources, found) := remove_source name_ rest in
      if String.eqb name_ (name src) then (new_sources, true)
      else (src :: new_sources, found)
  end.

Definition delete_signature_source (svc name_ : string)
  : M storage http_response :=
  let* service_data := (λ s, (fetched (get_service_with_delta s svc), s)) in
  let current_sources := service_sources service_data in
  if negb (service_generates_signatures service_data) then
    ret (make_api_response (VDict [("success", VBool false)])
           ("This service does not generate alerts therefor "
            ++ "you cannot delete one of its sources.") 400)
  else
    let '(new_sources, found) := remove_source name_ current_sources in
    if negb found then
      ret (make_api_response (VDict [("success", VBool false)])
             ("Could not found source '" ++ name_ ++ "' in service " ++ svc ++ ".")
             404)
    else
      let* service_delta_ := (λ s, (fetched (service_delta s !! svc), s)) in
      let service_delta_ := delta_with_sources service_delta_ new_sources in
      let* ok := service_delta_save svc service_delta_ in
      ret (make_api_response (VDict [("success", VBool ok)]) "" 200).

(** The loop of [update_signature_source]: every source named as [data]
    is replaced by [data], the others are kept, in order. *)
Fixpoint replace_source (data : source) (current_sources : list source)
  : list source * bool :=
  match current_sources with
  | [] => ([], false)
  | src :: rest =>
      let '(new_sources, found) := replace_source data rest in
      if String.eqb (name data) (name src) then (data :: new_sources, true)
      else (src :: new_sources, found)
  end.

Definition update_signature_source (svc name_ : string) (data : source)
  : M storage http_response :=
  let* service_data := (λ s, (fetched (get_service_with_delta s svc), s)) in
  let current_sources := service_sources service_data in
  if negb (String.eqb name_ (name data)) then
    ret (make_api_response (VDict [("success", VBool false)])
           "You are not allowed to change the source resulting filename." 400)
  else if negb (service_generates_signatures service_data) then
    ret (make_api_response (VDict [("success", VBool false)])
           "This service does not generate alerts therefor you cannot update its sources."
           400)
  else if bool_decide (length current_sources = 0%nat) then
    ret (make_api_response (VDict [("success", VBool false)])
           "This service does not have any sources therefor you cannot update any source."
           400)
  else
    let '(new_sources, found) := replace_source data current_sources in
    if negb found then
      (* the message is built from [data.name], and [data] is a dict *)
      raise (AttributeError "'dict' object has no attribute 'name'")
    else
      let* service_delta_ := (λ s, (fetched (service_delta s !! svc), s)) in
      let service_delta_ := delta_with_sources service_delta_ new_sources in
      (* Save the signature *)
      let* ok := service_delta_save svc service_delta_ in
      ret (make_api_response (VDict [("success", VBool ok)]) "" 200).

(** *** download_signatures *)

(** [hashlib.sha256(...).hexdigest()], and the bytes [InMemoryZip.read()]
    gives for the entries appended to the archive, in their order. *)
Variable sha256_hexdigest : string → string.
Variable zip_read : list (string * string) → string.

(** The cache store holds the blob or not; a failing read is logged by the
    handler and counts as a miss, and this store's reads do not fail. *)
Definition _get_cached_signatures (cache : gmap string (string * Z))
    (query_hash : string) : option http_response :=
  match cache !! query_hash with
  | None => None
  | Some (s, _) =>
      Some (make_file_response s
              ("al_signatures_" ++ String.substring 0 7 query_hash ++ ".zip")
              (String.length s) "application/zip")
  end.

(** [with Lock(name, timeout): body], for a caller that runs alone: the
    lock is free, is taken, and is released when the body is left. *)
Definition with_lock {A} (lock_name : string) (timeout : Z)
    (body : M storage A) : M storage A := body.

(** The sort key [lambda x: x['order']]. *)
Definition order_key (sig : dict) : outcome value := dict_item "order" sig.

(** [sorted] computes the key of every item before it compares two of
    them. *)
Fixpoint order_keys (sigs : list dict) : outcome (list (value * dict)) :=
  match sigs with
  | [] => Ok []
  | sig :: rest =>
      let? k := order_key sig in
      let? ks := order_keys rest in
      Ok ((k, sig) :: ks)
  end.

(** The keys that [<] orders among each other: integers, a boolean being
    the integer 0 or 1, and strings, which compare character by
    character. *)
Definition int_key (k : value) : option Z :=
  match k with
  | VInt n => Some n
  | VBool b => Some (if b then 1 else 0)
  | _ => None
  end.

Definition str_key (k : value) : option string :=
  match k with
  | VStr s => Some s
  | _ => None
  end.

(** The keys read as keys of one kind, when every one of them is. *)
Fixpoint keys_as {K A} (f : value → option K) (l : list (value * A))
  : option (list (K * A)) :=
  match l with
  | [] => Some []
  | (k, x) :: rest =>
      match f k, keys_as f rest with
      | Some k', Some ks => Some ((k', x) :: ks)
      | _, _ => None
      end
  end.

(** [sorted(l, key=...)] is stable: among equal keys the order of [l] is
    kept. An element is put in front of the first element that is not
    smaller. *)
Fixpoint insert_by_key {A} (x : Z * A) (l : list (Z * A)) : list (Z * A) :=
  match l with
  | [] => [x]
  | y :: l' => if x.1 <=? y.1 then x :: y :: l' else y :: insert_by_key x l'
  end.

Fixpoint sort_by_key {A} (l : list (Z * A)) : list (Z * A) :=
  match l with
  | [] => []
  | x :: l' => insert_by_key x (sort_by_key l')
  end.

(** The order the sort puts its list in. *)
Definition key_le {A} (x y : Z * A) : Prop := x.1 ≤ y.1.

(** The same sort on string keys. *)
Fixpoint insert_by_str {A} (x : string * A) (l : list (string * A))
  : list (string * A) :=
  match l with
  | [] => [x]
  | y :: l' =>
      if String.leb x.1 y.1 then x :: y :: l' else y :: insert_by_str x l'
  end.

Fixpoint sort_by_str {A} (l : list (string * A)) : list (string * A) :=
  match l with
  | [] => []
  | x :: l' => insert_by_str x (sort_by_str l')
  end.

(** [sorted(sigs, key=lambda x: x['order'])]. Keys that are all integers
    or all strings are sorted. Of other keys, one alone is compared with
    nothing and stays; two or more meet in a comparison that [<] does not
    support ([None], a dictionary, a string against an integer) and the
    sort raises; the message of that [TypeError] goes on with the types of
    the two keys that met, which the course of the sort decides and which
    is left out here. A list as a key, which Python compares item by item,
    is taken with these. *)
Definition sorted_by_order (sigs : list dict) : outcome (list dict) :=
  let? ks := order_keys sigs in
  match keys_as int_key ks with
  | Some ks => Ok ((sort_by_key ks).*2)
  | None =>
      match keys_as str_key ks with
      | Some ks => Ok ((sort_by_str ks).*2)
      | None =>
          match sigs with
          | [] | [_] => Ok sigs
          | _ :: _ :: _ =>
              Raise (TypeError "'<' not supported between instances")
          end
      end
  end.

(** [output_files.setdefault(out_fname, []);
     output_files[out_fname].append(data)] *)
Fixpoint add_to_file (out_fname : string) (data : value)
    (output_files : list (string * list value)) : list (string * list value) :=
  match output_files with
  | [] => [(out_fname, [data])]
  | (fname, ds) :: rest =>
      if String.eqb out_fname fname then (fname, (ds ++ [data])%list) :: rest
      else (fname, ds) :: add_to_file out_fname data rest
  end.

Fixpoint group_signatures (signature_list : list dict)
    (output_files : list (string * list value))
  : outcome (list (string * list value)) :=
  match signature_list with
  | [] => Ok output_files
  | sig :: rest =>
      let? ty := dict_item "type" sig in
      let? src := dict_item "source" sig in
      let out_fname := py_str ty ++ "/" ++ py_str src in
      let? data := dict_item "data" sig in
      group_signatures rest (add_to_file out_fname data output_files)
  end.

(** ["\n\n".join(data)]: every item has to be a string. *)
Fixpoint strings_of (data : list value) : outcome (list string) :=
  match data with
  | [] => Ok []
  | VStr s :: rest => let? ss := strings_of rest in Ok (s :: ss)
  | _ :: _ => Raise (TypeError "sequence item: expected str instance")
  end.

Definition NLNL : string :=
  String (Ascii.ascii_of_nat 10) (String (Ascii.ascii_of_nat 10) EmptyString).

Fixpoint zip_entries (output_files : list (string * list value))
  : outcome (list (string * string)) :=
  match output_files with
  | [] => Ok []
  | (fname, data) :: rest =>
      let? ss := strings_of data in
      let? entries := zip_entries rest in
      Ok ((fname, join NLNL ss) :: entries)
  end.

Definition download_signatures (u : user) (query_arg : option query)
  : M storage http_response :=
  let query := default (QTerm "status" "DEPLOYED") query_arg in
  let access := access_control u in
  let* last_modified := gets signature_last_modified in
  (* sha256 of {query}.{access}.{last_modified} *)
  let query_hash :=
    sha256_hexdigest
      (render query ++ "." ++ render access ++ "." ++ last_modified) in
  let* response :=
    gets (λ s, _get_cached_signatures (signature_cache s) query_hash) in
  match response with
  | Some response => ret response
  | None =>
      with_lock ("al_signatures_" ++ String.substring 0 7 query_hash ++ ".zip") 30 (
        let* response :=
          gets (λ s, _get_cached_signatures (signature_cache s) query_hash) in
        match response with
        | Some response => ret response
        | None =>
            let* keys := gets (λ s, search (signature s) (QAnd query access)) in
            let* sigs := (λ s, (multiget (signature s) keys, s)) in
            let* signature_list := lift (sorted_by_order sigs) in
            let* output_files := lift (group_signatures signature_list []) in
            let* entries := lift (zip_entries output_files) in
            let rule_file_bin := zip_read entries in
            let* _ :=
              modify (set_signature_cache
                        (insert query_hash (rule_file_bin, DEFAULT_CACHE_TTL))) in
            ret (make_file_response rule_file_bin
                   ("al_signatures_" ++ String.substring 0 7 query_hash ++ ".zip")
                   (String.length rule_file_bin) "application/zip")
        end)
  end.

End Handlers.

(** *** The fields of a signature document *)

(** The fields the bundle is built from, read from a raw document. *)
Definition sig_order (sig : dict) : Z :=
  match dict_get "order" sig with
  | Some (VInt n) => n
  | _ => 0
  end.
Definition sig_type (sig : dict) : string :=
  py_str (dict_get_default "type" VNone sig).
Definition sig_source (sig : dict) : string :=
  py_str (dict_get_default "source" VNone sig).
Definition sig_data (sig : dict) : string :=
  py_str (dict_get_default "data" VNone sig).

(** The name of the archive entry of a signature. *)
Definition out_fname (sig : dict) : string :=
  sig_type sig ++ "/" ++ sig_source sig.

Fixpoint has_slash (s : string) : bool :=
  match s with
  | EmptyString => false
  | String c s' => Ascii.eqb c (Ascii.ascii_of_nat 47) || has_slash s'
  end.

(** A signature document as the signature model types it: an integer
    [order], and strings for [type], [source] and [data], the type being a
    plain word ([yara], [suricata], [tagcheck]) without a slash. *)
Definition well_formed (sig : dict) : bool :=
  match dict_get "order" sig, dict_get "type" sig,
        dict_get "source" sig, dict_get "data" sig with
  | Some (VInt _), Some (VStr t), Some (VStr _), Some (VStr _) =>
      negb (has_slash t)
  | _, _, _, _ => false
  end.

(** Two signatures of the same group: the same type and the same source. *)
Definition same_group (a b : dict) : Prop :=
  sig_type a = sig_type b ∧ sig_source a = sig_source b.

#[global] Instance same_group_dec a b : Decision (same_group a b).
Proof. unfold same_group. apply _. Defined.

End Signature.

(** ** archive.py *)

Module Archive.
Import Datastore.

(** [try: body except Exception as e: handler(e)], on a state that keeps
    what the body did before it raised. *)
Definition try_except {S A} (body : M S A) (handler : exn → M S A) : M S A :=
  λ s, match body s with
       | (Ok a, s') => (Ok a, s')
       | (Raise e, s') => handler e s'
       end.

(** [s.replace('/', '\\/')] *)
Fixpoint escape_slashes (s : string) : string :=
  match s with
  | EmptyString => EmptyString
  | String c s' =>
      if Ascii.eqb c (Ascii.ascii_of_nat 47)
      then String (Ascii.ascii_of_nat 92)
             (String (Ascii.ascii_of_nat 47) (escape_slashes s'))
      else String c (escape_slashes s')
  end.

(** [s.split(c)] for a one-character separator. *)
Fixpoint split_on (c : Ascii.ascii) (s : string) : list string :=
  match s with
  | EmptyString => [EmptyString]
  | String a s' =>
      if Ascii.eqb a c then EmptyString :: split_on c s'
      else match split_on c s' with
           | h :: t => String a h :: t
           | [] => [String a EmptyString]
           end
  end.

(** A string method called on a value. *)
Definition as_str (method : string) (v : value) : outcome string :=
  match v with
  | VStr s => Ok s
  | _ =>
      Raise (AttributeError ("'" ++ type_name v ++ "' object has no attribute '"
                             ++ method ++ "'"))
  end.

(** [l[i]] on a list of strings. *)
Definition list_item (l : list string) (i : nat) : outcome string :=
  match l !! i with
  | Some x => Ok x
  | None => Raise (IndexError "list index out of range")
  end.

(** [v.get(k, None)] on a value. *)
Definition value_get (k : string) (v : value) : outcome value :=
  match v with
  | VDict d => Ok (dict_get_default k VNone d)
  | _ =>
      Raise (AttributeError ("'" ++ type_name v ++ "' object has no attribute 'get'"))
  end.

Fixpoint chars (s : string) : list value :=
  match s with
  | EmptyString => []
  | String c s' => VStr (String c EmptyString) :: chars s'
  end.

(** [for x in v] *)
Definition iterate (v : value) : outcome (list value) :=
  match v with
  | VList l => Ok l
  | VDict kvs => Ok (map (λ kv, VStr kv.1) kvs)
  | VStr s => Ok (chars s)
  | _ => Raise (TypeError ("'" ++ type_name v ++ "' object is not iterable"))
  end.

Fixpoint traverse {A B} (f : A → outcome B) (l : list A) : outcome (list B) :=
  match l with
  | [] => Ok []
  | x :: l' =>
      let? y := f x in
      let? ys := traverse f l' in
      Ok (y :: ys)
  end.

Definition DQ : string := String (Ascii.ascii_of_nat 34) EmptyString.

Section Handlers.

Variable is_accessible : value → value → bool.

(** The search engine behind [STORAGE.file] and [STORAGE.result]: each call
    answers or raises. *)
Variable file_search : string → dict → outcome value.
Variable result_search : string → outcome value.
Variable result_multiget : list value → outcome (list value).
Variable result_stream_search : string → outcome (list value).

Definition default_params (sha256 : string) (u : Signature.user) : dict :=
  [("offset", VInt 0); ("rows", VInt 10); ("sort", VStr "seen.last desc");
   ("fl", VStr "type,sha256,seen.last");
   ("filters", VList [VStr ("NOT(sha256:" ++ DQ ++ sha256 ++ DQ ++ ")")]);
   ("access_control", VStr (render (Signature.access_control u)));
   ("as_obj", VBool false);
   ("index_type", VStr "Index.HOT_AND_ARCHIVE")].

(** [params.update({k: req_data.get(k, None) for k in fields
                    if req_data.get(k, None) is not None})] *)
Fixpoint update_params (fields : list string) (req_data params : dict) : dict :=
  match fields with
  | [] => params
  | k :: rest =>
      let v := dict_get_default k VNone req_data in
      update_params rest req_data
        (if is_none v then params else dict_set k v params)
  end.

Definition set_output (k : string) (v : value) : M dict unit :=
  modify (dict_set k v).

Definition search_error (e : exn) : value :=
  VStr ("SearchException: " ++ exn_str e).

(** What a block that assigns one slot leaves in it: the result of its
    sub-query, or the error string. *)
Definition slot (o : outcome value) : value :=
  match o with
  | Ok r => r
  | Raise e => search_error e
  end.

(** The tlsh sub-query:
    [tlsh = file_obj['tlsh'].replace('/', '\\/')] and the search. *)
Definition tlsh_search (file_obj params : dict) : outcome value :=
  let? t := dict_item "tlsh" file_obj in
  let? t := as_str "replace" t in
  let tlsh := escape_slashes t in
  file_search ("tlsh:" ++ tlsh) params.

(** Process tlsh *)
Definition process_tlsh (file_obj params : dict) : M dict unit :=
  try_except
    (let* r := lift (tlsh_search file_obj params) in
     set_output "tlsh" r)
    (λ e, set_output "tlsh" (search_error e)).

(** [file_obj.get('ssdeep', '').replace('/', '\\/').split(':')] *)
Definition ssdeep_parts (file_obj : dict) : outcome (list string) :=
  let? sd := as_str "replace" (dict_get_default "ssdeep" (VStr "") file_obj) in
  Ok (split_on (Ascii.ascii_of_nat 58) (escape_slashes sd)).

(** The ssdeep sub-query on part [i] of the hash. *)
Definition ssdeep_search (ssdeep : list string) (i : nat) (params : dict)
  : outcome value :=
  let? part := list_item ssdeep i in
  file_search ("ssdeep:" ++ part ++ "~") params.

(** Process ssdeep *)
Definition process_ssdeep (file_obj params : dict) : M dict unit :=
  try_except
    (let* ssdeep := lift (ssdeep_parts file_obj) in
     let* r1 := lift (ssdeep_search ssdeep 1 params) in
     let* _ := set_output "ssdeep1" r1 in
     let* r2 := lift (ssdeep_search ssdeep 2 params) in
     set_output "ssdeep2" r2)
    (λ e,
      let* _ := set_output "ssdeep1" (search_error e) in
      set_output "ssdeep2" (search_error e)).

(** The tags of one result: [section['tags']['vector']] for each of
    [result['result']['sections']]. *)
Definition result_vectors (result : value) : outcome (list value) :=
  let? res := subscript result "result" in
  let? secs := subscript res "sections" in
  let? secs := iterate secs in
  let? vs :=
    traverse (λ section,
                let? tags := subscript section "tags" in
                let? v := subscript tags "vector" in
                iterate v) secs in
  Ok (concat vs).

(** [x['id'].split('.')[0]] *)
Definition id_head (x : value) : outcome string :=
  let? i := subscript x "id" in
  let? i := as_str "split" i in
  list_item (split_on (Ascii.ascii_of_nat 46) i) 0.

(** The vector sub-query, from the search of the APIVector results to the
    search of the files that share a vector. *)
Definition vector_search (sha256 : string) (params : dict) : outcome value :=
  let? results :=
    result_search
      ("sha256:" ++ sha256 ++ " AND response.service_name:APIVector") in
  let? items := value_get "items" results in
  let? items := iterate items in
  let? ids := traverse (λ r, subscript r "id") items in
  let? results := result_multiget ids in
  let? vectors := traverse result_vectors results in
  let vector := concat vectors in
  let query :=
    join " OR " (map (λ v, "result.sections.tags.vector:" ++ py_str v) vector) in
  let? _ := result_search query in
  let? found := result_stream_search query in
  let? heads := traverse id_head found in
  (* a set: every id once *)
  let ids := remove_dups heads in
  let query := join " OR " (map (λ i, "sha256:" ++ i) ids) in
  file_search query params.

(** Process vector *)
Definition process_vector (sha256 : string) (params : dict) : M dict unit :=
  try_except
    (let* r := lift (vector_search sha256 params) in
     set_output "vector" r)
    (λ e, set_output "vector" (search_error e)).

(** The search parameters of a request: the defaults, overridden by the
    request. *)
Definition request_params (sha256 : string) (u : Signature.user)
    (req_data : dict) : dict :=
  let params := default_params sha256 u in
  let fields := ["offset"; "rows"; "sort"] in
  update_params fields req_data params.

Definition get_additional_details (files : gmap string dict) (sha256 : string)
    (u : option Signature.user) (req_data : dict) : outcome http_response :=
  match files !! sha256 with
  | Some ((_ :: _) as file_obj) =>
      match u with
      | None =>
          Ok (make_api_response (VDict []) "You are not allowed to view this file" 403)
      | Some usr =>
          let? c := dict_item "classification" file_obj in
          if negb (is_accessible (Signature.classification usr) c) then
            Ok (make_api_response (VDict [])
                  "You are not allowed to view this file" 403)
          else
            let params := request_params sha256 usr req_data in
            let output :=
              [("tlsh", VDict []); ("ssdeep1", VDict []);
               ("ssdeep2", VDict []); ("vector", VDict [])] in
            let run :=
              let* _ := process_tlsh file_obj params in
              let* _ := process_ssdeep file_obj params in
              process_vector sha256 params in
            match run output with
            | (Ok _, output) => Ok (make_api_response (VDict output) "" 200)
            | (Raise e, _) => Raise e
            end
      end
  | _ => Ok (make_api_response (VDict []) "This file does not exists" 404)
  end.

End Handlers.

End Archive.

(** ** Concrete data *)

(** Stores, callers and requests on which the handlers are run. *)
Module Examples.
Import Datastore Signature.

(** The status groups as the specification lists them, with [INVALID] as
    the stale status. *)
Definition DEPLOYED_STATUSES : list string := ["DEPLOYED"; "NOISY"].
Definition DRAFT_STATUSES : list string :=
  ["STAGING"; "DISABLED"; "INVALID"; "TESTING"].
Definition STALE_STATUSES : list string := ["INVALID"].

Definition UNRESTRICTED : value := VStr "U".
Definition is_accessible (user_c doc_c : value) : bool := true.
Definition now : string := "2024-01-01T00:00:00.000000Z".
Definition admin : user := User "admin" (VStr "U") QAll.

Definition empty_storage : storage := Storage ∅ "" ∅ ∅ ∅.

(** A family [abc] with revision 1 deployed and revision 2 in testing, both
    stored under the identifier [<type>_<signature_id>_<revision>] that
    [add_signature] gives. *)
Definition sig_rev (rev status : string) : dict :=
  [("name", VStr ("rule_abc_" ++ rev)); ("type", VStr "yara");
   ("source", VStr "source1"); ("data", VStr ("rule abc_" ++ rev));
   ("signature_id", VStr "abc"); ("revision", VStr rev);
   ("status", VStr status);
   ("meta", VDict [("rule_id", VStr "abc"); ("rule_version", VStr rev)])].

Definition family_storage : storage :=
  Storage (<["yara_abc_1" := sig_rev "1" "DEPLOYED"]>
             (<["yara_abc_2" := sig_rev "2" "TESTING"]> ∅))
    "" ∅ ∅ ∅.

(** The same family, as documents that carry no [meta] key. *)
Definition sig_plain (rev status : string) : dict :=
  [("name", VStr "rule_abc"); ("type", VStr "yara");
   ("source", VStr "source1"); ("data", VStr ("rule abc_" ++ rev));
   ("signature_id", VStr "abc"); ("revision", VStr rev);
   ("status", VStr status)].

Definition plain_family_storage : storage :=
  Storage (<["yara_abc_1" := sig_plain "1" "DEPLOYED"]>
             (<["yara_abc_2" := sig_plain "2" "TESTING"]> ∅))
    "" ∅ ∅ ∅.

Definition stale_storage : storage :=
  Storage (<["yara_abc_1" := sig_plain "1" "INVALID"]> ∅) "" ∅ ∅ ∅.

Definition deployed_storage : storage :=
  Storage (<["yara_abc_1" := sig_plain "1" "DEPLOYED"]> ∅) "" ∅ ∅ ∅.

(** The same family under identifiers of the form
    [<rule_id>r.<rule_version>]. *)
Definition legacy_family_storage : storage :=
  Storage (<["abcr.1" := sig_rev "1" "DEPLOYED"]>
             (<["abcr.2" := sig_rev "2" "TESTING"]> ∅))
    "" ∅ ∅ ∅.

(** Services with one source [a.yar]: [Yara] generates signatures,
    [Safelist] does not, and [Fresh] generates signatures and has no source
    yet. Their deltas are empty. *)
Definition src_a : source :=
  Source "a.yar" "http://host/a" None None [] None None.
Definition src_a_moved : source :=
  Source "a.yar" "http://host/moved" None None [] None (Some ".*").
Definition src_b : source :=
  Source "b.yar" "http://host/b" None None [] None None.

Definition source_storage : storage :=
  Storage ∅ ""
    (<["Yara" := ServiceDoc (Some (UpdateConfig (Some true) (Some [src_a])))]>
       (<["Safelist" := ServiceDoc (Some (UpdateConfig (Some false) (Some [src_a])))]>
          (<["Fresh" := ServiceDoc (Some (UpdateConfig (Some true) None))]> ∅)))
    (<["Yara" := ServiceDoc None]>
       (<["Safelist" := ServiceDoc None]>
          (<["Fresh" := ServiceDoc None]> ∅)))
    ∅.

(** A file with its fuzzy hashes, and a search engine whose file search
    fails on the second ssdeep part only. *)
Definition some_file : dict :=
  [("classification", VStr "U"); ("tlsh", VStr "T1AB");
   ("ssdeep", VStr "3:AAAA:BBBB")].

Definition files : gmap string dict := <["f00d" := some_file]> ∅.

Definition no_hits : value := VDict [("items", VList []); ("total", VInt 0)].

Definition file_search (q : string) (params : dict) : outcome value :=
  if String.eqb q "ssdeep:BBBB~" then Raise (SearchException "search failed")
  else Ok no_hits.
Definition result_search (q : string) : outcome value := Ok no_hits.
Definition result_multiget (ids : list value) : outcome (list value) := Ok [].
Definition result_stream_search (q : string) : outcome (list value) := Ok [].

Definition get_additional_details_ex :=
  Archive.get_additional_details is_accessible file_search result_search
    result_multiget result_stream_search.

(** Three deployed signatures: two yara rules of [source1] and one
    suricata rule of [source2]. *)
Definition bundle_sig (name_ type_ source_ data_ : string) (order_ : Z) : dict :=
  [("name", VStr name_); ("type", VStr type_); ("source", VStr source_);
   ("data", VStr data_); ("order", VInt order_); ("status", VStr "DEPLOYED")].

Definition bundle_storage : storage :=
  Storage
    (<["yara_a_1" := bundle_sig "a" "yara" "source1" "rule a {}" 2]>
       (<["yara_b_1" := bundle_sig "b" "yara" "source1" "rule b {}" 1]>
          (<["suricata_c_1" := bundle_sig "c" "suricata" "source2" "alert c" 3]>
             ∅)))
    "2024-01-01T00:00:00.000000Z" ∅ ∅ ∅.

(** A stand-in for the digest, and a listing of the entries in place of
    the bytes of the archive. *)
Definition hexdigest (s : string) : string := s.
Definition zip_listing (entries : list (string * string)) : string :=
  join "" (map (λ e, "[" ++ e.1 ++ "]" ++ e.2) entries).

Definition download_signatures_ex :=
  download_signatures hexdigest zip_listing.

(** A stand-in for [zipfile]: the member is written after what the buffer
    holds. *)
Definition zip_member (buffer filename_in_zip file_contents : string)
  : string :=
  buffer ++ "[" ++ filename_in_zip ++ "]" ++ file_contents.

Definition download_in_memory_zip_ex :=
  download_signatures hexdigest (MemoryZip.zip_read zip_member).

Definition change_status_ex :=
  change_status DEPLOYED_STATUSES STALE_STATUSES DRAFT_STATUSES is_accessible
    UNRESTRICTED now.

End Examples.

(** ** signature.py: reading, deleting and overwriting signatures *)

Module SignatureCrud.
Import Datastore Signature.

(** [STORAGE.signature.delete(key)]; the datastore reports success. *)
Definition signature_delete (key : string) : M storage bool :=
  let* _ := modify (set_signature (delete key)) in ret true.

Section Handlers.
Variable is_accessible : value → value → bool.
Variable UNRESTRICTED : value.

Definition delete_signature (sid : string) (u : user)
  : M storage http_response :=
  let* data := gets (λ s, get (signature s) sid) in
  match data with
  | Some ((_ :: _) as data) =>
      if negb (is_accessible (classification u)
                 (dict_get_default "classification" UNRESTRICTED data)) then
        ret (make_api_response (VStr "")
               "Your are not allowed to delete this signature." 403)
      else
        let* ok := signature_delete sid in
        ret (make_api_response (VDict [("success", VBool ok)]) "" 200)
  | _ =>
      ret (make_api_response (VStr "")
             ("Signature not found. (" ++ sid ++ ")") 404)
  end.

Definition get_signature (sid : string) (u : user) : M storage http_response :=
  let* data := gets (λ s, get (signature s) sid) in
  match data with
  | Some ((_ :: _) as data) =>
      if negb (is_accessible (classification u)
                 (dict_get_default "classification" UNRESTRICTED data)) then
        ret (make_api_response (VStr "")
               "Your are not allowed to view this signature." 403)
      else ret (make_api_response (VDict data) "" 200)
  | _ =>
      ret (make_api_response (VStr "")
             ("Signature not found. (" ++ sid ++ ")") 404)
  end.

End Handlers.

Definition update_signature (sid : string) (data : dict)
  : M storage http_response :=
  (* Get old signature *)
  let* old_data := gets (λ s, get (signature s) sid) in
  match old_data with
  | Some (_ :: _) =>
      let* ok := signature_save sid data in
      ret (make_api_response
             (VDict [("success", VBool ok); ("sid", VStr sid)]) "" 200)
  | _ =>
      ret (make_api_response (VDict [("success", VBool false)])
             ("Signature not found. " ++ sid) 404)
  end.

(** The key is [data['signature_id']]; the datastore takes it as a
    string. *)
Definition add_update_signature (data : dict) : M storage http_response :=
  let* missing := lift (mandatory_missing data) in
  if (missing : bool) then
    ret (make_api_response (VStr "")
           "Signature id, name, type and data are mandatory fields." 400)
  else
    (* Compute signature ID if missing *)
    let* src := lift (dict_item "source" data) in
    let* n := lift (dict_item "name" data) in
    let data :=
      dict_set "signature_id"
        (dict_get_default "signature_id"
           (VStr (py_str src ++ "." ++ py_str n)) data)
        data in
    (* Save the signature *)
    let* sid := lift (dict_item "signature_id" data) in
    let* ok := signature_save (py_str sid) data in
    let* sid' := lift (dict_item "signature_id" data) in
    ret (make_api_response (VDict [("success", VBool ok); ("id", sid')]) "" 200).

End SignatureCrud.

(** ** archive.py: archive_submission *)

Module ArchiveSubmission.
Import Datastore.

(** What [ARCHIVE_MANAGER.archive_submission] does: it returns the action
    it took, raises a [SubmissionException], or raises something else. *)
Inductive archive_outcome : Type :=
| Action (archive_action : dict)
| SubmissionException (msg : string)
| Failure (e : exn).

(** [c.lower()] on an ASCII letter. *)
Definition lower_ascii (c : Ascii.ascii) : Ascii.ascii :=
  let n := Ascii.nat_of_ascii c in
  if (65 <=? n)%nat && (n <=? 90)%nat then Ascii.ascii_of_nat (n + 32) else c.

(** [s.lower()] *)
Fixpoint lower (s : string) : string :=
  match s with
  | EmptyString => EmptyString
  | String c s' => String (lower_ascii c) (lower s')
  end.

(** [request.args.get('delete_after', 'false').lower() in ['true', '']] *)
Definition delete_after_of (arg : option string) : bool :=
  let v := lower (default "false" arg) in
  String.eqb v "true" || String.eqb v "".

Section Handlers.
Variable is_accessible : value → value → bool.
Variable archive_manager : dict → bool → archive_outcome.

Definition archive_submission (archive_enabled : bool)
    (submissions : gmap string dict) (sid : string)
    (u : option Signature.user) (delete_after_arg : option string)
  : outcome http_response :=
  if negb archive_enabled then
    Ok (make_api_response (VDict [("success", VBool false)])
          "Archiving is disabled on the server." 403)
  else
    let delete_after := delete_after_of delete_after_arg in
    match submissions !! sid with
    | Some ((_ :: _) as submission) =>
        let denied :=
          Ok (make_api_response (VDict [("success", VBool false)])
                ("The submission '" ++ sid ++ "' is not accessible by this user")
                403) in
        match u with
        | None => denied
        | Some usr =>
            let? c := dict_item "classification" submission in
            if negb (is_accessible (Signature.classification usr) c) then denied
            else
              match archive_manager submission delete_after with
              | Action archive_action =>
                  let archive_action :=
                    dict_set "success" (VBool true) archive_action in
                  Ok (make_api_response (VDict archive_action) "" 200)
              | SubmissionException se =>
                  Ok (make_api_response (VDict [("success", VBool false)]) se 400)
              | Failure e => Raise e
              end
        end
    | _ =>
        Ok (make_api_response (VDict [("success", VBool false)])
              ("The submission '" ++ sid ++ "' was not found in the system") 404)
    end.

End Handlers.

End ArchiveSubmission.

(** ** helper/ai.py *)

Module Ai.

(** [config.ui.ai] *)
Record ai_config : Type := AiConfig {
  max_tokens : value;
  model_name : value;
  options : dict;
  chat_url : string;
  headers : dict;
  report_system_message : string;
  code_system_message : string;
}.

(** The reply of [requests.post]: [resp.ok], and [resp.json()], which
    raises on a body that is not JSON. *)
Record http_reply : Type := HttpReply {
  ok : bool;
  json : outcome value;
}.

(** How a call of the helper ends: it returns, raises [AiApiException], or
    lets another exception through. *)
Inductive ai_outcome : Type :=
| AiReturn (content : value)
| AiApiException (message : string)
| AiError (e : exn).

(** Truth value of [v], as [if v:] and [v or w] test it. *)
Definition truthy (v : value) : bool :=
  match v with
  | VNone => false
  | VBool b => b
  | VInt n => negb (n =? 0)
  | VStr s => negb (String.eqb s "")
  | VList vs => match vs with [] => false | _ => true end
  | VDict kvs => match kvs with [] => false | _ => true end
  end.

(** [d.update(upd)] *)
Definition dict_update (d upd : dict) : dict :=
  foldl (λ acc kv, dict_set kv.1 kv.2 acc) d upd.

(** [v.get(k, default)] on a value. *)
Definition value_get_default (k : string) (default : value) (v : value)
  : outcome value :=
  match v with
  | VDict d => Ok (dict_get_default k default d)
  | _ =>
      Raise (AttributeError ("'" ++ type_name v ++ "' object has no attribute 'get'"))
  end.

(** [responses[0]] on a value that passed [if responses:]. *)
Definition first_item (v : value) : outcome value :=
  match v with
  | VList (x :: _) => Ok x
  | VList [] => Raise (IndexError "list index out of range")
  | VStr (String c _) => Ok (VStr (String c EmptyString))
  | VStr EmptyString => Raise (IndexError "string index out of range")
  | VDict _ => Raise (KeyError "0")
  | _ => Raise (TypeError ("'" ++ type_name v ++ "' object is not subscriptable"))
  end.

Section Helper.
Variable config : ai_config.
(** [requests.post(url, headers=..., json=...)] *)
Variable post : string → dict → dict → outcome http_reply.
Variable yaml_dump : value → string.
Variable safe_str : value → string.

(** Build chat completions request *)
Definition chat_request (data system_message : string) : dict :=
  dict_update
    [("max_tokens", max_tokens config);
     ("messages",
      VList [VDict [("role", VStr "system"); ("content", VStr system_message)];
             VDict [("role", VStr "user"); ("content", VStr data)]]);
     ("model", model_name config);
     ("stream", VBool false)]
    (options config).

(** The part of [_call_ai_backend] after the call, which raises or
    returns as Python code does. *)
Definition read_reply (action : string) (resp : http_reply)
  : outcome value + string :=
  if negb (ok resp) then
    match json resp with
    | Raise e => inl (Raise e)
    | Ok msg_data =>
        match (let? err := value_get_default "error" (VDict []) msg_data in
               value_get_default "message" VNone err) with
        | Raise e => inl (Raise e)
        | Ok m =>
            let msg := if truthy m then m else msg_data in
            inr ("The AI API denied the request to " ++ action
                 ++ " with the following message: " ++ py_str msg)
        end
    end
  else
    (* Get AI responses *)
    inl (let? body := json resp in
         let? responses := value_get_default "choices" (VList []) body in
         if truthy responses then
           let? first := first_item responses in
           let? message := value_get_default "message" (VDict []) first in
           let? content := value_get_default "content" VNone message in
           Ok (if truthy content then content else VNone)
         else Ok VNone).

Definition _call_ai_backend (data system_message action : string) : ai_outcome :=
  let data := chat_request data system_message in
  match post (chat_url config) (headers config) data with
  | Raise e =>
      AiApiException
        ("An exception occured while trying to " ++ action
         ++ " with AI on server " ++ chat_url config ++ ". ["
         ++ exn_str e ++ "]")
  | Ok resp =>
      match read_reply action resp with
      | inr message => AiApiException message
      | inl (Raise e) => AiError e
      | inl (Ok content) => AiReturn content
      end
  end.

Definition summarized_al_submission (report : value) : ai_outcome :=
  _call_ai_backend (yaml_dump report) (report_system_message config)
    "summarize the AL report".

Definition summarize_code_snippet (code : value) : ai_outcome :=
  _call_ai_backend (safe_str code) (code_system_message config)
    "summarize code snippet".

End Helper.

End Ai.

(** * Properties *)

(** ** Dictionaries and the monad *)

Lemma dict_get_set_eq k v d : dict_get k (dict_set k v d) = Some v.
Proof.
  induction d as [|[k' v'] d IH]; simpl.
  - by rewrite String.eqb_refl.
  - destruct (String.eqb k k') eqn:E; simpl; rewrite ?String.eqb_refl, ?E; done.
Qed.

Lemma dict_get_set_ne k k' v d :
  k ≠ k' → dict_get k (dict_set k' v d) = dict_get k d.
Proof.
  intros Hne. induction d as [|[k'' v''] d IH]; simpl.
  - apply String.eqb_neq in Hne. by rewrite Hne.
  - destruct (String.eqb k' k'') eqn:E; simpl.
    + apply String.eqb_eq in E. subst k''.
      apply String.eqb_neq in Hne. by rewrite Hne.
    + by rewrite IH.
Qed.

Lemma dict_item_Some k d v : dict_get k d = Some v → dict_item k d = Ok v.
Proof. unfold dict_item. by intros ->. Qed.

Lemma dict_item_None k d : dict_get k d = None → dict_item k d = Raise (KeyError k).
Proof. unfold dict_item. by intros ->. Qed.

Lemma bind_lift_ok {S A B} (a : A) (k : A → M S B) s :
  bind (lift (Ok a)) k s = k a s.
Proof. reflexivity. Qed.

Lemma bind_lift_raise {S A B} e (k : A → M S B) s :
  bind (lift (Raise e)) k s = (Raise e, s).
Proof. reflexivity. Qed.

Lemma bind_ret {S A B} (a : A) (k : A → M S B) s : bind (ret a) k s = k a s.
Proof. reflexivity. Qed.

Lemma bind_gets {S A B} (f : S → A) (k : A → M S B) s :
  bind (gets f) k s = k (f s) s.
Proof. reflexivity. Qed.

(** A decidable proposition on concrete data, settled by evaluation. *)
Ltac by_compute := apply (bool_decide_unpack _); vm_compute; exact I.

Ltac run :=
  repeat first
    [ rewrite bind_lift_ok | rewrite bind_lift_raise | rewrite bind_ret
    | rewrite bind_gets ].

(** ** add_signature *)

Module AddSignature.
Import Datastore Signature.

Section Props.
Variable get_id_from_data : value → string.

(** C10. A JSON object whose [type] is present and not null escapes the
    mandatory-field check with an exception when a key is absent: the
    handler raises [KeyError] for a missing [name], for a missing [data],
    and, with all three mandatory fields present, for a missing
    [revision]; no 400 response is returned and nothing is saved. *)
Theorem add_signature_absent_key_raises (data : dict) (s : storage) :
  is_none (dict_get_default "type" VNone data) = false →
  (dict_get "name" data = None →
   add_signature get_id_from_data data s = (Raise (KeyError "name"), s))
  ∧ (∀ n, dict_get "name" data = Some n → is_none n = false →
          dict_get "data" data = None →
          add_signature get_id_from_data data s = (Raise (KeyError "data"), s))
  ∧ (∀ n d, dict_get "name" data = Some n → is_none n = false →
            dict_get "data" data = Some d → is_none d = false →
            dict_get "revision" data = None →
            add_signature get_id_from_data data s
            = (Raise (KeyError "revision"), s)).
Proof.
  intros Hty. unfold add_signature, mandatory_missing. rewrite Hty.
  split; [|split].
  - intros Hn. by rewrite (dict_item_None _ _ Hn).
  - intros n Hn Hnn Hd. rewrite (dict_item_Some _ _ _ Hn). simpl. rewrite Hnn.
    by rewrite (dict_item_None _ _ Hd).
  - intros n d Hn Hnn Hd Hdn Hr.
    rewrite (dict_item_Some _ _ _ Hn). simpl. rewrite Hnn.
    rewrite (dict_item_Some _ _ _ Hd). simpl. rewrite Hdn. run.
    assert (∃ t, dict_get "type" data = Some t) as [t Ht].
    { unfold dict_get_default in Hty. destruct (dict_get "type" data); [eauto|done]. }
    rewrite (dict_item_Some "type" _ t) by (by rewrite dict_get_set_ne).
    run. unfold dict_item at 1. rewrite dict_get_set_eq. run.
    rewrite (dict_item_None "revision") by (by rewrite dict_get_set_ne).
    by run.
Qed.

(** The check answers with its 400 response when [type] is absent or
    null, or when [name] or [data] is present and null. *)
Lemma add_signature_null_field (data : dict) (s : storage) :
  is_none (dict_get_default "type" VNone data) = true
  ∨ (dict_get "name" data = Some VNone)
  ∨ (∃ n, dict_get "name" data = Some n ∧ dict_get "data" data = Some VNone) →
  add_signature get_id_from_data data s
  = (Ok (make_api_response (VStr "")
           "Signature name, type and data are mandatory fields." 400), s).
Proof.
  unfold add_signature, mandatory_missing.
  destruct (is_none (dict_get_default "type" VNone data)) eqn:Hty; [done|].
  intros [?|[Hn|(n & Hn & Hd)]]; [done| |].
  - by rewrite (dict_item_Some _ _ _ Hn).
  - rewrite (dict_item_Some _ _ _ Hn), (dict_item_Some _ _ _ Hd). simpl.
    by destruct (is_none n).
Qed.

End Props.

(** A body without [name], one without [data] and one without
    [revision]. *)
Lemma add_signature_absent_key_raises_witness :
  add_signature (λ _, "0123456789abcdef")
    [("type", VStr "yara"); ("data", VStr "rule x {}")] Examples.empty_storage
  = (Raise (KeyError "name"), Examples.empty_storage)
  ∧ add_signature (λ _, "0123456789abcdef")
      [("type", VStr "yara"); ("name", VStr "x")] Examples.empty_storage
    = (Raise (KeyError "data"), Examples.empty_storage)
  ∧ add_signature (λ _, "0123456789abcdef")
      [("type", VStr "yara"); ("name", VStr "x"); ("data", VStr "rule x {}");
       ("source", VStr "source1")] Examples.empty_storage
    = (Raise (KeyError "revision"), Examples.empty_storage).
Proof.
  split; [|split].
  - apply (add_signature_absent_key_raises (λ _, "0123456789abcdef")
             [("type", VStr "yara"); ("data", VStr "rule x {}")]);
      reflexivity.
  - apply (proj1 (proj2 (add_signature_absent_key_raises
             (λ _, "0123456789abcdef")
             [("type", VStr "yara"); ("name", VStr "x")]
             Examples.empty_storage eq_refl)) (VStr "x"));
      reflexivity.
  - apply (proj2 (proj2 (add_signature_absent_key_raises
             (λ _, "0123456789abcdef")
             [("type", VStr "yara"); ("name", VStr "x");
              ("data", VStr "rule x {}"); ("source", VStr "source1")]
             Examples.empty_storage eq_refl)) (VStr "x") (VStr "rule x {}"));
      reflexivity.
Defined.

End AddSignature.

(** ** change_status *)

Module ChangeStatus.
Import Datastore Signature.

Section Props.
Variable DEPLOYED_STATUSES STALE_STATUSES DRAFT_STATUSES : list string.
Variable is_accessible : value → value → bool.
Variable UNRESTRICTED : value.
Variable now_as_iso : string.

Local Abbreviation change_status :=
  (change_status DEPLOYED_STATUSES STALE_STATUSES DRAFT_STATUSES is_accessible
     UNRESTRICTED now_as_iso).

Lemma dict_get_nonempty k (d : dict) v : dict_get k d = Some v → ∃ x d', d = x :: d'.
Proof. destruct d; [done | eauto]. Qed.

(** C2. A stored signature whose status is a stale one cannot be moved to
    a recognized status outside the draft ones: the response is a 403 and
    the datastore is left as it was. *)
Theorem change_status_stale_forbidden (s : storage) (sid status : string)
    (u : user) (data : dict) (st : string) :
  signature s !! sid = Some data →
  dict_get "status" data = Some (VStr st) →
  st ∈ STALE_STATUSES →
  status ∈ (DEPLOYED_STATUSES ++ DRAFT_STATUSES)%list →
  status ∉ DRAFT_STATUSES →
  ∃ msg, change_status sid status u s
         = (Ok (make_api_response (VStr "") msg 403), s).
Proof.
  intros Hget Hst Hstale Hposs Hnd. unfold Signature.change_status.
  rewrite bool_decide_true by done. simpl. run. unfold get. rewrite Hget.
  destruct (dict_get_nonempty _ _ _ Hst) as (x & d' & ->).
  destruct (is_accessible _ _); simpl; [|by eauto].
  rewrite (dict_item_Some _ _ _ Hst). run. simpl.
  rewrite bool_decide_true by done.
  rewrite bool_decide_false by done. simpl. by eauto.
Qed.

(** C3. A stored signature whose status is a deployed one cannot be moved
    to a draft status: the response is a 403 and the datastore is left as
    it was. *)
Theorem change_status_deployed_to_draft_forbidden (s : storage)
    (sid status : string) (u : user) (data : dict) (st : string) :
  signature s !! sid = Some data →
  dict_get "status" data = Some (VStr st) →
  st ∈ DEPLOYED_STATUSES →
  status ∈ DRAFT_STATUSES →
  ∃ msg, change_status sid status u s
         = (Ok (make_api_response (VStr "") msg 403), s).
Proof.
  intros Hget Hst Hdep Hdraft. unfold Signature.change_status.
  rewrite bool_decide_true by (apply elem_of_app; by right). simpl. run.
  unfold get. rewrite Hget.
  destruct (dict_get_nonempty _ _ _ Hst) as (x & d' & ->).
  destruct (is_accessible _ _); simpl; [|by eauto].
  rewrite (dict_item_Some _ _ _ Hst). run. simpl.
  rewrite (bool_decide_true (status ∈ DRAFT_STATUSES)) by done.
  rewrite andb_false_r. run. simpl.
  rewrite bool_decide_true by done. simpl. by eauto.
Qed.

End Props.

(** The stale rule on a store with one [INVALID] signature. *)
Lemma change_status_stale_forbidden_witness :
  ∃ msg, Examples.change_status_ex "yara_abc_1" "DEPLOYED" Examples.admin
           Examples.stale_storage
         = (Ok (make_api_response (VStr "") msg 403), Examples.stale_storage).
Proof.
  apply (change_status_stale_forbidden _ _ _ _ _ _ _ _ _ _
           (Examples.sig_plain "1" "INVALID") "INVALID").
  - reflexivity.
  - reflexivity.
  - by_compute.
  - by_compute.
  - by_compute.
Defined.

(** The deployed rule on a store with one [DEPLOYED] signature. *)
Lemma change_status_deployed_to_draft_forbidden_witness :
  ∃ msg, Examples.change_status_ex "yara_abc_1" "TESTING" Examples.admin
           Examples.deployed_storage
         = (Ok (make_api_response (VStr "") msg 403), Examples.deployed_storage).
Proof.
  apply (change_status_deployed_to_draft_forbidden _ _ _ _ _ _ _ _ _ _
           (Examples.sig_plain "1" "DEPLOYED") "DEPLOYED").
  - reflexivity.
  - reflexivity.
  - by_compute.
  - by_compute.
Defined.

(** C1. On a family whose revision 1 is deployed and stored under its
    identifier [yara_abc_1], deploying revision 2 succeeds and leaves
    revision 1 deployed: the disabled copy of it is written under the key
    [abcr.1] built from its [meta] block. *)
Theorem change_status_sibling_stays_deployed :
  let '(r, s') :=
    Examples.change_status_ex "yara_abc_2" "DEPLOYED" Examples.admin
      Examples.family_storage in
  r = Ok (make_api_response (VDict [("success", VBool true)]) "" 200)
  ∧ dict_get "status" <$> signature s' !! "yara_abc_2"
    = Some (Some (VStr "DEPLOYED"))
  ∧ dict_get "status" <$> signature s' !! "yara_abc_1"
    = Some (Some (VStr "DEPLOYED"))
  ∧ dict_get "state_change_user" <$> signature s' !! "yara_abc_1"
    = Some None
  ∧ dict_get "status" <$> signature s' !! "abcr.1"
    = Some (Some (VStr "DISABLED")).
Proof. vm_compute. repeat split; reflexivity. Qed.

(** On the same family stored without [meta] blocks the cascade raises,
    and no status is changed. *)
Lemma change_status_sibling_without_meta :
  Examples.change_status_ex "yara_abc_2" "DEPLOYED" Examples.admin
    Examples.plain_family_storage
  = (Raise (KeyError "meta"), Examples.plain_family_storage).
Proof. vm_compute. reflexivity. Qed.

(** The family of that store is what two calls of [add_signature] leave in
    an empty datastore. *)
Lemma family_storage_added :
  (let* _ := add_signature (λ _, "0123456789abcdef")
               (Examples.sig_rev "1" "DEPLOYED") in
   add_signature (λ _, "0123456789abcdef") (Examples.sig_rev "2" "TESTING"))
    Examples.empty_storage
  = (Ok (make_api_response
           (VDict [("success", VBool true); ("id", VStr "yara_abc_2")]) "" 200),
     Examples.family_storage).
Proof. vm_compute. reflexivity. Qed.

(** With identifiers of the form [<rule_id>r.<rule_version>] the copy
    lands on the sibling itself: it is disabled and carries the caller. *)
Lemma change_status_sibling_legacy_identifier :
  let '(r, s') :=
    Examples.change_status_ex "abcr.2" "DEPLOYED" Examples.admin
      Examples.legacy_family_storage in
  r = Ok (make_api_response (VDict [("success", VBool true)]) "" 200)
  ∧ dict_get "status" <$> signature s' !! "abcr.1"
    = Some (Some (VStr "DISABLED"))
  ∧ dict_get "state_change_user" <$> signature s' !! "abcr.1"
    = Some (Some (VStr "admin")).
Proof. vm_compute. repeat split; reflexivity. Qed.

End ChangeStatus.

(** ** Signature sources *)

Module Sources.
Import Datastore Signature.


Lemma find_collision_None data l :
  (∀ src, src ∈ l → name src ≠ name data ∧ uri src ≠ uri data) →
  find_collision data l = None.
Proof.
  induction l as [|x l IH]; intros H; [done|]. simpl.
  destruct (H x) as [Hn Hu]; [by left|].
  apply String.eqb_neq in Hn, Hu. rewrite Hn, Hu.
  apply IH. intros src Hin. apply H. by right.
Qed.

(** What [get_service_with_delta] gives once the sources of the delta of
    [svc] were set to [l]. *)
Lemma get_service_with_delta_saved s svc service_data delta l :
  get_service_with_delta s svc = Some service_data →
  service_delta s !! svc = Some delta →
  service_sources
    <$> get_service_with_delta
          (set_service_delta (insert svc (delta_with_sources delta l)) s) svc
  = Some l.
Proof.
  unfold get_service_with_delta. intros Hsd Hd. rewrite Hd in Hsd.
  destruct s as [sg lm sv sd sc]; simpl in *.
  rewrite lookup_insert_eq. destruct (sv !! svc) as [b|]; [|done]. simpl.
  unfold delta_with_sources, service_sources.
  destruct delta as [[[[?|] [?|]]|]], b as [[[[?|] [?|]]|]]; simpl; done.
Qed.


Lemma replace_source_map data l :
  replace_source data l
  = (map (λ src, if String.eqb (name data) (name src) then data else src) l,
     existsb (λ src, String.eqb (name data) (name src)) l).
Proof.
  induction l as [|x l IH]; [done|]. simpl. rewrite IH.
  by destruct (String.eqb (name data) (name x)).
Qed.

(** C8. On a service that exists, an update whose data carries another
    name than the one addressed is refused with a 400 response and the
    datastore is left as it was. When the names agree and the service
    generates signatures: with an empty source list the update is refused
    with a 400 response and nothing changes; with a source of that name in
    the list, the delta is saved with the list in which every source of
    that name is replaced by the data, each at its place, the others kept,
    and the response reports success. *)
Theorem update_signature_source_cases (s : storage) (svc name_ : string)
    (service_data : service_doc) (data : source) :
  get_service_with_delta s svc = Some service_data →
  (name_ ≠ name data →
   update_signature_source svc name_ data s
   = (Ok (make_api_response (VDict [("success", VBool false)])
            "You are not allowed to change the source resulting filename." 400),
      s))
  ∧ (name_ = name data →
     service_generates_signatures service_data = true →
     service_sources service_data = [] →
     update_signature_source svc name_ data s
     = (Ok (make_api_response (VDict [("success", VBool false)])
              "This service does not have any sources therefor you cannot update any source."
              400),
        s))
  ∧ (name_ = name data →
     service_generates_signatures service_data = true →
     (∃ src, src ∈ service_sources service_data ∧ name src = name_) →
     ∃ s', update_signature_source svc name_ data s
           = (Ok (make_api_response (VDict [("success", VBool true)]) "" 200), s')
           ∧ service_sources <$> get_service_with_delta s' svc
             = Some (map (λ src, if String.eqb (name src) name_ then data else src)
                       (service_sources service_data))
           ∧ (∀ svc', svc' ≠ svc → service_delta s' !! svc' = service_delta s !! svc')
           ∧ service s' = service s ∧ signature s' = signature s).
Proof.
  intros Hsd.
  split; [|split]; intros H; unfold update_signature_source, bind at 1;
    rewrite Hsd; simpl.
  - apply String.eqb_neq in H. by rewrite H.
  - subst name_. intros Hgen Hnil. rewrite String.eqb_refl, Hgen, Hnil. done.
  - subst name_. intros Hgen (src & Hin & Hname).
    rewrite String.eqb_refl, Hgen. simpl.
    rewrite bool_decide_false.
    2:{ intros Hlen. apply nil_length_inv in Hlen. rewrite Hlen in Hin.
        by apply elem_of_nil in Hin. }
    rewrite replace_source_map.
    assert (existsb (λ src0, String.eqb (name data) (name src0))
              (service_sources service_data) = true) as ->.
    { apply existsb_exists. exists src. split; [by apply list_elem_of_In|].
      rewrite Hname. apply String.eqb_refl. }
    simpl.
    assert (∃ delta, service_delta s !! svc = Some delta) as [delta Hd].
    { unfold get_service_with_delta in Hsd.
      destruct (service_delta s !! svc); [eauto|done]. }
    unfold bind at 1. rewrite Hd. simpl.
    eexists. split; [reflexivity|]. split; [|split; [|done]].
    + rewrite (get_service_with_delta_saved s svc service_data) by done.
      f_equal. apply map_ext. intros x. by rewrite String.eqb_sym.
    + intros svc' Hne. simpl. by rewrite lookup_insert_ne.
Qed.

Local Abbreviation yara_data :=
  (ServiceDoc (Some (UpdateConfig (Some true) (Some [Examples.src_a])))).

Local Abbreviation safelist_data :=
  (ServiceDoc (Some (UpdateConfig (Some false) (Some [Examples.src_a])))).



(** Replacing the source [a.yar] of [Yara]. *)
Lemma update_signature_source_cases_witness :
  ∃ s', update_signature_source "Yara" "a.yar" Examples.src_a_moved
          Examples.source_storage
        = (Ok (make_api_response (VDict [("success", VBool true)]) "" 200), s')
        ∧ service_sources <$> get_service_with_delta s' "Yara"
          = Some [Examples.src_a_moved].
Proof.
  destruct (proj2 (proj2 (update_signature_source_cases Examples.source_storage
                     "Yara" "a.yar" yara_data Examples.src_a_moved eq_refl))
              eq_refl eq_refl)
    as (s' & Hrun & Hsrc & _).
  - exists Examples.src_a. split; [apply list_elem_of_singleton|]; reflexivity.
  - exists s'. split; [exact Hrun | exact Hsrc].
Defined.

(** C8, as stated, fails on a service with an empty source list: no
    source has the name addressed, and the update is refused with a 400
    response, not with a 404. *)
Lemma update_signature_source_empty_list :
  get_service_with_delta Examples.source_storage "Fresh"
  = Some (ServiceDoc (Some (UpdateConfig (Some true) None)))
  ∧ service_sources (ServiceDoc (Some (UpdateConfig (Some true) None))) = []
  ∧ update_signature_source "Fresh" "a.yar" Examples.src_a
      Examples.source_storage
    = (Ok (make_api_response (VDict [("success", VBool false)])
             "This service does not have any sources therefor you cannot update any source."
             400),
       Examples.source_storage)
  ∧ ¬ ∃ r, (update_signature_source "Fresh" "a.yar" Examples.src_a
              Examples.source_storage).1 = Ok r
           ∧ status_code r = 404.
Proof.
  split; [by vm_compute|]. split; [done|]. split; [by vm_compute|].
  intros (r & H & Hc). vm_compute in H. injection H as <-. discriminate Hc.
Qed.

(** With a source list that is not empty and holds no source of the name
    addressed, building the error message raises. *)
Lemma update_signature_source_unknown_name :
  update_signature_source "Yara" "b.yar" Examples.src_b Examples.source_storage
  = (Raise (AttributeError "'dict' object has no attribute 'name'"),
     Examples.source_storage).
Proof. by vm_compute. Qed.

(** [delete_signature_source] answers the same case with a 404. *)
Lemma delete_signature_source_unknown_name :
  (delete_signature_source "Yara" "b.yar" Examples.source_storage).1
  = Ok (make_api_response (VDict [("success", VBool false)])
          "Could not found source 'b.yar' in service Yara." 404).
Proof. by vm_compute. Qed.

End Sources.

(** ** get_additional_details *)

Module RelatedFiles.
Import Datastore Archive.

Section Props.
Variable is_accessible : value → value → bool.
Variable file_search : string → dict → outcome value.
Variable result_search : string → outcome value.
Variable result_multiget : list value → outcome (list value).
Variable result_stream_search : string → outcome (list value).

Local Abbreviation get_additional_details :=
  (get_additional_details is_accessible file_search result_search
     result_multiget result_stream_search).

(** C9. For a file the caller may see, the handler always answers with a
    200 response that holds the four slots, whatever the searches do. The
    tlsh slot holds the result of the tlsh sub-query or its error string,
    and the vector slot that of the vector sub-query. The two ssdeep
    sub-queries share one block: both slots hold their results when both
    succeed, and otherwise both hold the error string of the first failure
    of the block. *)
Theorem get_additional_details_slots (files : gmap string dict)
    (sha256 : string) (usr : Signature.user) (req_data file_obj : dict)
    (c : value) :
  files !! sha256 = Some file_obj →
  dict_get "classification" file_obj = Some c →
  is_accessible (Signature.classification usr) c = true →
  let params := request_params sha256 usr req_data in
  ∃ s1 s2,
    get_additional_details files sha256 (Some usr) req_data
    = Ok (make_api_response
            (VDict [("tlsh", slot (tlsh_search file_search file_obj params));
                    ("ssdeep1", s1); ("ssdeep2", s2);
                    ("vector",
                     slot (vector_search file_search result_search
                             result_multiget result_stream_search sha256
                             params))])
            "" 200)
    ∧ match ssdeep_parts file_obj with
      | Raise e => s1 = search_error e ∧ s2 = search_error e
      | Ok ssdeep =>
          match ssdeep_search file_search ssdeep 1 params,
                ssdeep_search file_search ssdeep 2 params with
          | Ok r1, Ok r2 => s1 = r1 ∧ s2 = r2
          | Raise e, _ => s1 = search_error e ∧ s2 = search_error e
          | Ok _, Raise e => s1 = search_error e ∧ s2 = search_error e
          end
      end.
Proof.
  intros Hfile Hc Hacc params. unfold Archive.get_additional_details.
  rewrite Hfile.
  destruct file_obj as [|x file_obj']; [done|].
  rewrite (dict_item_Some _ _ _ Hc). simpl obind. rewrite Hacc. simpl negb.
  cbv iota. fold params.
  unfold process_tlsh, process_ssdeep, process_vector, try_except, bind, lift,
    set_output, modify.
  destruct (tlsh_search file_search _ params) as [t|et];
    destruct (vector_search _ _ _ _ sha256 params) as [v|ev];
    destruct (ssdeep_parts _) as [ssdeep|ep]; simpl;
    try (destruct (ssdeep_search _ ssdeep 1 params) as [r1|e1]; simpl;
         try (destruct (ssdeep_search _ ssdeep 2 params) as [r2|e2]; simpl));
    eexists _, _; (split; [reflexivity|done]).
Qed.

End Props.

(** The slots of the file [f00d] when only the search on the second
    ssdeep part fails. *)
Lemma get_additional_details_slots_witness :
  ∃ s1 s2,
    Examples.get_additional_details_ex Examples.files "f00d"
      (Some Examples.admin) []
    = Ok (make_api_response
            (VDict [("tlsh", Examples.no_hits); ("ssdeep1", s1); ("ssdeep2", s2);
                    ("vector", Examples.no_hits)]) "" 200)
    ∧ s1 = VStr "SearchException: search failed"
    ∧ s2 = VStr "SearchException: search failed".
Proof.
  destruct (get_additional_details_slots Examples.is_accessible
              Examples.file_search Examples.result_search
              Examples.result_multiget Examples.result_stream_search
              Examples.files "f00d" Examples.admin [] Examples.some_file
              (VStr "U") eq_refl eq_refl eq_refl)
    as (s1 & s2 & Hrun & Hs).
  exists s1, s2. split; [exact Hrun | exact Hs].
Defined.

(** C9, as stated, fails for the two ssdeep sub-queries: the search on the
    first part succeeds, the search on the second part fails, and the slot
    of the first holds the error string instead of its result. *)
Lemma get_additional_details_ssdeep1_overwritten :
  let params := request_params "f00d" Examples.admin [] in
  ssdeep_search Examples.file_search ["3"; "AAAA"; "BBBB"] 1 params
  = Ok Examples.no_hits
  ∧ ssdeep_search Examples.file_search ["3"; "AAAA"; "BBBB"] 2 params
    = Raise (SearchException "search failed")
  ∧ Examples.get_additional_details_ex Examples.files "f00d"
      (Some Examples.admin) []
    = Ok (make_api_response
            (VDict [("tlsh", Examples.no_hits);
                    ("ssdeep1", VStr "SearchException: search failed");
                    ("ssdeep2", VStr "SearchException: search failed");
                    ("vector", Examples.no_hits)]) "" 200)
  ∧ VStr "SearchException: search failed" ≠ Examples.no_hits.
Proof. vm_compute. repeat split; done. Qed.

End RelatedFiles.

(** ** download_signatures *)

Module Download.
Import Datastore Signature.

(** *** The stable sort *)

Section Sort.
Context {A : Type}.
Implicit Types (x : Z * A) (l : list (Z * A)).

Lemma insert_by_key_perm x l : insert_by_key x l ≡ₚ x :: l.
Proof.
  induction l as [|y l IH]; simpl; [done|].
  destruct (x.1 <=? y.1); [done|]. rewrite IH. apply Permutation_swap.
Qed.

Lemma sort_by_key_perm l : sort_by_key l ≡ₚ l.
Proof.
  induction l as [|x l IH]; simpl; [done|].
  by rewrite insert_by_key_perm, IH.
Qed.

Lemma insert_by_key_sorted x l :
  StronglySorted key_le l → StronglySorted key_le (insert_by_key x l).
Proof.
  induction l as [|y l IH]; simpl; intros Hs.
  - repeat constructor.
  - apply StronglySorted_inv in Hs as [Hl Hy].
    destruct (x.1 <=? y.1) eqn:E.
    + apply Z.leb_le in E. constructor; [by constructor|].
      constructor; [done|].
      eapply Forall_impl; [exact Hy|]. unfold key_le. intros; lia.
    + apply Z.leb_gt in E. constructor; [by apply IH|].
      rewrite insert_by_key_perm. constructor; [unfold key_le; lia | done].
Qed.

Lemma sort_by_key_sorted l : StronglySorted key_le (sort_by_key l).
Proof.
  induction l as [|x l IH]; simpl; [constructor|].
  by apply insert_by_key_sorted.
Qed.

(** Among the elements of one key the sort keeps the order of the list. *)
Lemma insert_by_key_filter (k : Z) x l :
  StronglySorted key_le l →
  filter (λ y, y.1 = k) (insert_by_key x l)
  = filter (λ y, y.1 = k) (x :: l).
Proof.
  induction l as [|y l IH]; simpl; intros Hs; [done|].
  apply StronglySorted_inv in Hs as [Hl Hy].
  destruct (x.1 <=? y.1) eqn:E; [done|]. apply Z.leb_gt in E.
  rewrite !filter_cons. rewrite IH by done. rewrite filter_cons.
  repeat case_decide; try done. lia.
Qed.

Lemma sort_by_key_stable (k : Z) l :
  filter (λ y, y.1 = k) (sort_by_key l) = filter (λ y, y.1 = k) l.
Proof.
  induction l as [|x l IH]; simpl; [done|].
  rewrite insert_by_key_filter by apply sort_by_key_sorted.
  by rewrite !filter_cons, IH.
Qed.

End Sort.

(** *** Grouping by entry name *)

(** The dictionary [output_files], seen as a finite map. *)
Local Abbreviation files_map fs :=
  (list_to_map fs : gmap string (list value)).

Lemma add_to_file_map f d (fs : list (string * list value)) :
  files_map (add_to_file f d fs)
  = <[f := (default [] (files_map fs !! f) ++ [d])%list]> (files_map fs).
Proof.
  induction fs as [|[f' ds] fs IH]; simpl; [done|].
  destruct (String.eqb f f') eqn:E; simpl.
  - apply String.eqb_eq in E. subst f'.
    by rewrite lookup_insert_eq, insert_insert_eq.
  - apply String.eqb_neq in E.
    rewrite IH, lookup_insert_ne by done. by apply insert_insert_ne.
Qed.

Lemma add_to_file_keys f d (fs : list (string * list value)) x :
  x ∈ (add_to_file f d fs).*1 → x = f ∨ x ∈ fs.*1.
Proof.
  induction fs as [|[f' ds] fs IH]; simpl.
  - intros ->%list_elem_of_singleton. by left.
  - destruct (String.eqb f f') eqn:E; simpl.
    + by right.
    + intros [->|H]%elem_of_cons.
      * right. by left.
      * destruct (IH H) as [->|?]; [by left|]. right. by right.
Qed.

Lemma add_to_file_NoDup f d (fs : list (string * list value)) :
  NoDup fs.*1 → NoDup (add_to_file f d fs).*1.
Proof.
  induction fs as [|[f' ds] fs IH]; simpl; intros Hnd.
  - repeat constructor. by intros ?%elem_of_nil.
  - apply NoDup_cons in Hnd as [Hnotin Hnd].
    destruct (String.eqb f f') eqn:E; simpl.
    + by apply NoDup_cons.
    + apply String.eqb_neq in E. apply NoDup_cons. split; [|by apply IH].
      intros [->|?]%add_to_file_keys; done.
Qed.

(** One turn of the loop over the signatures, on a well-formed one. *)
Local Abbreviation step :=
  (λ (output_files : list (string * list value)) (sig : dict),
     add_to_file (out_fname sig) (VStr (sig_data sig)) output_files).

(** The texts appended to the entry [f] by the signatures of [l]. *)
Local Abbreviation members f l :=
  ((λ sig : dict, VStr (sig_data sig)) <$> filter (λ sig, out_fname sig = f) l).

Lemma well_formed_fields sig :
  well_formed sig = true →
  ∃ n t src d,
    dict_get "order" sig = Some (VInt n)
    ∧ dict_get "type" sig = Some (VStr t)
    ∧ dict_get "source" sig = Some (VStr src)
    ∧ dict_get "data" sig = Some (VStr d)
    ∧ has_slash t = false.
Proof.
  unfold well_formed. intros H.
  destruct (dict_get "order" sig) as [[| | n | | |]|]; try done.
  destruct (dict_get "type" sig) as [[| | | t | |]|]; try done.
  destruct (dict_get "source" sig) as [[| | | src | |]|]; try done.
  destruct (dict_get "data" sig) as [[| | | d | |]|]; try done.
  exists n, t, src, d. repeat split. by apply negb_true_iff.
Qed.

Lemma group_signatures_well_formed l acc :
  Forall (λ sig, well_formed sig = true) l →
  group_signatures l acc = Ok (foldl step acc l).
Proof.
  intros Hwf. revert acc. induction Hwf as [|sig l Hsig _ IH]; intros acc; [done|].
  destruct (well_formed_fields _ Hsig) as (n & t & src & d & Ho & Ht & Hs & Hd & _).
  simpl. rewrite (dict_item_Some _ _ _ Ht), (dict_item_Some _ _ _ Hs),
    (dict_item_Some _ _ _ Hd). simpl. rewrite IH.
  unfold out_fname, sig_type, sig_source, sig_data, dict_get_default.
  by rewrite Ht, Hs, Hd.
Qed.

Lemma foldl_step_NoDup l acc : NoDup acc.*1 → NoDup (foldl step acc l).*1.
Proof.
  revert acc. induction l as [|sig l IH]; intros acc Hnd; [done|].
  simpl. apply IH. by apply add_to_file_NoDup.
Qed.

Lemma foldl_step_lookup l acc f :
  files_map (foldl step acc l) !! f
  = match files_map acc !! f with
    | Some ds => Some (ds ++ members f l)%list
    | None => match members f l with
              | [] => None
              | ms => Some ms
              end
    end.
Proof.
  revert acc. induction l as [|sig l IH]; intros acc.
  - simpl. destruct (files_map acc !! f); [by rewrite app_nil_r | done].
  - simpl foldl. rewrite IH, add_to_file_map. rewrite filter_cons.
    destruct (decide (out_fname sig = f)) as [<-|Hne].
    + rewrite lookup_insert_eq. simpl.
      destruct (files_map acc !! out_fname sig); simpl; [|done].
      by rewrite <- app_assoc.
    + by rewrite lookup_insert_ne.
Qed.

Lemma foldl_step_entry l f ds :
  (f, ds) ∈ foldl step [] l ↔ ds ≠ [] ∧ ds = members f l.
Proof.
  rewrite elem_of_list_to_map by (apply foldl_step_NoDup; constructor).
  rewrite foldl_step_lookup. simpl. rewrite lookup_empty.
  destruct (members f l) eqn:E.
  - split; [done | intros [Hne ->]; done].
  - split; [intros [= <-]; done | intros [_ ->]; done].
Qed.

(** *** The archive entries *)

Lemma strings_of_str (ds : list value) :
  Forall (λ v, ∃ s, v = VStr s) ds → strings_of ds = Ok (py_str <$> ds).
Proof.
  intros Hstr. induction Hstr as [|v ds [s Hv] _ IH]; [done|].
  subst v. simpl. by rewrite IH.
Qed.

Lemma zip_entries_str (fs : list (string * list value)) :
  Forall (λ fd, Forall (λ v, ∃ s, v = VStr s) fd.2) fs →
  zip_entries fs = Ok ((λ fd, (fd.1, join NLNL (py_str <$> fd.2))) <$> fs).
Proof.
  intros Hstr. induction Hstr as [|[f ds] fs Hds _ IH]; [done|].
  simpl in *. rewrite (strings_of_str _ Hds). simpl. by rewrite IH.
Qed.

(** The entries of the archive built from a sorted list of well-formed
    signatures, grouped by entry name. *)
Lemma bundle_entries_by_name l :
  Forall (λ sig, well_formed sig = true) l →
  ∃ entries,
    (let? output_files := group_signatures l [] in zip_entries output_files)
    = Ok entries
    ∧ NoDup entries.*1
    ∧ ∀ e, e ∈ entries ↔
           ∃ sig, sig ∈ l
                  ∧ e = (out_fname sig,
                         join NLNL
                           (sig_data <$> filter (λ x, out_fname x = out_fname sig) l)).
Proof.
  intros Hwf. rewrite (group_signatures_well_formed _ _ Hwf). simpl.
  rewrite zip_entries_str.
  2:{ apply Forall_forall. intros [f ds] [_ ->]%foldl_step_entry. simpl.
      apply Forall_fmap, Forall_forall. intros sig _. simpl. eauto. }
  eexists. split; [reflexivity|]. split.
  - rewrite <- list_fmap_compose.
    apply (foldl_step_NoDup l []). constructor.
  - intros e. rewrite list_elem_of_fmap. split.
    + intros ([f ds] & -> & [Hne ->]%foldl_step_entry). simpl.
      destruct (filter (λ sig, out_fname sig = f) l) as [|sig l'] eqn:E; [done|].
      assert (sig ∈ filter (λ sig, out_fname sig = f) l) as Hin
        by (rewrite E; by left).
      apply list_elem_of_filter in Hin as [<- Hin].
      exists sig. split; [done|]. rewrite E.
      by rewrite <- list_fmap_compose.
    + intros (sig & Hin & ->).
      exists (out_fname sig, members (out_fname sig) l). split.
      * simpl. by rewrite <- list_fmap_compose.
      * apply foldl_step_entry. split; [|done].
        assert (sig ∈ filter (λ x, out_fname x = out_fname sig) l) as Hf
          by (by apply list_elem_of_filter).
        destruct (filter _ l); [by apply elem_of_nil in Hf | done].
Qed.

(** *** Entry names and groups *)

Lemma fname_inj t1 s1 t2 s2 :
  has_slash t1 = false → has_slash t2 = false →
  t1 ++ "/" ++ s1 = t2 ++ "/" ++ s2 → t1 = t2 ∧ s1 = s2.
Proof.
  assert (∀ s, "" ++ s = s) as Hnil by reflexivity.
  assert (∀ c s t, String c s ++ t = String c (s ++ t)) as Hcons by reflexivity.
  revert t2. induction t1 as [|c t1 IH]; intros [|c' t2] H1 H2 Heq;
    rewrite ?Hcons, ?Hnil in Heq; simpl in H1, H2.
  - by injection Heq as ->.
  - injection Heq as Hc _. subst c'. simpl in H2. done.
  - injection Heq as Hc _. subst c. simpl in H1. done.
  - injection Heq as Hc Heq. subst c'.
    apply orb_false_elim in H1 as [_ H1]. apply orb_false_elim in H2 as [_ H2].
    destruct (IH _ H1 H2 Heq) as [-> ->]. done.
Qed.

Lemma out_fname_same_group a b :
  well_formed a = true → well_formed b = true →
  out_fname a = out_fname b ↔ same_group a b.
Proof.
  intros (?&ta&?&?&_&Hta&_&_&Ha)%well_formed_fields
         (?&tb&?&?&_&Htb&_&_&Hb)%well_formed_fields.
  unfold same_group, out_fname. split; [|by intros [-> ->]].
  apply fname_inj; unfold sig_type, dict_get_default; by rewrite ?Hta, ?Htb.
Qed.

Lemma filter_ext_in {A} (P Q : A → Prop) `{!∀ x, Decision (P x)}
    `{!∀ x, Decision (Q x)} (l : list A) :
  (∀ x, x ∈ l → P x ↔ Q x) → filter P l = filter Q l.
Proof.
  induction l as [|a l IH]; intros Hiff; [done|].
  destruct (Hiff a) as [Hpq Hqp]; [by left|].
  rewrite !filter_cons, IH by (intros; apply Hiff; by right).
  destruct (decide (P a)), (decide (Q a)); try done; exfalso; auto.
Qed.

(** *** The matching signatures, sorted *)

Lemma multiget_elements (c : gmap string dict) (l : list (string * dict)) :
  (∀ k d, (k, d) ∈ l → c !! k = Some d) → multiget c l.*1 = Ok l.*2.
Proof.
  induction l as [|[k d] l IH]; intros H; [done|].
  csimpl. rewrite (H k d) by by left. rewrite IH; [done|].
  intros k' d' Hin. apply H. by right.
Qed.

Lemma multiget_search (c : gmap string dict) (q : query) :
  multiget c (search c q) = Ok (hits c q).*2.
Proof.
  apply multiget_elements. intros k d Hin. unfold hits in Hin.
  apply elem_of_map_to_list in Hin.
  by apply map_lookup_filter_Some in Hin as [? _].
Qed.

Local Abbreviation keyed := (λ sig : dict, (sig_order sig, sig)).

Lemma order_keys_well_formed sigs :
  Forall (λ sig, well_formed sig = true) sigs →
  order_keys sigs = Ok ((λ sig, (VInt (sig_order sig), sig)) <$> sigs).
Proof.
  intros Hwf. induction Hwf as [|sig l Hsig _ IH]; [done|].
  destruct (well_formed_fields _ Hsig) as (n & t & src & d & Ho & _).
  simpl. unfold order_key. rewrite (dict_item_Some _ _ _ Ho). simpl.
  rewrite IH. simpl. unfold sig_order. by rewrite Ho.
Qed.

Lemma keys_as_int_key (sigs : list dict) :
  keys_as int_key ((λ sig, (VInt (sig_order sig), sig)) <$> sigs)
  = Some (keyed <$> sigs).
Proof. induction sigs as [|sig l IH]; [done|]. csimpl. by rewrite IH. Qed.

Lemma keyed_snd (ks : list (Z * dict)) :
  Forall (λ x, x = keyed x.2) ks → ks = keyed <$> ks.*2.
Proof.
  intros H. induction H as [|x ks Hx _ IH]; [done|].
  csimpl. f_equal; [exact Hx | exact IH].
Qed.

Lemma sorted_keyed sl :
  StronglySorted key_le (keyed <$> sl) →
  StronglySorted (λ a b, sig_order a ≤ sig_order b) sl.
Proof.
  induction sl as [|a sl IH]; intros H; [constructor|].
  change (keyed <$> a :: sl) with (keyed a :: (keyed <$> sl)) in H.
  apply StronglySorted_inv in H as [Hs Ha].
  constructor; [by apply IH|].
  rewrite Forall_fmap in Ha. eapply Forall_impl; [exact Ha|]. done.
Qed.

(** [sorted(..., key=lambda x: x['order'])] on well-formed signatures:
    the same signatures, by ascending order, and in their former order
    where the orders are equal. *)
Lemma sorted_by_order_well_formed sigs :
  Forall (λ sig, well_formed sig = true) sigs →
  ∃ signature_list,
    sorted_by_order sigs = Ok signature_list
    ∧ signature_list ≡ₚ sigs
    ∧ StronglySorted (λ a b, sig_order a ≤ sig_order b) signature_list
    ∧ (∀ k, filter (λ sig, sig_order sig = k) signature_list
            = filter (λ sig, sig_order sig = k) sigs).
Proof.
  intros Hwf. unfold sorted_by_order.
  rewrite (order_keys_well_formed _ Hwf). simpl.
  rewrite keys_as_int_key.
  set (ks := sort_by_key (keyed <$> sigs)).
  assert (ks ≡ₚ keyed <$> sigs) as Hperm by apply sort_by_key_perm.
  assert (ks = keyed <$> ks.*2) as Hks.
  { apply keyed_snd. rewrite Hperm. apply Forall_fmap, Forall_forall. done. }
  eexists. split; [reflexivity|]. split; [|split].
  - rewrite Hperm, <- list_fmap_compose. simpl. by rewrite list_fmap_id.
  - apply sorted_keyed. rewrite <- Hks. apply sort_by_key_sorted.
  - intros k.
    pose proof (sort_by_key_stable k (keyed <$> sigs)) as Hst. fold ks in Hst.
    rewrite Hks in Hst.
    assert (∀ l : list dict,
              filter (λ y : Z * dict, y.1 = k) (keyed <$> l)
              = keyed <$> filter (λ sig, sig_order sig = k) l) as Hf.
    { induction l as [|a l IH]; [done|].
      change (keyed <$> a :: l) with (keyed a :: (keyed <$> l)).
      rewrite !filter_cons, IH. simpl. by case_decide. }
    rewrite !Hf in Hst.
    apply (f_equal (fmap snd)) in Hst.
    rewrite <- !list_fmap_compose in Hst. simpl in Hst.
    by rewrite !list_fmap_id in Hst.
Qed.

(** *** The handler *)

Section Props.
Variable sha256_hexdigest : string → string.
Variable zip_read : list (string * string) → string.

Local Abbreviation download_signatures :=
  (download_signatures sha256_hexdigest zip_read).

(** The handler on a cache miss, as far as the archive is concerned. *)
Lemma download_signatures_miss (u : user) (query_arg : option query)
    (s : storage) (entries : list (string * string)) :
  let query := default (QTerm "status" "DEPLOYED") query_arg in
  let query_hash :=
    sha256_hexdigest
      (render query ++ "." ++ render (access_control u) ++ "."
       ++ signature_last_modified s) in
  signature_cache s !! query_hash = None →
  (let? signature_list :=
     sorted_by_order (hits (signature s) (QAnd query (access_control u))).*2 in
   let? output_files := group_signatures signature_list [] in
   zip_entries output_files) = Ok entries →
  download_signatures u query_arg s
  = (Ok (make_file_response (zip_read entries)
           ("al_signatures_" ++ String.substring 0 7 query_hash ++ ".zip")
           (String.length (zip_read entries)) "application/zip"),
     set_signature_cache
       (insert query_hash (zip_read entries, DEFAULT_CACHE_TTL)) s).
Proof.
  intros query query_hash Hmiss Hrun.
  unfold Signature.download_signatures, with_lock. fold query. run. fold query_hash.
  unfold _get_cached_signatures. rewrite Hmiss. run. rewrite Hmiss. run.
  unfold bind at 1. rewrite multiget_search.
  destruct (sorted_by_order _) as [signature_list|]; [|done]. run.
  simpl in Hrun.
  destruct (group_signatures signature_list []) as [output_files|]; [|done]. run.
  simpl in Hrun. rewrite Hrun. by run.
Qed.

(** On a cache hit the cached blob is returned and nothing is computed or
    stored. *)
Lemma download_signatures_hit (u : user) (query_arg : option query)
    (s : storage) (blob : string) (ttl : Z) :
  let query := default (QTerm "status" "DEPLOYED") query_arg in
  let query_hash :=
    sha256_hexdigest
      (render query ++ "." ++ render (access_control u) ++ "."
       ++ signature_last_modified s) in
  signature_cache s !! query_hash = Some (blob, ttl) →
  download_signatures u query_arg s
  = (Ok (make_file_response blob
           ("al_signatures_" ++ String.substring 0 7 query_hash ++ ".zip")
           (String.length blob) "application/zip"), s).
Proof.
  intros query query_hash Hhit.
  unfold Signature.download_signatures. fold query. run. fold query_hash.
  unfold _get_cached_signatures. by rewrite Hhit.
Qed.

(** A caller that repeats a download that built the archive gets the same
    response from the cache, and the datastore and the cache stay as the
    first call left them. *)
Lemma download_signatures_twice (u : user) (query_arg : option query)
    (s : storage) (entries : list (string * string)) :
  let query := default (QTerm "status" "DEPLOYED") query_arg in
  let query_hash :=
    sha256_hexdigest
      (render query ++ "." ++ render (access_control u) ++ "."
       ++ signature_last_modified s) in
  signature_cache s !! query_hash = None →
  (let? signature_list :=
     sorted_by_order (hits (signature s) (QAnd query (access_control u))).*2 in
   let? output_files := group_signatures signature_list [] in
   zip_entries output_files) = Ok entries →
  ∃ r s', download_signatures u query_arg s = (Ok r, s')
          ∧ download_signatures u query_arg s' = (Ok r, s').
Proof.
  intros query query_hash Hmiss Hrun.
  pose proof (download_signatures_miss u query_arg s entries Hmiss Hrun) as H1.
  eexists _, _. split; [exact H1|].
  apply (download_signatures_hit u query_arg
           (set_signature_cache
              (insert query_hash (zip_read entries, DEFAULT_CACHE_TTL)) s)
           (zip_read entries) DEFAULT_CACHE_TTL).
  simpl. apply lookup_insert_eq.
Qed.

(** A download whose query matches no signature the caller may see
    answers with a file, never with an error; on a cache miss the file is
    what the archive gives without entries, and it is saved in the cache
    under the hash of the request. *)
Lemma download_signatures_no_match (u : user) (query_arg : option query)
    (s : storage) :
  let query := default (QTerm "status" "DEPLOYED") query_arg in
  let query_hash :=
    sha256_hexdigest
      (render query ++ "." ++ render (access_control u) ++ "."
       ++ signature_last_modified s) in
  hits (signature s) (QAnd query (access_control u)) = [] →
  (∃ r, (download_signatures u query_arg s).1 = Ok r ∧ status_code r = 200)
  ∧ (signature_cache s !! query_hash = None →
     download_signatures u query_arg s
     = (Ok (make_file_response (zip_read [])
              ("al_signatures_" ++ String.substring 0 7 query_hash ++ ".zip")
              (String.length (zip_read [])) "application/zip"),
        set_signature_cache
          (insert query_hash (zip_read [], DEFAULT_CACHE_TTL)) s)).
Proof.
  intros query query_hash Hnone.
  assert (signature_cache s !! query_hash = None →
          download_signatures u query_arg s
          = (Ok (make_file_response (zip_read [])
                   ("al_signatures_" ++ String.substring 0 7 query_hash ++ ".zip")
                   (String.length (zip_read [])) "application/zip"),
             set_signature_cache
               (insert query_hash (zip_read [], DEFAULT_CACHE_TTL)) s)) as Hmiss.
  { intros Hmiss. apply download_signatures_miss; [done|].
    fold query. by rewrite Hnone. }
  split; [|exact Hmiss].
  destruct (signature_cache s !! query_hash) as [[blob ttl]|] eqn:Hc.
  - unfold Signature.download_signatures. fold query. run. fold query_hash.
    unfold _get_cached_signatures. rewrite Hc. eexists. split; reflexivity.
  - rewrite Hmiss by done. eexists. split; reflexivity.
Qed.

(** C5. On a cache miss, with well-formed signature documents matching
    the query, the archive is built from the matching signatures sorted by
    ascending [order]: its entry names are distinct, and its entries are
    exactly, for each signature of the list, the entry named
    [type/source] whose text is the [data] of the signatures of the same
    type and source, in the order of the list, joined by a blank line. *)
Theorem download_signatures_bundle (u : user) (query_arg : option query)
    (s : storage) :
  let query := default (QTerm "status" "DEPLOYED") query_arg in
  let query_hash :=
    sha256_hexdigest
      (render query ++ "." ++ render (access_control u) ++ "."
       ++ signature_last_modified s) in
  let sigs := (hits (signature s) (QAnd query (access_control u))).*2 in
  signature_cache s !! query_hash = None →
  Forall (λ sig, well_formed sig = true) sigs →
  ∃ signature_list entries,
    download_signatures u query_arg s
    = (Ok (make_file_response (zip_read entries)
             ("al_signatures_" ++ String.substring 0 7 query_hash ++ ".zip")
             (String.length (zip_read entries)) "application/zip"),
       set_signature_cache
         (insert query_hash (zip_read entries, DEFAULT_CACHE_TTL)) s)
    ∧ signature_list ≡ₚ sigs
    ∧ StronglySorted (λ a b, sig_order a ≤ sig_order b) signature_list
    ∧ NoDup entries.*1
    ∧ ∀ e, e ∈ entries ↔
           ∃ sig, sig ∈ signature_list
                  ∧ e = (sig_type sig ++ "/" ++ sig_source sig,
                         join NLNL
                           (sig_data <$> filter (λ x, same_group x sig)
                                           signature_list)).
Proof.
  intros query query_hash sigs Hmiss Hwf.
  destruct (sorted_by_order_well_formed _ Hwf)
    as (signature_list & Hsort & Hperm & Hsorted & _).
  assert (Forall (λ sig, well_formed sig = true) signature_list) as Hwf'
    by by rewrite Hperm.
  destruct (bundle_entries_by_name _ Hwf') as (entries & Hrun & Hnd & Hent).
  exists signature_list, entries. split; [|split; [done|split; [done|split; [done|]]]].
  - apply download_signatures_miss; [done|]. fold query sigs.
    by rewrite Hsort.
  - intros e. rewrite Hent. apply exist_proper. intros sig.
    split; intros [Hin ->]; (split; [done|]); unfold out_fname at 1;
      do 3 f_equal; apply filter_ext_in; intros x Hx;
      rewrite Forall_forall in Hwf'; [|symmetry];
      apply out_fname_same_group; auto.
Qed.

End Props.

(** C6. With the archive built by [InMemoryZip], a download whose query
    matches no signature the caller may see does not fail on a cache miss:
    it answers with a file of type [application/zip] and saves that file in
    the cache under the hash of the request. The file is not an archive:
    no entry was appended, so nothing was written to the buffer, and the
    body is zero bytes, which hold no end of central directory record. *)
Theorem download_signatures_no_match_zero_bytes
    (zipfile_writestr : string → string → string → string)
    (sha256_hexdigest : string → string) (u : user)
    (query_arg : option query) (s : storage) :
  let query := default (QTerm "status" "DEPLOYED") query_arg in
  let query_hash :=
    sha256_hexdigest
      (render query ++ "." ++ render (access_control u) ++ "."
       ++ signature_last_modified s) in
  let rule_file_bin := MemoryZip.zip_read zipfile_writestr [] in
  hits (signature s) (QAnd query (access_control u)) = [] →
  signature_cache s !! query_hash = None →
  download_signatures sha256_hexdigest (MemoryZip.zip_read zipfile_writestr)
    u query_arg s
  = (Ok (make_file_response rule_file_bin
           ("al_signatures_" ++ String.substring 0 7 query_hash ++ ".zip")
           (String.length rule_file_bin) "application/zip"),
     set_signature_cache
       (insert query_hash (rule_file_bin, DEFAULT_CACHE_TTL)) s)
  ∧ rule_file_bin = EmptyString
  ∧ String.length rule_file_bin = 0%nat
  ∧ MemoryZip.has_end_record rule_file_bin = false.
Proof.
  intros query query_hash rule_file_bin Hnone Hmiss.
  split; [|done].
  exact (proj2 (download_signatures_no_match sha256_hexdigest
                  (MemoryZip.zip_read zipfile_writestr) u query_arg s Hnone)
           Hmiss).
Qed.

(** The record that the archive without members consists of is found. *)
Lemma has_end_record_empty_archive :
  MemoryZip.has_end_record MemoryZip.EMPTY_ARCHIVE = true
  ∧ String.length MemoryZip.EMPTY_ARCHIVE = 22%nat.
Proof. split; vm_compute; reflexivity. Qed.

(** Data that holds the record is not empty. *)
Lemma has_end_record_length blob :
  MemoryZip.has_end_record blob = true → (22 ≤ String.length blob)%nat.
Proof.
  induction blob as [|c blob IH]; [done|].
  change (MemoryZip.has_end_record (String c blob))
    with ((String.prefix MemoryZip.END_RECORD_SIGNATURE (String c blob)
           && Nat.leb MemoryZip.END_RECORD_SIZE (String.length (String c blob)))
          || MemoryZip.has_end_record blob).
  intros [H|H]%orb_true_iff.
  - apply andb_true_iff in H as [_ H]. by apply Nat.leb_le in H.
  - apply IH in H. simpl. lia.
Qed.

(** The download on an empty datastore. *)
Lemma download_signatures_no_match_zero_bytes_witness :
  Examples.download_in_memory_zip_ex Examples.admin None Examples.empty_storage
  = (Ok (make_file_response "" "al_signatures_status:.zip" 0 "application/zip"),
     set_signature_cache
       (insert "status:DEPLOYED.*." ("", DEFAULT_CACHE_TTL))
       Examples.empty_storage)
  ∧ MemoryZip.has_end_record "" = false.
Proof.
  destruct (download_signatures_no_match_zero_bytes Examples.zip_member
              Examples.hexdigest Examples.admin None Examples.empty_storage)
    as (Hrun & _ & _ & Hrec).
  - vm_compute. reflexivity.
  - vm_compute. reflexivity.
  - split; [exact Hrun | exact Hrec].
Defined.

(** The download of the three deployed signatures. *)
Lemma download_signatures_bundle_witness :
  ∃ signature_list entries,
    (Examples.download_signatures_ex Examples.admin None
       Examples.bundle_storage).1
    = Ok (make_file_response (Examples.zip_listing entries)
            "al_signatures_status:.zip"
            (String.length (Examples.zip_listing entries)) "application/zip")
    ∧ StronglySorted (λ a b, sig_order a ≤ sig_order b) signature_list
    ∧ NoDup entries.*1.
Proof.
  destruct (download_signatures_bundle Examples.hexdigest Examples.zip_listing
              Examples.admin None Examples.bundle_storage)
    as (signature_list & entries & Hrun & _ & Hsorted & Hnd & _).
  - vm_compute. reflexivity.
  - vm_compute. repeat constructor.
  - exists signature_list, entries. split; [|split; [exact Hsorted | exact Hnd]].
    exact (f_equal fst Hrun).
Defined.

(** The three signatures give two entries: the yara rules of [source1],
    joined by a blank line in the order of their [order], and the suricata
    rule of [source2]. *)
Lemma download_signatures_three_signatures :
  (Examples.download_signatures_ex Examples.admin None Examples.bundle_storage).1
  = Ok (make_file_response
          (Examples.zip_listing
             [("yara/source1", "rule b {}" ++ NLNL ++ "rule a {}");
              ("suricata/source2", "alert c")])
          "al_signatures_status:.zip" 59 "application/zip").
Proof. vm_compute. reflexivity. Qed.

End Download.

(** ** Reading, deleting and overwriting signatures *)

Module Crud.
Import Datastore Signature SignatureCrud.

Section Props.
Variable is_accessible : value → value → bool.
Variable UNRESTRICTED : value.
Variable get_id_from_data : value → string.

Local Abbreviation delete_signature :=
  (delete_signature is_accessible UNRESTRICTED).
Local Abbreviation get_signature := (get_signature is_accessible UNRESTRICTED).
Local Abbreviation add_signature := (add_signature get_id_from_data).

(** X1. Deleting a stored signature the caller may see reports success,
    removes that document and no other, and a later read of the
    identifier answers 404. *)
Theorem delete_signature_removes (s : storage) (sid : string) (u : user)
    (data : dict) :
  signature s !! sid = Some data →
  data ≠ [] →
  is_accessible (classification u)
    (dict_get_default "classification" UNRESTRICTED data) = true →
  ∃ s', delete_signature sid u s
        = (Ok (make_api_response (VDict [("success", VBool true)]) "" 200), s')
        ∧ signature s' !! sid = None
        ∧ (∀ k, k ≠ sid → signature s' !! k = signature s !! k)
        ∧ get_signature sid u s'
          = (Ok (make_api_response (VStr "")
                   ("Signature not found. (" ++ sid ++ ")") 404), s').
Proof.
  intros Hget Hne Hacc. unfold SignatureCrud.delete_signature. run.
  unfold get. rewrite Hget. destruct data as [|x data]; [done|].
  rewrite Hacc. simpl. eexists. split; [reflexivity|]. simpl.
  split; [apply lookup_delete_eq|]. split.
  - intros k Hk. by apply lookup_delete_ne.
  - unfold SignatureCrud.get_signature. run. unfold get. simpl.
    by rewrite lookup_delete_eq.
Qed.

(** X2. [delete_signature] never raises, and it leaves the datastore as it
    was unless it answers 200. *)
Theorem delete_signature_refusal_keeps_store (s : storage) (sid : string)
    (u : user) :
  ∃ r s', delete_signature sid u s = (Ok r, s')
          ∧ (status_code r = 200 ∨ (s' = s ∧ (status_code r = 403
                                              ∨ status_code r = 404))).
Proof.
  unfold SignatureCrud.delete_signature. run. unfold get.
  destruct (signature s !! sid) as [[|x data]|].
  - eexists _, _. split; [reflexivity|]. right. split; [done|by right].
  - destruct (is_accessible _ _); simpl.
    + eexists _, _. split; [reflexivity|]. by left.
    + eexists _, _. split; [reflexivity|]. right. split; [done|by left].
  - eexists _, _. split; [reflexivity|]. right. split; [done|by right].
Qed.

Lemma dict_set_cons k v (d : dict) : ∃ x d', dict_set k v d = x :: d'.
Proof.
  destruct d as [|[k' v'] d]; simpl; [eauto|].
  destruct (String.eqb k k'); eauto.
Qed.

(** The body [add_signature] saves: the request with its [signature_id]
    filled in, and the key it saves it under. *)
Local Abbreviation saved_body data :=
  (dict_set "signature_id"
     (dict_get_default "signature_id"
        (VStr (get_id_from_data (dict_get_default "data" VNone data))) data)
     data).
Local Abbreviation saved_key data :=
  (py_str (dict_get_default "type" VNone data) ++ "_"
   ++ py_str (dict_get_default "signature_id"
                (VStr (get_id_from_data (dict_get_default "data" VNone data)))
                data)
   ++ "_" ++ py_str (dict_get_default "revision" VNone data)).
Local Abbreviation name_query data :=
  (QAnd (QTerm "name" (py_str (dict_get_default "name" VNone data)))
     (QAnd (QTerm "type" (py_str (dict_get_default "type" VNone data)))
        (QAnd (QTerm "source" (py_str (dict_get_default "source" VNone data)))
           (QNot (QIdPrefix
                    (py_str (dict_get_default "signature_id"
                               (VStr (get_id_from_data
                                        (dict_get_default "data" VNone data)))
                               data))))))).

(** A request body with the keys [add_signature] reads, the mandatory ones
    not null. *)
Local Abbreviation complete data :=
  (is_none (dict_get_default "type" VNone data) = false
   ∧ (∃ n, dict_get "name" data = Some n ∧ is_none n = false)
   ∧ (∃ d, dict_get "data" data = Some d ∧ is_none d = false)
   ∧ is_Some (dict_get "revision" data)
   ∧ is_Some (dict_get "source" data)).

Lemma add_signature_run (data : dict) (s : storage) :
  complete data →
  add_signature data s
  = if bool_decide (0 < length (search (signature s) (name_query data)))%nat
    then (Ok (make_api_response (VDict [("success", VBool false)])
                "A signature with that name already exists" 400), s)
    else (Ok (make_api_response
                (VDict [("success", VBool true); ("id", VStr (saved_key data))])
                "" 200),
          set_signature (insert (saved_key data) (saved_body data)) s).
Proof.
  intros (Hty & (n & Hn & Hnn) & (d & Hd & Hdn) & [rev Hrev] & [src Hsrc]).
  assert (∃ ty, dict_get "type" data = Some ty) as [ty Hty'].
  { unfold dict_get_default in Hty. destruct (dict_get "type" data); [eauto|done]. }
  unfold Signature.add_signature, mandatory_missing. rewrite Hty.
  rewrite (dict_item_Some _ _ _ Hn). simpl. rewrite Hnn.
  rewrite (dict_item_Some _ _ _ Hd). simpl. rewrite Hdn. run.
  rewrite (dict_item_Some "type" _ ty) by (by rewrite dict_get_set_ne).
  rewrite (dict_item_Some "signature_id" _ _ (dict_get_set_eq _ _ _)).
  rewrite (dict_item_Some "revision" _ rev) by (by rewrite dict_get_set_ne).
  rewrite (dict_item_Some "name" _ n) by (by rewrite dict_get_set_ne).
  rewrite (dict_item_Some "source" _ src) by (by rewrite dict_get_set_ne).
  run.
  unfold dict_get_default. rewrite Hty', Hn, Hd, Hrev, Hsrc.
  by destruct (bool_decide _).
Qed.

(** X3. A complete request whose name is not taken is saved under
    [<type>_<signature_id>_<revision>], with a [signature_id] that is the
    one supplied or else the hash of the rule, and no other document is
    touched; a caller who may see it then reads back exactly the saved
    body. *)
Theorem add_signature_then_get (data : dict) (s : storage) (u : user) :
  complete data →
  search (signature s) (name_query data) = [] →
  is_accessible (classification u)
    (dict_get_default "classification" UNRESTRICTED (saved_body data)) = true →
  ∃ s', add_signature data s
        = (Ok (make_api_response
                 (VDict [("success", VBool true); ("id", VStr (saved_key data))])
                 "" 200), s')
        ∧ signature s' !! saved_key data = Some (saved_body data)
        ∧ (∀ k, k ≠ saved_key data → signature s' !! k = signature s !! k)
        ∧ get_signature (saved_key data) u s'
          = (Ok (make_api_response (VDict (saved_body data)) "" 200), s').
Proof.
  intros Hc Hfree Hacc. rewrite (add_signature_run _ _ Hc), Hfree. simpl.
  eexists. split; [reflexivity|]. simpl.
  split; [apply lookup_insert_eq|]. split.
  - intros k Hk. by apply lookup_insert_ne.
  - unfold SignatureCrud.get_signature. run. unfold get. simpl.
    rewrite lookup_insert_eq, Hacc. simpl.
    by destruct (dict_set_cons "signature_id"
                   (dict_get_default "signature_id"
                      (VStr (get_id_from_data (dict_get_default "data" VNone data)))
                      data) data) as (x & d' & ->).
Qed.

Lemma search_nonempty (c : gmap string dict) (q : query) k d :
  c !! k = Some d → matches q k d = true →
  (0 < length (search c q))%nat.
Proof.
  intros Hk Hm.
  assert (k ∈ search c q) as Hin.
  { unfold search, hits. apply list_elem_of_fmap. exists (k, d). split; [done|].
    apply elem_of_map_to_list. by apply map_lookup_filter_Some. }
  destruct (search c q); [by apply elem_of_nil in Hin | simpl; lia].
Qed.

(** X4. [add_signature] is not repeatable: once a complete request with
    string fields was saved, the same request is refused with a 400 for
    its name and the datastore stays as the first call left it, unless the
    [signature_id] is a prefix of the identifier. *)
Theorem add_signature_twice_refused (data : dict) (s : storage)
    (n ty src : string) :
  complete data →
  dict_get "name" data = Some (VStr n) →
  dict_get "type" data = Some (VStr ty) →
  dict_get "source" data = Some (VStr src) →
  search (signature s) (name_query data) = [] →
  String.prefix
    (py_str (dict_get_default "signature_id"
               (VStr (get_id_from_data (dict_get_default "data" VNone data)))
               data))
    (saved_key data) = false →
  ∃ s', add_signature data s
        = (Ok (make_api_response
                 (VDict [("success", VBool true); ("id", VStr (saved_key data))])
                 "" 200), s')
        ∧ add_signature data s'
          = (Ok (make_api_response (VDict [("success", VBool false)])
                   "A signature with that name already exists" 400), s').
Proof.
  intros Hc Hn Hty Hsrc Hfree Hpre.
  rewrite (add_signature_run _ _ Hc), Hfree. simpl.
  eexists. split; [reflexivity|].
  rewrite (add_signature_run _ _ Hc). rewrite bool_decide_true; [done|].
  apply (search_nonempty _ _ (saved_key data) (saved_body data)).
  { simpl. apply lookup_insert_eq. }
  unfold dict_get_default. rewrite Hn, Hty, Hsrc. simpl.
  rewrite !dict_get_set_ne by done. rewrite Hn, Hty, Hsrc. simpl.
  rewrite !String.eqb_refl. simpl.
  unfold dict_get_default in Hpre. rewrite Hty in Hpre. simpl in Hpre.
  rewrite Hpre. by rewrite bool_decide_false.
Qed.

(** X5. [update_signature] overwrites and never creates: it never
    raises, the set of stored identifiers is the same after every call, no
    document but the one addressed is touched, an identifier that holds no
    document is answered with 404 and no change, a 200 means that the
    document addressed now is the request body, and an identifier that
    holds a document is answered with [{success: true, sid}] and 200, the
    request body taking the place of the document, whatever the two hold. *)
Theorem update_signature_keeps_keys (s : storage) (sid : string) (data : dict) :
  ∃ r s', update_signature sid data s = (Ok r, s')
          ∧ dom (signature s') = dom (signature s)
          ∧ (∀ k, k ≠ sid → signature s' !! k = signature s !! k)
          ∧ (signature s !! sid = None → status_code r = 404 ∧ s' = s)
          ∧ (status_code r = 200 → signature s' !! sid = Some data)
          ∧ (∀ old, signature s !! sid = Some old → old ≠ [] →
               r = make_api_response
                     (VDict [("success", VBool true); ("sid", VStr sid)]) "" 200
               ∧ signature s' !! sid = Some data
               ∧ s' = set_signature (insert sid data) s).
Proof.
  unfold update_signature. run. unfold get.
  destruct (signature s !! sid) as [[|x old]|] eqn:Hget.
  - eexists _, _. split; [reflexivity|].
    split; [done|]. split; [done|]. split; [done|]. split; [done|].
    by intros old' [= <-] Hne.
  - eexists _, _. split; [reflexivity|]. simpl. unfold save.
    split; [|split; [|split; [|split; [|intros old' _ _; split; [|split]]]]].
    + rewrite dom_insert_L. apply subseteq_union_1_L, singleton_subseteq_l.
      by apply (elem_of_dom_2 (D:=gset string)) in Hget.
    + intros k Hk. by apply lookup_insert_ne.
    + done.
    + intros _. apply lookup_insert_eq.
    + done.
    + apply lookup_insert_eq.
    + done.
  - eexists _, _. split; [reflexivity|].
    split; [done|]. split; [done|]. split; [done|]. split; [done|].
    by intros old' [=].
Qed.

(** The deployed rule [yara_abc_1] is overwritten by a body that holds
    only a name. *)
Lemma update_signature_keeps_keys_witness :
  ∃ s', update_signature "yara_abc_1" [("name", VStr "renamed")]
          Examples.deployed_storage
        = (Ok (make_api_response
                 (VDict [("success", VBool true); ("sid", VStr "yara_abc_1")])
                 "" 200), s')
        ∧ signature Examples.deployed_storage !! "yara_abc_1"
          = Some (Examples.sig_plain "1" "DEPLOYED")
        ∧ signature s' !! "yara_abc_1" = Some [("name", VStr "renamed")].
Proof.
  destruct (update_signature_keeps_keys Examples.deployed_storage "yara_abc_1"
              [("name", VStr "renamed")])
    as (r & s' & Hrun & _ & _ & _ & _ & Hold).
  destruct (Hold (Examples.sig_plain "1" "DEPLOYED")) as (-> & Hnew & _).
  - apply (lookup_insert_eq (M:=gmap string)).
  - discriminate.
  - exists s'. split; [exact Hrun|]. split; [|exact Hnew].
    apply (lookup_insert_eq (M:=gmap string)).
Defined.

(** X6. [add_update_signature] needs the [source] key even when the
    request carries its own [signature_id]: a request that passed the
    mandatory-field check and has no [source] raises [KeyError], and
    nothing is saved. *)
Theorem add_update_signature_needs_source (data : dict) (s : storage) :
  mandatory_missing data = Ok false →
  dict_get "source" data = None →
  add_update_signature data s = (Raise (KeyError "source"), s).
Proof.
  intros Hm Hsrc. unfold add_update_signature. rewrite Hm. run.
  by rewrite (dict_item_None _ _ Hsrc).
Qed.

(** X7. [add_update_signature] saves the request under its
    [signature_id], which is [<source>.<name>] when the request has none,
    and repeating the call changes nothing: the second call gives the same
    answer and the same datastore. *)
Theorem add_update_signature_idempotent (data : dict) (s : storage)
    (src n : value) :
  mandatory_missing data = Ok false →
  dict_get "source" data = Some src →
  dict_get "name" data = Some n →
  let sid :=
    dict_get_default "signature_id" (VStr (py_str src ++ "." ++ py_str n))
      data in
  let r :=
    make_api_response (VDict [("success", VBool true); ("id", sid)]) "" 200 in
  let s' := set_signature (insert (py_str sid) (dict_set "signature_id" sid data)) s in
  add_update_signature data s = (Ok r, s')
  ∧ add_update_signature data s' = (Ok r, s').
Proof.
  intros Hm Hsrc Hn sid r s'.
  assert (∀ s0, add_update_signature data s0
                = (Ok r, set_signature
                           (insert (py_str sid) (dict_set "signature_id" sid data))
                           s0)) as Hrun.
  { intros s0. unfold add_update_signature. rewrite Hm. run.
    rewrite (dict_item_Some _ _ _ Hsrc). run.
    rewrite (dict_item_Some _ _ _ Hn). run.
    unfold dict_item. rewrite dict_get_set_eq. run. done. }
  split; [apply Hrun|]. rewrite Hrun. f_equal.
  unfold s', set_signature. simpl. f_equal. apply insert_insert_eq.
Qed.

End Props.

(** Deleting the one signature of a store. *)
Lemma delete_signature_removes_witness :
  ∃ s', delete_signature Examples.is_accessible Examples.UNRESTRICTED
          "yara_abc_1" Examples.admin Examples.deployed_storage
        = (Ok (make_api_response (VDict [("success", VBool true)]) "" 200), s')
        ∧ signature s' !! "yara_abc_1" = None.
Proof.
  destruct (delete_signature_removes Examples.is_accessible
              Examples.UNRESTRICTED Examples.deployed_storage "yara_abc_1"
              Examples.admin (Examples.sig_plain "1" "DEPLOYED"))
    as (s' & Hrun & Hgone & _).
  - reflexivity.
  - discriminate.
  - reflexivity.
  - exists s'. split; [exact Hrun | exact Hgone].
Defined.

Local Abbreviation complete_ex data :=
  (conj (eq_refl : is_none (dict_get_default "type" VNone data) = false)
     (conj (ex_intro _ _ (conj eq_refl eq_refl))
        (conj (ex_intro _ _ (conj eq_refl eq_refl))
           (conj (ex_intro _ _ eq_refl) (ex_intro _ _ eq_refl))))).

(** Adding revision 1 of the family [abc] to an empty store and reading
    it back. *)
Lemma add_signature_then_get_witness :
  ∃ s', add_signature (λ _, "0123456789abcdef")
          (Examples.sig_rev "1" "DEPLOYED") Examples.empty_storage
        = (Ok (make_api_response
                 (VDict [("success", VBool true); ("id", VStr "yara_abc_1")])
                 "" 200), s')
        ∧ get_signature Examples.is_accessible Examples.UNRESTRICTED
            "yara_abc_1" Examples.admin s'
          = (Ok (make_api_response (VDict (Examples.sig_rev "1" "DEPLOYED"))
                   "" 200), s').
Proof.
  destruct (add_signature_then_get Examples.is_accessible
              Examples.UNRESTRICTED (λ _, "0123456789abcdef")
              (Examples.sig_rev "1" "DEPLOYED") Examples.empty_storage
              Examples.admin)
    as (s' & Hrun & _ & _ & Hget).
  - exact (complete_ex (Examples.sig_rev "1" "DEPLOYED")).
  - vm_compute. reflexivity.
  - reflexivity.
  - exists s'. split; [exact Hrun | exact Hget].
Defined.

(** Adding revision 1 of the family [abc] twice. *)
Lemma add_signature_twice_refused_witness :
  ∃ s', add_signature (λ _, "0123456789abcdef")
          (Examples.sig_rev "1" "DEPLOYED") Examples.empty_storage
        = (Ok (make_api_response
                 (VDict [("success", VBool true); ("id", VStr "yara_abc_1")])
                 "" 200), s')
        ∧ add_signature (λ _, "0123456789abcdef")
            (Examples.sig_rev "1" "DEPLOYED") s'
          = (Ok (make_api_response (VDict [("success", VBool false)])
                   "A signature with that name already exists" 400), s').
Proof.
  apply (add_signature_twice_refused (λ _, "0123456789abcdef")
           (Examples.sig_rev "1" "DEPLOYED") Examples.empty_storage
           "rule_abc_1" "yara" "source1").
  - exact (complete_ex (Examples.sig_rev "1" "DEPLOYED")).
  - reflexivity.
  - reflexivity.
  - reflexivity.
  - vm_compute. reflexivity.
  - vm_compute. reflexivity.
Defined.

(** A request with its own [signature_id] and no [source]. *)
Lemma add_update_signature_needs_source_witness :
  add_update_signature
    [("type", VStr "yara"); ("name", VStr "x"); ("data", VStr "rule x {}");
     ("signature_id", VStr "abc")]
    Examples.empty_storage
  = (Raise (KeyError "source"), Examples.empty_storage).
Proof.
  apply add_update_signature_needs_source; reflexivity.
Defined.

(** A request without [signature_id], saved under [source1.x]. *)
Lemma add_update_signature_idempotent_witness :
  ∃ r s', add_update_signature
            [("type", VStr "yara"); ("name", VStr "x");
             ("data", VStr "rule x {}"); ("source", VStr "source1")]
            Examples.empty_storage = (Ok r, s')
          ∧ add_update_signature
              [("type", VStr "yara"); ("name", VStr "x");
               ("data", VStr "rule x {}"); ("source", VStr "source1")]
              s' = (Ok r, s')
          ∧ is_Some (signature s' !! "source1.x").
Proof.
  destruct (add_update_signature_idempotent
              [("type", VStr "yara"); ("name", VStr "x");
               ("data", VStr "rule x {}"); ("source", VStr "source1")]
              Examples.empty_storage (VStr "source1") (VStr "x")
              eq_refl eq_refl eq_refl) as [H1 H2].
  eexists _, _. split; [exact H1|]. split; [exact H2|].
  vm_compute. eauto.
Defined.
End Crud.

(** ** change_status: what a call writes *)

Module Lifecycle.
Import Datastore Signature.

Section Props.
Variable DEPLOYED_STATUSES STALE_STATUSES DRAFT_STATUSES : list string.
Variable is_accessible : value → value → bool.
Variable UNRESTRICTED : value.
Variable now_as_iso : string.

Local Abbreviation change_status :=
  (change_status DEPLOYED_STATUSES STALE_STATUSES DRAFT_STATUSES is_accessible
     UNRESTRICTED now_as_iso).

(** The target as the handler saves it, and a sibling as the cascade
    saves it. *)
Local Abbreviation stamped status u data :=
  (dict_set "status" (VStr status)
     (dict_set "state_change_user" (VStr (uname u))
        (dict_set "state_change_date" (VStr now_as_iso) data))).
Local Abbreviation disabled u d :=
  (dict_set "status" (VStr "DISABLED")
     (dict_set "state_change_user" (VStr (uname u))
        (dict_set "state_change_date" (VStr now_as_iso) d))).
Local Abbreviation sibling_query status family sid :=
  (QAnd (QTerm "status" status)
     (QAnd (QTerm "signature_id" (py_str family)) (QNot (QTerm "id" sid)))).

(** The cascade, as the handler runs it before it saves the target. *)
Local Abbreviation cascade status u family sid :=
  (if negb (bool_decide (status%string ∈ ["DISABLED"; "INVALID"; "TESTING"]))
   then
     let* keys :=
       gets (λ s, search (signature s) (sibling_query status family sid)) in
     let* others := (λ s, (multiget (signature s) keys, s)) in
     disable_others now_as_iso (uname u) others
   else ret tt).

(** A transition the handler lets through. *)
Local Abbreviation allowed :=
  (λ status st : string,
     status ∈ (DEPLOYED_STATUSES ++ DRAFT_STATUSES)%list
     ∧ ¬ (st ∈ STALE_STATUSES ∧ status ∉ DRAFT_STATUSES)
     ∧ ¬ (st ∈ DEPLOYED_STATUSES ∧ status ∈ DRAFT_STATUSES)).

Lemma change_status_run (s : storage) (sid status : string) (u : user)
    (data : dict) (st : string) (family : value) :
  allowed status st →
  signature s !! sid = Some data →
  is_accessible (classification u)
    (dict_get_default "classification" UNRESTRICTED data) = true →
  dict_get "status" data = Some (VStr st) →
  dict_get "signature_id" data = Some family →
  change_status sid status u s
  = (let* _ := cascade status u family sid in
     let* ok := signature_save sid (stamped status u data) in
     ret (make_api_response (VDict [("success", VBool ok)]) "" 200)) s.
Proof.
  intros (Hposs & Hstale & Hdep) Hget Hacc Hst Hfam.
  unfold Signature.change_status.
  rewrite bool_decide_true by done. cbn [negb]. run.
  unfold get. rewrite Hget.
  destruct (ChangeStatus.dict_get_nonempty _ _ _ Hst) as (x & d' & ->).
  rewrite Hacc. cbn [negb].
  rewrite (dict_item_Some _ _ _ Hst). run.
  change (str_in (VStr st) STALE_STATUSES)
    with (bool_decide (st ∈ STALE_STATUSES)).
  assert (bool_decide (st ∈ STALE_STATUSES)
          && negb (bool_decide (status ∈ DRAFT_STATUSES)) = false) as ->.
  { apply andb_false_iff.
    destruct (decide (st ∈ STALE_STATUSES)) as [H1|H1];
      [|left; by apply bool_decide_eq_false].
    right. apply negb_false_iff, bool_decide_eq_true.
    destruct (decide (status ∈ DRAFT_STATUSES)); [done|]. by destruct Hstale. }
  cbv iota. run.
  change (str_in (VStr st) DEPLOYED_STATUSES)
    with (bool_decide (st ∈ DEPLOYED_STATUSES)).
  assert (bool_decide (st ∈ DEPLOYED_STATUSES)
          && bool_decide (status ∈ DRAFT_STATUSES) = false) as ->.
  { apply andb_false_iff.
    destruct (decide (st ∈ DEPLOYED_STATUSES)) as [H1|H1];
      [|left; by apply bool_decide_eq_false].
    right. apply bool_decide_eq_false. intros H2. by destruct Hdep. }
  cbv iota. rewrite (dict_item_Some _ _ _ Hfam). run. reflexivity.
Qed.

(** X8. A change to [DISABLED], [INVALID] or [TESTING] that the handler
    lets through writes the target and nothing else: the target gets the
    new status, the caller and the time, its other fields are kept, and
    every other document is left as it was. *)
Theorem change_status_without_cascade (s : storage) (sid status : string)
    (u : user) (data : dict) (st : string) (family : value) :
  allowed status st →
  status ∈ ["DISABLED"; "INVALID"; "TESTING"] →
  signature s !! sid = Some data →
  is_accessible (classification u)
    (dict_get_default "classification" UNRESTRICTED data) = true →
  dict_get "status" data = Some (VStr st) →
  dict_get "signature_id" data = Some family →
  change_status sid status u s
  = (Ok (make_api_response (VDict [("success", VBool true)]) "" 200),
     set_signature (insert sid (stamped status u data)) s)
  ∧ (∀ k, k ≠ "status" → k ≠ "state_change_user" → k ≠ "state_change_date" →
          dict_get k (stamped status u data) = dict_get k data).
Proof.
  intros Hall Hin Hget Hacc Hst Hfam. split.
  - rewrite (change_status_run s sid status u data st family) by done.
    by rewrite bool_decide_true.
  - intros k H1 H2 H3. by rewrite !dict_get_set_ne.
Qed.

(** X9. Whenever [change_status] answers 200, the signature addressed is
    stored with the requested status, the caller's name and the time of
    the call, whatever the cascade wrote before. *)
Theorem change_status_success_stamps_target (s s' : storage)
    (sid status : string) (u : user) (r : http_response) :
  change_status sid status u s = (Ok r, s') →
  status_code r = 200 →
  ∃ data, signature s !! sid = Some data
          ∧ signature s' !! sid = Some (stamped status u data)
          ∧ dict_get "status" (stamped status u data) = Some (VStr status)
          ∧ dict_get "state_change_user" (stamped status u data)
            = Some (VStr (uname u)).
Proof.
  unfold Signature.change_status.
  destruct (bool_decide _); simpl; [|by intros [= <- <-]].
  run. unfold get.
  destruct (signature s !! sid) as [[|x data']|] eqn:Hget;
    [by intros [= <- <-] | | by intros [= <- <-]].
  destruct (is_accessible _ _); simpl; [|by intros [= <- <-]].
  destruct (dict_item "status" (x :: data')) as [st|e]; [|done]. run.
  destruct (str_in st STALE_STATUSES && _); [by intros [= <- <-]|]. run.
  destruct (str_in st DEPLOYED_STATUSES && _); [by intros [= <- <-]|].
  destruct (dict_item "signature_id" (x :: data')) as [family|e]; [|done]. run.
  unfold bind at 1.
  match goal with |- context [match ?c s with _ => _ end] =>
    destruct (c s) as [[[]|e] s1] end; [|done].
  intros [= <- <-] _. exists (x :: data'). split; [done|]. simpl.
  split; [apply lookup_insert_eq|].
  split; [apply dict_get_set_eq|].
  rewrite dict_get_set_ne by done. apply dict_get_set_eq.
Qed.

(** The siblings whose [meta] block rebuilds the identifier they are
    stored under. *)
Local Abbreviation rebuilds_own_key k d :=
  (∃ m rid rv,
     dict_get "meta" d = Some (VDict m)
     ∧ dict_get "rule_id" m = Some rid
     ∧ dict_get "rule_version" m = Some rv
     ∧ py_str rid ++ "r." ++ py_str rv = k).

Local Abbreviation write_disabled u :=
  (λ (m : gmap string dict) (kd : string * dict), <[kd.1 := disabled u kd.2]> m).

Lemma disable_other_run (u : user) (k : string) (d : dict) (s : storage) :
  rebuilds_own_key k d →
  disable_other now_as_iso (uname u) d s
  = (Ok tt, set_signature (insert k (disabled u d)) s).
Proof.
  intros (m & rid & rv & Hm & Hrid & Hrv & Hk). unfold disable_other.
  rewrite (dict_item_Some "meta" _ (VDict m)) by (by rewrite !dict_get_set_ne).
  run. unfold subscript. rewrite (dict_item_Some _ _ _ Hrid). run.
  rewrite (dict_item_Some _ _ _ Hrv). run. by rewrite Hk.
Qed.

Lemma disable_others_run (u : user) (l : list (string * dict)) (s : storage) :
  (∀ k d, (k, d) ∈ l → rebuilds_own_key k d) →
  disable_others now_as_iso (uname u) l.*2 s
  = (Ok tt, set_signature (λ m, foldl (write_disabled u) m l) s).
Proof.
  revert s. induction l as [|[k d] l IH]; intros s Hl.
  - by destruct s.
  - csimpl. unfold bind at 1.
    rewrite (disable_other_run u k d) by (apply Hl; by left).
    rewrite IH by (intros; apply Hl; by right). by destruct s.
Qed.

Lemma foldl_write_other (u : user) (l : list (string * dict)) m k :
  k ∉ l.*1 → foldl (write_disabled u) m l !! k = m !! k.
Proof.
  revert m. induction l as [|[k' d] l IH]; intros m Hk; [done|].
  csimpl in *. apply not_elem_of_cons in Hk as [Hne Hk].
  rewrite IH by done. by rewrite lookup_insert_ne.
Qed.

Lemma foldl_write_member (u : user) (l : list (string * dict)) m k d :
  NoDup l.*1 → (k, d) ∈ l →
  foldl (write_disabled u) m l !! k = Some (disabled u d).
Proof.
  revert m. induction l as [|[k' d'] l IH]; intros m Hnd Hin;
    [by apply elem_of_nil in Hin|].
  csimpl in *. apply NoDup_cons in Hnd as [Hnotin Hnd].
  apply elem_of_cons in Hin as [[= -> ->]|Hin].
  - rewrite foldl_write_other by done. apply lookup_insert_eq.
  - by apply IH.
Qed.

(** X10. When every other member of the family that already holds the new
    status is stored under the identifier its [meta] block rebuilds
    ([<rule_id>r.<rule_version>]), a change to a status outside
    [DISABLED], [INVALID] and [TESTING] succeeds, stores each of those
    members with status [DISABLED], the caller and the time, stores the
    target with the new status, and leaves every other document alone. *)
Theorem change_status_cascade_on_rebuilt_keys (s : storage)
    (sid status : string) (u : user) (data : dict) (st : string)
    (family : value) :
  allowed status st →
  status ∉ ["DISABLED"; "INVALID"; "TESTING"] →
  signature s !! sid = Some data →
  is_accessible (classification u)
    (dict_get_default "classification" UNRESTRICTED data) = true →
  dict_get "status" data = Some (VStr st) →
  dict_get "signature_id" data = Some family →
  (∀ k d, (k, d) ∈ hits (signature s) (sibling_query status family sid) →
          rebuilds_own_key k d) →
  ∃ s', change_status sid status u s
        = (Ok (make_api_response (VDict [("success", VBool true)]) "" 200), s')
        ∧ signature s' !! sid = Some (stamped status u data)
        ∧ (∀ k d, (k, d) ∈ hits (signature s) (sibling_query status family sid) →
                  signature s' !! k = Some (disabled u d)
                  ∧ dict_get "status" (disabled u d) = Some (VStr "DISABLED")
                  ∧ dict_get "state_change_user" (disabled u d)
                    = Some (VStr (uname u)))
        ∧ (∀ k, k ≠ sid →
                k ∉ search (signature s) (sibling_query status family sid) →
                signature s' !! k = signature s !! k).
Proof.
  intros Hall Hnot Hget Hacc Hst Hfam Hkeys.
  rewrite (change_status_run s sid status u data st family) by done.
  rewrite bool_decide_false by done. cbn [negb].
  unfold bind at 1. run. unfold bind at 1. rewrite Download.multiget_search.
  rewrite (disable_others_run u _ s Hkeys). run.
  eexists. split; [reflexivity|]. simpl. unfold save.
  assert (NoDup (hits (signature s) (sibling_query status family sid)).*1)
    as Hnd by apply NoDup_fst_map_to_list.
  assert (∀ k d, (k, d) ∈ hits (signature s) (sibling_query status family sid)
                 → k ≠ sid) as Hsid.
  { intros k d Hin ->. unfold hits in Hin. apply elem_of_map_to_list in Hin.
    apply map_lookup_filter_Some in Hin as [_ Hm]. simpl in Hm.
    rewrite String.eqb_refl in Hm. simpl in Hm.
    by rewrite !andb_false_r in Hm. }
  split; [apply lookup_insert_eq|]. split.
  - intros k d Hin. split; [|split].
    + rewrite lookup_insert_ne by (intros <-; by apply (Hsid _ _ Hin)).
      by apply foldl_write_member.
    + apply dict_get_set_eq.
    + rewrite dict_get_set_ne by done. apply dict_get_set_eq.
  - intros k Hk Hnotin. rewrite lookup_insert_ne by done.
    by apply foldl_write_other.
Qed.

(** X11. When the search finds members of the family at the new status
    and the first of them has no [meta] key, the change is not made: the
    handler raises [KeyError] and the datastore is as it was, the target
    included. *)
Theorem change_status_cascade_without_meta (s : storage)
    (sid status : string) (u : user) (data : dict) (st : string)
    (family : value) (k0 : string) (d0 : dict) (rest : list (string * dict)) :
  allowed status st →
  status ∉ ["DISABLED"; "INVALID"; "TESTING"] →
  signature s !! sid = Some data →
  is_accessible (classification u)
    (dict_get_default "classification" UNRESTRICTED data) = true →
  dict_get "status" data = Some (VStr st) →
  dict_get "signature_id" data = Some family →
  hits (signature s) (sibling_query status family sid) = (k0, d0) :: rest →
  dict_get "meta" d0 = None →
  change_status sid status u s = (Raise (KeyError "meta"), s).
Proof.
  intros Hall Hnot Hget Hacc Hst Hfam Hhits Hmeta.
  rewrite (change_status_run s sid status u data st family) by done.
  rewrite bool_decide_false by done. cbn [negb].
  unfold bind at 1. run. unfold bind at 1. rewrite Download.multiget_search, Hhits.
  csimpl. unfold bind at 1. unfold disable_other.
  rewrite (dict_item_None "meta") by (by rewrite !dict_get_set_ne).
  reflexivity.
Qed.

End Props.

(** Disabling revision 2 of the family, which is in testing. *)
Lemma change_status_without_cascade_witness :
  Examples.change_status_ex "yara_abc_2" "DISABLED" Examples.admin
    Examples.family_storage
  = (Ok (make_api_response (VDict [("success", VBool true)]) "" 200),
     set_signature
       (insert "yara_abc_2"
          (dict_set "status" (VStr "DISABLED")
             (dict_set "state_change_user" (VStr "admin")
                (dict_set "state_change_date" (VStr Examples.now)
                   (Examples.sig_rev "2" "TESTING")))))
       Examples.family_storage).
Proof.
  apply (change_status_without_cascade Examples.DEPLOYED_STATUSES
           Examples.STALE_STATUSES Examples.DRAFT_STATUSES
           Examples.is_accessible Examples.UNRESTRICTED Examples.now
           Examples.family_storage "yara_abc_2" "DISABLED" Examples.admin
           (Examples.sig_rev "2" "TESTING") "TESTING" (VStr "abc")).
  - split; [by_compute|]. split; intros [H1 H2]; revert H1; by_compute.
  - by_compute.
  - reflexivity.
  - reflexivity.
  - reflexivity.
  - reflexivity.
Defined.

(** Deploying revision 2 of the family stored under its own
    identifiers. *)
Lemma change_status_success_stamps_target_witness :
  ∃ data, signature Examples.family_storage !! "yara_abc_2" = Some data
          ∧ dict_get "status"
              (dict_set "status" (VStr "DEPLOYED")
                 (dict_set "state_change_user" (VStr "admin")
                    (dict_set "state_change_date" (VStr Examples.now) data)))
            = Some (VStr "DEPLOYED").
Proof.
  destruct (change_status_success_stamps_target Examples.DEPLOYED_STATUSES
              Examples.STALE_STATUSES Examples.DRAFT_STATUSES
              Examples.is_accessible Examples.UNRESTRICTED Examples.now
              Examples.family_storage
              (Examples.change_status_ex "yara_abc_2" "DEPLOYED" Examples.admin
                 Examples.family_storage).2
              "yara_abc_2" "DEPLOYED" Examples.admin
              (make_api_response (VDict [("success", VBool true)]) "" 200))
    as (data & Hget & _ & Hst & _).
  - vm_compute. reflexivity.
  - reflexivity.
  - exists data. split; [exact Hget | exact Hst].
Defined.

Lemma legacy_hits :
  hits (signature Examples.legacy_family_storage)
    (QAnd (QTerm "status" "DEPLOYED")
       (QAnd (QTerm "signature_id" "abc") (QNot (QTerm "id" "abcr.2"))))
  = [("abcr.1", Examples.sig_rev "1" "DEPLOYED")].
Proof. vm_compute. reflexivity. Qed.

(** Deploying revision 2 of the family stored under
    [<rule_id>r.<rule_version>]. *)
Lemma change_status_cascade_on_rebuilt_keys_witness :
  ∃ s', Examples.change_status_ex "abcr.2" "DEPLOYED" Examples.admin
          Examples.legacy_family_storage
        = (Ok (make_api_response (VDict [("success", VBool true)]) "" 200), s')
        ∧ dict_get "status" <$> signature s' !! "abcr.1"
          = Some (Some (VStr "DISABLED")).
Proof.
  destruct (change_status_cascade_on_rebuilt_keys Examples.DEPLOYED_STATUSES
              Examples.STALE_STATUSES Examples.DRAFT_STATUSES
              Examples.is_accessible Examples.UNRESTRICTED Examples.now
              Examples.legacy_family_storage "abcr.2" "DEPLOYED" Examples.admin
              (Examples.sig_rev "2" "TESTING") "TESTING" (VStr "abc"))
    as (s' & Hrun & _ & Hsib & _).
  - split; [by_compute|]. split; intros [H1 H2]; revert H1; by_compute.
  - by_compute.
  - reflexivity.
  - reflexivity.
  - reflexivity.
  - reflexivity.
  - intros k d Hin. change (py_str (VStr "abc")) with "abc" in Hin.
    rewrite legacy_hits in Hin. apply list_elem_of_singleton in Hin.
    injection Hin as -> ->.
    exists [("rule_id", VStr "abc"); ("rule_version", VStr "1")],
      (VStr "abc"), (VStr "1"). repeat split.
  - exists s'. split; [exact Hrun|].
    destruct (Hsib "abcr.1" (Examples.sig_rev "1" "DEPLOYED")) as (Hk & _).
    { change (py_str (VStr "abc")) with "abc". rewrite legacy_hits. by left. }
    rewrite Hk. reflexivity.
Defined.

Lemma plain_hits :
  hits (signature Examples.plain_family_storage)
    (QAnd (QTerm "status" "DEPLOYED")
       (QAnd (QTerm "signature_id" "abc") (QNot (QTerm "id" "yara_abc_2"))))
  = [("yara_abc_1", Examples.sig_plain "1" "DEPLOYED")].
Proof. vm_compute. reflexivity. Qed.

(** Deploying revision 2 of the family stored without [meta] blocks. *)
Lemma change_status_cascade_without_meta_witness :
  Examples.change_status_ex "yara_abc_2" "DEPLOYED" Examples.admin
    Examples.plain_family_storage
  = (Raise (KeyError "meta"), Examples.plain_family_storage).
Proof.
  apply (change_status_cascade_without_meta Examples.DEPLOYED_STATUSES
           Examples.STALE_STATUSES Examples.DRAFT_STATUSES
           Examples.is_accessible Examples.UNRESTRICTED Examples.now
           Examples.plain_family_storage "yara_abc_2" "DEPLOYED" Examples.admin
           (Examples.sig_plain "2" "TESTING") "TESTING" (VStr "abc")
           "yara_abc_1" (Examples.sig_plain "1" "DEPLOYED") []).
  - split; [by_compute|]. split; intros [H1 H2]; revert H1; by_compute.
  - by_compute.
  - reflexivity.
  - reflexivity.
  - reflexivity.
  - reflexivity.
  - exact plain_hits.
  - reflexivity.
Defined.
End Lifecycle.

(** ** Signature sources: how the three operations compose *)

Module SourceList.
Import Datastore Signature.

Local Abbreviation success :=
  (make_api_response (VDict [("success", VBool true)]) "" 200).

(** The view of the service once the sources of its delta were set. *)
Lemma view_after_save s svc service_data delta l :
  get_service_with_delta s svc = Some service_data →
  service_delta s !! svc = Some delta →
  ∃ service_data',
    get_service_with_delta
      (set_service_delta (insert svc (delta_with_sources delta l)) s) svc
    = Some service_data'
    ∧ service_sources service_data' = l
    ∧ service_generates_signatures service_data'
      = service_generates_signatures service_data.
Proof.
  unfold get_service_with_delta. intros Hsd Hd. rewrite Hd in Hsd.
  destruct s as [sg lm sv sd sc]; simpl in *.
  rewrite lookup_insert_eq. destruct (sv !! svc) as [b|]; [|done].
  injection Hsd as <-. eexists. split; [reflexivity|].
  unfold delta_with_sources, service_sources, service_generates_signatures.
  destruct delta as [[[[?|] [?|]]|]], b as [[[[?|] [?|]]|]]; simpl; done.
Qed.

Lemma view_delta s svc service_data :
  get_service_with_delta s svc = Some service_data →
  ∃ delta, service_delta s !! svc = Some delta.
Proof.
  unfold get_service_with_delta.
  destruct (service_delta s !! svc); [eauto|done].
Qed.

Lemma add_signature_source_run s svc service_data delta data :
  get_service_with_delta s svc = Some service_data →
  service_delta s !! svc = Some delta →
  service_generates_signatures service_data = true →
  add_signature_source svc (Ok data) s
  = match find_collision data (service_sources service_data) with
    | Some response => (Ok response, s)
    | None =>
        (Ok success,
         set_service_delta
           (insert svc
              (delta_with_sources delta
                 (service_sources service_data ++ [data])%list)) s)
    end.
Proof.
  intros Hsd Hd Hgen. unfold add_signature_source, bind at 1.
  rewrite Hsd. simpl. rewrite Hgen. simpl.
  destruct (find_collision _ _); [done|].
  unfold bind at 1. by rewrite Hd.
Qed.

Lemma remove_source_filter name_ l :
  remove_source name_ l
  = (filter (λ src, name src ≠ name_) l,
     existsb (λ src, String.eqb name_ (name src)) l).
Proof.
  induction l as [|x l IH]; [done|]. simpl. rewrite IH, filter_cons.
  destruct (String.eqb name_ (name x)) eqn:E.
  - apply String.eqb_eq in E. by rewrite decide_False by (by intros ?).
  - apply String.eqb_neq in E. by rewrite decide_True by (by intros ?).
Qed.

Lemma delete_signature_source_run s svc service_data delta name_ :
  get_service_with_delta s svc = Some service_data →
  service_delta s !! svc = Some delta →
  service_generates_signatures service_data = true →
  delete_signature_source svc name_ s
  = if existsb (λ src, String.eqb name_ (name src))
         (service_sources service_data)
    then (Ok success,
          set_service_delta
            (insert svc
               (delta_with_sources delta
                  (filter (λ src, name src ≠ name_)
                     (service_sources service_data)))) s)
    else (Ok (make_api_response (VDict [("success", VBool false)])
                ("Could not found source '" ++ name_ ++ "' in service "
                 ++ svc ++ ".") 404), s).
Proof.
  intros Hsd Hd Hgen. unfold delete_signature_source, bind at 1.
  rewrite Hsd. simpl. rewrite Hgen. simpl. rewrite remove_source_filter.
  destruct (existsb _ _); [|done]. simpl.
  unfold bind at 1. by rewrite Hd.
Qed.

Lemma existsb_name name_ (l : list source) :
  existsb (λ src, String.eqb name_ (name src)) l = true
  ↔ ∃ src, src ∈ l ∧ name src = name_.
Proof.
  rewrite existsb_exists. split; intros (src & Hin & Hn); exists src.
  - apply String.eqb_eq in Hn. by rewrite list_elem_of_In.
  - rewrite <- list_elem_of_In. split; [done|]. by apply String.eqb_eq.
Qed.

(** X12. Deleting a source by name from a service that generates
    signatures and has a source of that name saves the list without the
    sources of that name, the others in their order: afterwards the
    service has no source of that name. *)
Theorem delete_signature_source_removes (s : storage) (svc name_ : string)
    (service_data : service_doc) :
  get_service_with_delta s svc = Some service_data →
  service_generates_signatures service_data = true →
  (∃ src, src ∈ service_sources service_data ∧ name src = name_) →
  ∃ s' service_data',
    delete_signature_source svc name_ s = (Ok success, s')
    ∧ get_service_with_delta s' svc = Some service_data'
    ∧ service_sources service_data'
      = filter (λ src, name src ≠ name_) (service_sources service_data)
    ∧ (∀ src, src ∈ service_sources service_data' → name src ≠ name_)
    ∧ service_generates_signatures service_data' = true.
Proof.
  intros Hsd Hgen Hex. destruct (view_delta _ _ _ Hsd) as [delta Hd].
  rewrite (delete_signature_source_run s svc service_data delta) by done.
  apply existsb_name in Hex. rewrite Hex.
  destruct (view_after_save s svc service_data delta
              (filter (λ src, name src ≠ name_) (service_sources service_data))
              Hsd Hd) as (sd' & Hview & Hsrc & Hgen').
  eexists _, sd'. split; [reflexivity|]. split; [done|]. split; [done|].
  split; [|congruence].
  intros src. rewrite Hsrc. by intros [? _]%list_elem_of_filter.
Qed.

Lemma filter_all {A} (P : A → Prop) `{!∀ x, Decision (P x)} (l : list A) :
  (∀ x, x ∈ l → P x) → filter P l = l.
Proof.
  induction l as [|a l IH]; intros Hall; [done|].
  rewrite filter_cons, decide_True by (apply Hall; by left).
  rewrite IH; [done|]. intros x Hx. apply Hall. by right.
Qed.

(** X13. Adding a source whose name and uri are new and then deleting it
    by its name gives back the source list the service had. *)
Theorem add_then_delete_source (s : storage) (svc : string)
    (service_data : service_doc) (data : source) :
  get_service_with_delta s svc = Some service_data →
  service_generates_signatures service_data = true →
  (∀ src, src ∈ service_sources service_data →
          name src ≠ name data ∧ uri src ≠ uri data) →
  ∃ s1 s2 service_data2,
    add_signature_source svc (Ok data) s = (Ok success, s1)
    ∧ delete_signature_source svc (name data) s1 = (Ok success, s2)
    ∧ get_service_with_delta s2 svc = Some service_data2
    ∧ service_sources service_data2 = service_sources service_data.
Proof.
  intros Hsd Hgen Hfresh. destruct (view_delta _ _ _ Hsd) as [delta Hd].
  rewrite (add_signature_source_run s svc service_data delta) by done.
  rewrite (Sources.find_collision_None _ _ Hfresh).
  destruct (view_after_save s svc service_data delta
              (service_sources service_data ++ [data])%list Hsd Hd)
    as (sd1 & Hview1 & Hsrc1 & Hgen1).
  assert (service_delta
            (set_service_delta
               (insert svc
                  (delta_with_sources delta
                     (service_sources service_data ++ [data])%list)) s) !! svc
          = Some (delta_with_sources delta
                    (service_sources service_data ++ [data])%list)) as Hd1.
  { simpl. apply lookup_insert_eq. }
  destruct (view_after_save _ svc sd1 _
              (filter (λ src, name src ≠ name data)
                 (service_sources service_data ++ [data])%list) Hview1 Hd1)
    as (sd2 & Hview2 & Hsrc2 & _).
  eexists _, _, sd2. split; [reflexivity|].
  rewrite (delete_signature_source_run _ svc sd1 _ (name data) Hview1 Hd1)
    by congruence.
  rewrite Hsrc1.
  assert (existsb (λ src, String.eqb (name data) (name src))
            (service_sources service_data ++ [data])%list = true) as ->.
  { apply existsb_name. exists data. split; [|done].
    apply elem_of_app. right. by left. }
  split; [reflexivity|].
  split; [exact Hview2|]. rewrite Hsrc2, filter_app.
  rewrite filter_cons, decide_False by (by intros ?). simpl.
  rewrite app_nil_r. apply filter_all.
  intros src Hin. by destruct (Hfresh src Hin).
Qed.

Lemma find_collision_None_inv data l :
  find_collision data l = None →
  ∀ src, src ∈ l → name src ≠ name data ∧ uri src ≠ uri data.
Proof.
  induction l as [|x l IH]; intros Hnone src Hin;
    [by apply elem_of_nil in Hin|].
  simpl in Hnone.
  destruct (String.eqb (name x) (name data)) eqn:En; [done|].
  destruct (String.eqb (uri x) (uri data)) eqn:Eu; [done|].
  apply elem_of_cons in Hin as [->|Hin]; [|by apply IH].
  split; by apply String.eqb_neq.
Qed.

(** X14. [add_signature_source] keeps names and uris unique: when no two
    sources of the service share a name or a uri and the call reports
    success, no two sources of the saved list share a name or a uri. *)
Theorem add_signature_source_keeps_unique (s s' : storage) (svc : string)
    (service_data : service_doc) (data : source) :
  get_service_with_delta s svc = Some service_data →
  NoDup (name <$> service_sources service_data) →
  NoDup (uri <$> service_sources service_data) →
  add_signature_source svc (Ok data) s = (Ok success, s') →
  ∃ service_data',
    get_service_with_delta s' svc = Some service_data'
    ∧ NoDup (name <$> service_sources service_data')
    ∧ NoDup (uri <$> service_sources service_data').
Proof.
  intros Hsd Hnames Huris Hrun. destruct (view_delta _ _ _ Hsd) as [delta Hd].
  destruct (service_generates_signatures service_data) eqn:Hgen.
  2:{ unfold add_signature_source, bind at 1 in Hrun. rewrite Hsd in Hrun.
      simpl in Hrun. rewrite Hgen in Hrun. simpl in Hrun. done. }
  rewrite (add_signature_source_run s svc service_data delta) in Hrun by done.
  destruct (find_collision data (service_sources service_data)) as [r|] eqn:Hc.
  { injection Hrun as -> _.
    clear -Hc. exfalso. induction (service_sources service_data) as [|x l IH];
      [done|]. simpl in Hc.
    destruct (String.eqb (name x) (name data)); [done|].
    destruct (String.eqb (uri x) (uri data)); [done|]. by apply IH. }
  injection Hrun as <-.
  destruct (view_after_save s svc service_data delta
              (service_sources service_data ++ [data])%list Hsd Hd)
    as (sd' & Hview & Hsrc & _).
  exists sd'. split; [done|]. rewrite Hsrc, !fmap_app. csimpl.
  pose proof (find_collision_None_inv _ _ Hc) as Hfresh.
  split; apply NoDup_app; (split; [done|]);
    (split; [|apply NoDup_singleton]);
    intros x (src & -> & Hin)%list_elem_of_fmap Heq%list_elem_of_singleton;
    by destruct (Hfresh src Hin).
Qed.

Lemma update_signature_source_run s svc service_data delta name_ data :
  get_service_with_delta s svc = Some service_data →
  service_delta s !! svc = Some delta →
  name_ = name data →
  service_generates_signatures service_data = true →
  service_sources service_data ≠ [] →
  update_signature_source svc name_ data s
  = if existsb (λ src, String.eqb (name data) (name src))
         (service_sources service_data)
    then (Ok success,
          set_service_delta
            (insert svc
               (delta_with_sources delta
                  (map (λ src, if String.eqb (name data) (name src)
                               then data else src)
                     (service_sources service_data)))) s)
    else (Raise (AttributeError "'dict' object has no attribute 'name'"), s).
Proof.
  intros Hsd Hd -> Hgen Hne. unfold update_signature_source, bind at 1.
  rewrite Hsd. simpl. rewrite String.eqb_refl, Hgen. simpl.
  rewrite bool_decide_false by (by intros ?%nil_length_inv).
  rewrite Sources.replace_source_map.
  destruct (existsb _ _); [|done]. simpl.
  unfold bind at 1. by rewrite Hd.
Qed.

Lemma replaced_names (data : source) (l : list source) :
  name <$> map (λ src, if String.eqb (name data) (name src) then data else src) l
  = name <$> l.
Proof.
  induction l as [|x l IH]; [done|]. csimpl. rewrite IH. f_equal.
  destruct (String.eqb (name data) (name x)) eqn:E; [|done].
  by apply String.eqb_eq in E.
Qed.

(** X15. A successful [update_signature_source] changes neither the names
    of the sources nor their number: the saved list has the same names at
    the same places. *)
Theorem update_signature_source_keeps_names (s s' : storage)
    (svc name_ : string) (service_data : service_doc) (data : source) :
  get_service_with_delta s svc = Some service_data →
  update_signature_source svc name_ data s = (Ok success, s') →
  ∃ service_data',
    get_service_with_delta s' svc = Some service_data'
    ∧ name <$> service_sources service_data'
      = name <$> service_sources service_data
    ∧ length (service_sources service_data')
      = length (service_sources service_data).
Proof.
  intros Hsd Hrun. destruct (view_delta _ _ _ Hsd) as [delta Hd].
  assert (name_ = name data ∧ service_generates_signatures service_data = true
          ∧ service_sources service_data ≠ []) as (Hn & Hgen & Hne).
  { unfold update_signature_source, bind at 1 in Hrun. rewrite Hsd in Hrun.
    simpl in Hrun.
    destruct (String.eqb name_ (name data)) eqn:E; [|done].
    apply String.eqb_eq in E.
    destruct (service_generates_signatures service_data); [|done].
    simpl in Hrun. case_bool_decide as Hlen; [done|].
    repeat split; [done|]. intros Hnil. by rewrite Hnil in Hlen. }
  rewrite (update_signature_source_run s svc service_data delta) in Hrun by done.
  destruct (existsb _ _); [|done]. injection Hrun as <-.
  destruct (view_after_save s svc service_data delta
              (map (λ src, if String.eqb (name data) (name src)
                           then data else src)
                 (service_sources service_data)) Hsd Hd)
    as (sd' & Hview & Hsrc & _).
  exists sd'. split; [done|]. rewrite Hsrc. split; [|by rewrite length_map].
  apply replaced_names.
Qed.

(** X16. On a service that generates signatures and has sources, none of
    them with the name addressed, [update_signature_source] does not
    answer: it raises [AttributeError] while it builds its message, and
    the datastore is as it was. *)
Theorem update_signature_source_unknown_raises (s : storage)
    (svc : string) (service_data : service_doc) (data : source) :
  get_service_with_delta s svc = Some service_data →
  service_generates_signatures service_data = true →
  service_sources service_data ≠ [] →
  (∀ src, src ∈ service_sources service_data → name src ≠ name data) →
  update_signature_source svc (name data) data s
  = (Raise (AttributeError "'dict' object has no attribute 'name'"), s).
Proof.
  intros Hsd Hgen Hne Hnone. destruct (view_delta _ _ _ Hsd) as [delta Hd].
  rewrite (update_signature_source_run s svc service_data delta) by done.
  destruct (existsb _ _) eqn:E; [|done].
  apply existsb_name in E as (src & Hin & Hn). by destruct (Hnone src Hin).
Qed.

(** X17. The three source operations write all or nothing: each of them
    either reports success, and then only the delta of the service
    addressed was saved, or leaves the whole datastore as it was, also
    when it raises. *)
Theorem source_operations_atomic (s s' : storage) (svc name_ : string)
    (request_json : outcome source) (data : source)
    (r : outcome http_response) :
  add_signature_source svc request_json s = (r, s')
  ∨ update_signature_source svc name_ data s = (r, s')
  ∨ delete_signature_source svc name_ s = (r, s') →
  s' = s
  ∨ (r = Ok success
     ∧ ∃ delta, s' = set_service_delta (insert svc delta) s).
Proof.
  intros [H|[H|H]].
  - unfold add_signature_source in H.
    destruct request_json as [d|[]]; try (injection H as <- <-; by left).
    unfold bind at 1 in H.
    destruct (get_service_with_delta s svc) as [sd|]; simpl in H;
      [|injection H as <- <-; by left].
    destruct (service_generates_signatures sd); simpl in H;
      [|injection H as <- <-; by left].
    destruct (find_collision d (service_sources sd));
      [injection H as <- <-; by left|].
    unfold bind at 1 in H.
    destruct (service_delta s !! svc) as [delta|]; simpl in H;
      injection H as <- <-; [right; eauto | by left].
  - unfold update_signature_source, bind at 1 in H.
    destruct (get_service_with_delta s svc) as [sd|]; simpl in H;
      [|injection H as <- <-; by left].
    destruct (String.eqb name_ (name data)); simpl in H;
      [|injection H as <- <-; by left].
    destruct (service_generates_signatures sd); simpl in H;
      [|injection H as <- <-; by left].
    case_bool_decide; [injection H as <- <-; by left|].
    rewrite Sources.replace_source_map in H.
    destruct (existsb _ _); simpl in H; [|injection H as <- <-; by left].
    unfold bind at 1 in H.
    destruct (service_delta s !! svc) as [delta|]; simpl in H;
      injection H as <- <-; [right; eauto | by left].
  - unfold delete_signature_source, bind at 1 in H.
    destruct (get_service_with_delta s svc) as [sd|]; simpl in H;
      [|injection H as <- <-; by left].
    destruct (service_generates_signatures sd); simpl in H;
      [|injection H as <- <-; by left].
    rewrite remove_source_filter in H.
    destruct (existsb _ _); simpl in H; [|injection H as <- <-; by left].
    unfold bind at 1 in H.
    destruct (service_delta s !! svc) as [delta|]; simpl in H;
      injection H as <- <-; [right; eauto | by left].
Qed.


Local Abbreviation yara_data :=
  (ServiceDoc (Some (UpdateConfig (Some true) (Some [Examples.src_a])))).

(** Deleting the source [a.yar] of [Yara]. *)
Lemma delete_signature_source_removes_witness :
  ∃ s' service_data',
    delete_signature_source "Yara" "a.yar" Examples.source_storage
    = (Ok success, s')
    ∧ get_service_with_delta s' "Yara" = Some service_data'
    ∧ service_sources service_data' = [].
Proof.
  destruct (delete_signature_source_removes Examples.source_storage "Yara"
              "a.yar" yara_data eq_refl eq_refl)
    as (s' & sd' & Hrun & Hview & Hsrc & _).
  - exists Examples.src_a. split; [apply list_elem_of_singleton|]; reflexivity.
  - exists s', sd'. split; [exact Hrun|]. split; [exact Hview|].
    rewrite Hsrc. reflexivity.
Defined.

Lemma src_b_fresh (src : source) :
  src ∈ service_sources yara_data →
  name src ≠ name Examples.src_b ∧ uri src ≠ uri Examples.src_b.
Proof.
  intros Hin. apply list_elem_of_singleton in Hin. subst src.
  split; discriminate.
Qed.

(** Adding [b.yar] to [Yara] and deleting it again. *)
Lemma add_then_delete_source_witness :
  ∃ s1 s2 service_data2,
    add_signature_source "Yara" (Ok Examples.src_b) Examples.source_storage
    = (Ok success, s1)
    ∧ delete_signature_source "Yara" "b.yar" s1 = (Ok success, s2)
    ∧ get_service_with_delta s2 "Yara" = Some service_data2
    ∧ service_sources service_data2 = [Examples.src_a].
Proof.
  exact (add_then_delete_source Examples.source_storage "Yara" yara_data
           Examples.src_b eq_refl eq_refl src_b_fresh).
Defined.

(** Adding [b.yar] to [Yara]: two names, two uris. *)
Lemma add_signature_source_keeps_unique_witness :
  ∃ service_data',
    get_service_with_delta
      (add_signature_source "Yara" (Ok Examples.src_b)
         Examples.source_storage).2 "Yara" = Some service_data'
    ∧ NoDup (name <$> service_sources service_data')
    ∧ NoDup (uri <$> service_sources service_data').
Proof.
  apply (add_signature_source_keeps_unique Examples.source_storage _ "Yara"
           yara_data Examples.src_b).
  - reflexivity.
  - apply NoDup_singleton.
  - apply NoDup_singleton.
  - vm_compute. reflexivity.
Defined.

(** Moving the source [a.yar] of [Yara] to another uri. *)
Lemma update_signature_source_keeps_names_witness :
  ∃ service_data',
    get_service_with_delta
      (update_signature_source "Yara" "a.yar" Examples.src_a_moved
         Examples.source_storage).2 "Yara" = Some service_data'
    ∧ name <$> service_sources service_data' = ["a.yar"]
    ∧ length (service_sources service_data') = 1%nat.
Proof.
  apply (update_signature_source_keeps_names Examples.source_storage _ "Yara"
           "a.yar" yara_data Examples.src_a_moved).
  - reflexivity.
  - vm_compute. reflexivity.
Defined.

(** Updating a source [b.yar] that [Yara] does not have. *)
Lemma update_signature_source_unknown_raises_witness :
  update_signature_source "Yara" "b.yar" Examples.src_b Examples.source_storage
  = (Raise (AttributeError "'dict' object has no attribute 'name'"),
     Examples.source_storage).
Proof.
  apply (update_signature_source_unknown_raises Examples.source_storage "Yara"
           yara_data Examples.src_b).
  - reflexivity.
  - reflexivity.
  - discriminate.
  - intros src Hin. by destruct (src_b_fresh src Hin).
Defined.

(** A refused addition to [Safelist], which does not generate
    signatures. *)
Lemma source_operations_atomic_witness :
  (add_signature_source "Safelist" (Ok Examples.src_b)
     Examples.source_storage).2 = Examples.source_storage
  ∨ ((add_signature_source "Safelist" (Ok Examples.src_b)
        Examples.source_storage).1 = Ok success
     ∧ ∃ delta,
         (add_signature_source "Safelist" (Ok Examples.src_b)
            Examples.source_storage).2
         = set_service_delta (insert "Safelist" delta) Examples.source_storage).
Proof.
  apply (source_operations_atomic Examples.source_storage _ "Safelist" "b.yar"
           (Ok Examples.src_b) Examples.src_b).
  left. apply surjective_pairing.
Defined.
End SourceList.

(** ** download_signatures: the cache and the groups *)

Module Bundle.
Import Datastore Signature.

Lemma add_to_file_concat f d (fs : list (string * list value)) :
  concat (add_to_file f d fs).*2 ≡ₚ d :: concat fs.*2.
Proof.
  induction fs as [|[f' ds] fs IH]; simpl; [done|].
  destruct (String.eqb f f'); csimpl.
  - rewrite <- app_assoc. simpl. by rewrite <- Permutation_middle.
  - rewrite IH. by rewrite <- Permutation_middle.
Qed.

Lemma add_to_file_length f d (fs : list (string * list value)) :
  (length (add_to_file f d fs) ≤ S (length fs))%nat.
Proof.
  induction fs as [|[f' ds] fs IH]; simpl; [done|].
  destruct (String.eqb f f'); simpl; lia.
Qed.

(** X18. The grouping loop neither drops nor repeats a signature: when it
    ends without an exception, the texts held by the groups are, up to
    their order, the [data] of the signatures it went through, one each,
    and there are no more groups than signatures. *)
Theorem group_signatures_conserves (signature_list : list dict)
    (output_files : list (string * list value)) :
  group_signatures signature_list [] = Ok output_files →
  ∃ texts,
    Forall2 (λ sig text, dict_get "data" sig = Some text) signature_list texts
    ∧ concat output_files.*2 ≡ₚ texts
    ∧ (length output_files ≤ length signature_list)%nat.
Proof.
  assert (∀ acc files,
            group_signatures signature_list acc = Ok files →
            ∃ texts,
              Forall2 (λ sig text, dict_get "data" sig = Some text)
                signature_list texts
              ∧ concat files.*2 ≡ₚ concat acc.*2 ++ texts
              ∧ (length files ≤ length acc + length signature_list)%nat) as H.
  { induction signature_list as [|sig l IH]; intros acc files Hrun.
    - injection Hrun as <-. exists []. split; [constructor|].
      rewrite app_nil_r. split; [done|simpl; lia].
    - simpl in Hrun.
      destruct (dict_item "type" sig) as [ty|]; [|done].
      destruct (dict_item "source" sig) as [src|]; [|done].
      simpl in Hrun. unfold dict_item in Hrun.
      destruct (dict_get "data" sig) as [d|] eqn:Hd; [|done]. simpl in Hrun.
      destruct (IH _ _ Hrun) as (texts & Hf & Hperm & Hlen).
      exists (d :: texts). split; [by constructor|]. split.
      + rewrite Hperm, add_to_file_concat. by rewrite <- Permutation_middle.
      + pose proof (add_to_file_length (py_str ty ++ "/" ++ py_str src) d acc).
        simpl. lia. }
  intros Hrun. destruct (H [] _ Hrun) as (texts & Hf & Hperm & Hlen).
  exists texts. by repeat split.
Qed.

Section Props.
Variable sha256_hexdigest : string → string.
Variable zip_read : list (string * string) → string.

Local Abbreviation download_signatures :=
  (download_signatures sha256_hexdigest zip_read).
Local Abbreviation query_hash_of u query_arg s :=
  (sha256_hexdigest
     (render (default (QTerm "status" "DEPLOYED") query_arg) ++ "."
      ++ render (access_control u) ++ "." ++ signature_last_modified s)).

(** The archive entries of a request, as the handler builds them. *)
Local Abbreviation build u query_arg s :=
  (let? signature_list :=
     sorted_by_order
       (hits (signature s)
          (QAnd (default (QTerm "status" "DEPLOYED") query_arg)
             (access_control u))).*2 in
   let? output_files := group_signatures signature_list [] in
   zip_entries output_files).

Lemma download_signatures_cases (u : user) (query_arg : option query)
    (s : storage) :
  download_signatures u query_arg s
  = match signature_cache s !! query_hash_of u query_arg s with
    | Some (blob, _) =>
        (Ok (make_file_response blob
               ("al_signatures_"
                ++ String.substring 0 7 (query_hash_of u query_arg s) ++ ".zip")
               (String.length blob) "application/zip"), s)
    | None =>
        match build u query_arg s with
        | Ok entries =>
            (Ok (make_file_response (zip_read entries)
                   ("al_signatures_"
                    ++ String.substring 0 7 (query_hash_of u query_arg s)
                    ++ ".zip")
                   (String.length (zip_read entries)) "application/zip"),
             set_signature_cache
               (insert (query_hash_of u query_arg s)
                  (zip_read entries, DEFAULT_CACHE_TTL)) s)
        | Raise e => (Raise e, s)
        end
    end.
Proof.
  destruct (signature_cache s !! query_hash_of u query_arg s)
    as [[blob ttl]|] eqn:Hc.
  - by apply (Download.download_signatures_hit _ _ u query_arg s blob ttl).
  - destruct (build u query_arg s) as [entries|e] eqn:Hb.
    + by apply Download.download_signatures_miss.
    + unfold Signature.download_signatures, with_lock. run.
      unfold _get_cached_signatures. rewrite Hc. run. rewrite Hc. run.
      unfold bind at 1. rewrite Download.multiget_search.
      destruct (sorted_by_order _) as [signature_list|]; simpl in Hb;
        [|by injection Hb as <-].
      run.
      destruct (group_signatures signature_list []) as [output_files|];
        simpl in Hb; [|by injection Hb as <-].
      run. rewrite Hb. reflexivity.
Qed.

(** X19. A download that builds the archive is repeatable: the same
    request right after it is answered from the cache with the same
    response, and the datastore and the cache stay as the first call left
    them. *)
Theorem download_signatures_repeat (u : user) (query_arg : option query)
    (s : storage) (entries : list (string * string)) :
  signature_cache s !! query_hash_of u query_arg s = None →
  build u query_arg s = Ok entries →
  ∃ r s', download_signatures u query_arg s = (Ok r, s')
          ∧ download_signatures u query_arg s' = (Ok r, s')
          ∧ signature_cache s' !! query_hash_of u query_arg s
            = Some (zip_read entries, DEFAULT_CACHE_TTL).
Proof.
  intros Hmiss Hb. rewrite download_signatures_cases, Hmiss, Hb.
  eexists _, _. split; [reflexivity|]. split.
  - rewrite download_signatures_cases. simpl. by rewrite lookup_insert_eq.
  - simpl. apply lookup_insert_eq.
Qed.

(** X20. A download that fails while it builds the archive caches
    nothing: the exception leaves the handler and the datastore and the
    cache are as they were. *)
Theorem download_signatures_failure_not_cached (u : user)
    (query_arg : option query) (s : storage) (e : exn) :
  signature_cache s !! query_hash_of u query_arg s = None →
  build u query_arg s = Raise e →
  download_signatures u query_arg s = (Raise e, s).
Proof.
  intros Hmiss Hb. by rewrite download_signatures_cases, Hmiss, Hb.
Qed.

(** X21. [download_signatures] writes at most one thing: the cache entry
    of the hash of its own request, and only when that entry was missing;
    the signatures, the services and every other cache entry are as they
    were. *)
Theorem download_signatures_writes_own_entry (u : user)
    (query_arg : option query) (s s' : storage) (r : outcome http_response) :
  download_signatures u query_arg s = (r, s') →
  s' = s
  ∨ (signature_cache s !! query_hash_of u query_arg s = None
     ∧ ∃ blob, r = Ok (make_file_response blob
                         ("al_signatures_"
                          ++ String.substring 0 7 (query_hash_of u query_arg s)
                          ++ ".zip")
                         (String.length blob) "application/zip")
               ∧ s' = set_signature_cache
                        (insert (query_hash_of u query_arg s)
                           (blob, DEFAULT_CACHE_TTL)) s).
Proof.
  rewrite download_signatures_cases.
  destruct (signature_cache s !! query_hash_of u query_arg s) as [[blob ttl]|].
  - intros [= <- <-]. by left.
  - destruct (build u query_arg s) as [entries|e]; intros [= <- <-].
    + right. split; [done|]. by eexists.
    + by left.
Qed.

End Props.

(** Two rules of one source and one of another. *)
Lemma group_signatures_conserves_witness :
  ∃ output_files texts,
    group_signatures
      [Examples.bundle_sig "b" "yara" "source1" "rule b {}" 1;
       Examples.bundle_sig "a" "yara" "source1" "rule a {}" 2;
       Examples.bundle_sig "c" "suricata" "source2" "alert c" 3] []
    = Ok output_files
    ∧ concat output_files.*2 ≡ₚ texts
    ∧ length texts = 3%nat.
Proof.
  destruct (group_signatures_conserves
              [Examples.bundle_sig "b" "yara" "source1" "rule b {}" 1;
               Examples.bundle_sig "a" "yara" "source1" "rule a {}" 2;
               Examples.bundle_sig "c" "suricata" "source2" "alert c" 3]
              [("yara/source1", [VStr "rule b {}"; VStr "rule a {}"]);
               ("suricata/source2", [VStr "alert c"])] eq_refl)
    as (texts & Hf & Hperm & _).
  eexists _, texts. split; [reflexivity|]. split; [exact Hperm|].
  symmetry. exact (Forall2_length _ _ _ Hf).
Defined.

Local Abbreviation bundle_entries :=
  [("yara/source1", "rule b {}" ++ NLNL ++ "rule a {}");
   ("suricata/source2", "alert c")].

(** The download of the three deployed signatures, twice. *)
Lemma download_signatures_repeat_witness :
  ∃ r s',
    Examples.download_signatures_ex Examples.admin None Examples.bundle_storage
    = (Ok r, s')
    ∧ Examples.download_signatures_ex Examples.admin None s' = (Ok r, s').
Proof.
  destruct (download_signatures_repeat Examples.hexdigest Examples.zip_listing
              Examples.admin None Examples.bundle_storage bundle_entries)
    as (r & s' & H1 & H2 & _).
  - vm_compute. reflexivity.
  - vm_compute. reflexivity.
  - exists r, s'. split; [exact H1 | exact H2].
Defined.

(** The download of a deployed signature that has no [order]. *)
Lemma download_signatures_failure_not_cached_witness :
  Examples.download_signatures_ex Examples.admin None Examples.deployed_storage
  = (Raise (KeyError "order"), Examples.deployed_storage).
Proof.
  apply (download_signatures_failure_not_cached Examples.hexdigest
           Examples.zip_listing Examples.admin None Examples.deployed_storage).
  - vm_compute. reflexivity.
  - vm_compute. reflexivity.
Defined.

(** What the download of the three deployed signatures wrote. *)
Lemma download_signatures_writes_own_entry_witness :
  (Examples.download_signatures_ex Examples.admin None
     Examples.bundle_storage).2 = Examples.bundle_storage
  ∨ ∃ blob,
      (Examples.download_signatures_ex Examples.admin None
         Examples.bundle_storage).2
      = set_signature_cache
          (insert "status:DEPLOYED.*.2024-01-01T00:00:00.000000Z"
             (blob, DEFAULT_CACHE_TTL)) Examples.bundle_storage.
Proof.
  destruct (download_signatures_writes_own_entry Examples.hexdigest
              Examples.zip_listing Examples.admin None Examples.bundle_storage
              _ _ (surjective_pairing _)) as [H|(_ & blob & _ & H)].
  - left. exact H.
  - right. exists blob. exact H.
Defined.
End Bundle.

(** ** get_additional_details: search parameters and missing hashes *)

Module Details.
Import Datastore Archive.

Lemma update_params_other (fields : list string) (req_data params : dict) k :
  k ∉ fields →
  dict_get k (update_params fields req_data params) = dict_get k params.
Proof.
  revert params. induction fields as [|f fields IH]; intros params Hk; [done|].
  apply not_elem_of_cons in Hk as [Hne Hk]. simpl. rewrite IH by done.
  destruct (is_none _); [done|]. by apply dict_get_set_ne.
Qed.

Lemma update_params_field (fields : list string) (req_data params : dict) k :
  k ∈ fields →
  dict_get k (update_params fields req_data params)
  = if is_none (dict_get_default k VNone req_data) then dict_get k params
    else Some (dict_get_default k VNone req_data).
Proof.
  revert params. induction fields as [|f fields IH]; intros params Hk;
    [by apply elem_of_nil in Hk|].
  simpl. destruct (decide (k ∈ fields)) as [Hin|Hnotin].
  - rewrite IH by done.
    destruct (is_none (dict_get_default k VNone req_data)) eqn:Ek; [|done].
    destruct (is_none (dict_get_default f VNone req_data)) eqn:Ef; [done|].
    destruct (decide (k = f)) as [->|Hne]; [|by apply dict_get_set_ne].
    congruence.
  - apply elem_of_cons in Hk as [->|?]; [|done].
    rewrite update_params_other by done.
    destruct (is_none _); [done|]. apply dict_get_set_eq.
Qed.

(** X22. A request can set the offset, the number of rows and the sort of
    the related-files searches and nothing else: each of the three is the
    request's value when it gives one that is not null and the default
    otherwise, and every other search parameter, the access control and
    the filter among them, is the default whatever the request holds. *)
Theorem request_params_protected (sha256 : string) (u : Signature.user)
    (req_data : dict) (k : string) :
  (k ∈ ["offset"; "rows"; "sort"] →
   dict_get k (request_params sha256 u req_data)
   = if is_none (dict_get_default k VNone req_data)
     then dict_get k (default_params sha256 u)
     else Some (dict_get_default k VNone req_data))
  ∧ (k ∉ ["offset"; "rows"; "sort"] →
     dict_get k (request_params sha256 u req_data)
     = dict_get k (default_params sha256 u)).
Proof.
  unfold request_params. split; intros Hk.
  - by apply update_params_field.
  - by apply update_params_other.
Qed.

Section Props.
Variable is_accessible : value → value → bool.
Variable file_search : string → dict → outcome value.
Variable result_search : string → outcome value.
Variable result_multiget : list value → outcome (list value).
Variable result_stream_search : string → outcome (list value).

Local Abbreviation get_additional_details :=
  (get_additional_details is_accessible file_search result_search
     result_multiget result_stream_search).

(** The two ssdeep slots, as the block leaves them. *)
Local Abbreviation ssdeep_slots file_obj params :=
  (match ssdeep_parts file_obj with
   | Raise e => (search_error e, search_error e)
   | Ok ssdeep =>
       match ssdeep_search file_search ssdeep 1 params with
       | Raise e => (search_error e, search_error e)
       | Ok r1 =>
           match ssdeep_search file_search ssdeep 2 params with
           | Raise e => (search_error e, search_error e)
           | Ok r2 => (r1, r2)
           end
       end
   end).

Lemma get_additional_details_run (files : gmap string dict) (sha256 : string)
    (usr : Signature.user) (req_data file_obj : dict) (c : value) :
  files !! sha256 = Some file_obj →
  dict_get "classification" file_obj = Some c →
  is_accessible (Signature.classification usr) c = true →
  get_additional_details files sha256 (Some usr) req_data
  = Ok (make_api_response
          (VDict
             [("tlsh",
               slot (tlsh_search file_search file_obj
                       (request_params sha256 usr req_data)));
              ("ssdeep1",
               (ssdeep_slots file_obj (request_params sha256 usr req_data)).1);
              ("ssdeep2",
               (ssdeep_slots file_obj (request_params sha256 usr req_data)).2);
              ("vector",
               slot (vector_search file_search result_search result_multiget
                       result_stream_search sha256
                       (request_params sha256 usr req_data)))])
          "" 200).
Proof.
  intros Hfile Hc Hacc. unfold Archive.get_additional_details.
  rewrite Hfile. destruct file_obj as [|x file_obj']; [done|].
  rewrite (dict_item_Some _ _ _ Hc). simpl obind. rewrite Hacc. simpl negb.
  cbv iota.
  unfold process_tlsh, process_ssdeep, process_vector, try_except, bind, lift,
    set_output, modify.
  destruct (tlsh_search file_search _ _) as [t|et];
    destruct (vector_search _ _ _ _ sha256 _) as [v|ev];
    destruct (ssdeep_parts _) as [ssdeep|ep]; simpl;
    try (destruct (ssdeep_search _ ssdeep 1 _) as [r1|e1]; simpl;
         try (destruct (ssdeep_search _ ssdeep 2 _) as [r2|e2]; simpl));
    reflexivity.
Qed.

(** X23. A file without fuzzy hashes still gets its answer: without a
    [tlsh] key the tlsh slot holds the error string of the missing key,
    and without an [ssdeep] key, or with an ssdeep hash of fewer than
    three parts, both ssdeep slots hold an error string and no result,
    whatever the searches return. *)
Theorem get_additional_details_missing_hashes (files : gmap string dict)
    (sha256 : string) (usr : Signature.user) (req_data file_obj : dict)
    (c : value) :
  files !! sha256 = Some file_obj →
  dict_get "classification" file_obj = Some c →
  is_accessible (Signature.classification usr) c = true →
  ∃ t s1 s2 v,
    get_additional_details files sha256 (Some usr) req_data
    = Ok (make_api_response
            (VDict [("tlsh", t); ("ssdeep1", s1); ("ssdeep2", s2);
                    ("vector", v)]) "" 200)
    ∧ (dict_get "tlsh" file_obj = None →
       t = VStr "SearchException: 'tlsh'")
    ∧ (dict_get "ssdeep" file_obj = None →
       s1 = VStr "SearchException: list index out of range" ∧ s2 = s1)
    ∧ (∀ parts, ssdeep_parts file_obj = Ok parts → (length parts < 3)%nat →
                ∃ e, s1 = search_error e ∧ s2 = search_error e).
Proof.
  intros Hfile Hc Hacc.
  rewrite (get_additional_details_run files sha256 usr req_data file_obj c)
    by done.
  eexists _, _, _, _. split; [reflexivity|]. split; [|split].
  - intros Ht. unfold tlsh_search. by rewrite (dict_item_None _ _ Ht).
  - intros Hs. unfold ssdeep_parts, dict_get_default. rewrite Hs. done.
  - intros parts -> Hlen.
    destruct (ssdeep_search file_search parts 1 _) as [r1|e1] eqn:E1;
      [|exists e1; split; reflexivity].
    assert (ssdeep_search file_search parts 2
              (request_params sha256 usr req_data)
            = Raise (IndexError "list index out of range")) as ->.
    { unfold ssdeep_search, list_item.
      destruct (parts !! 2%nat) as [p|] eqn:E2; [|done].
      apply lookup_lt_Some in E2. lia. }
    eexists. split; reflexivity.
Qed.

End Props.

(** A file that has a classification and no hash. *)
Lemma get_additional_details_missing_hashes_witness :
  ∃ t s1 s2 v,
    Examples.get_additional_details_ex
      (<["beef" := [("classification", VStr "U")]]> (∅ : gmap string dict)) "beef"
      (Some Examples.admin) []
    = Ok (make_api_response
            (VDict [("tlsh", t); ("ssdeep1", s1); ("ssdeep2", s2);
                    ("vector", v)]) "" 200)
    ∧ t = VStr "SearchException: 'tlsh'"
    ∧ s1 = VStr "SearchException: list index out of range"
    ∧ s2 = s1.
Proof.
  destruct (get_additional_details_missing_hashes Examples.is_accessible
              Examples.file_search Examples.result_search
              Examples.result_multiget Examples.result_stream_search
              (<["beef" := [("classification", VStr "U")]]> (∅ : gmap string dict)) "beef"
              Examples.admin [] [("classification", VStr "U")] (VStr "U")
              (lookup_insert_eq _ _ _) eq_refl eq_refl)
    as (t & s1 & s2 & v & Hrun & Ht & Hs & _).
  exists t, s1, s2, v. split; [exact Hrun|]. split; [exact (Ht eq_refl)|].
  exact (Hs eq_refl).
Defined.
End Details.

(** ** archive_submission *)

Module Submission.
Import Datastore ArchiveSubmission.

Section Props.
Variable is_accessible : value → value → bool.

(** X24. For a submission the caller may see, on a server with the
    archive enabled, the answer follows the archive manager: the action
    it returns is answered with a 200 whose [success] is true whatever the
    action said, with the other keys of the action kept; a
    [SubmissionException] is answered with a 400 that carries its message;
    any other exception leaves the handler. The manager is asked to
    delete after the move exactly when the argument, in lower case, is
    [true] or is empty. *)
Theorem archive_submission_outcomes
    (archive_manager : dict → bool → archive_outcome)
    (submissions : gmap string dict) (sid : string) (usr : Signature.user)
    (delete_after_arg : option string) (submission : dict) (c : value) :
  submissions !! sid = Some submission →
  dict_get "classification" submission = Some c →
  is_accessible (Signature.classification usr) c = true →
  ∃ delete_after : bool,
    (delete_after = true ↔
     ∃ a, delete_after_arg = Some a ∧ (lower a = "true" ∨ a = ""))
    ∧ match archive_manager submission delete_after with
      | Action archive_action =>
          ∃ payload,
            archive_submission is_accessible archive_manager true submissions
              sid (Some usr) delete_after_arg
            = Ok (make_api_response (VDict payload) "" 200)
            ∧ dict_get "success" payload = Some (VBool true)
            ∧ ∀ k, k ≠ "success" →
                   dict_get k payload = dict_get k archive_action
      | SubmissionException se =>
          archive_submission is_accessible archive_manager true submissions
            sid (Some usr) delete_after_arg
          = Ok (make_api_response (VDict [("success", VBool false)]) se 400)
      | Failure e =>
          archive_submission is_accessible archive_manager true submissions
            sid (Some usr) delete_after_arg
          = Raise e
      end.
Proof.
  intros Hsub Hc Hacc. exists (delete_after_of delete_after_arg). split.
  - unfold delete_after_of. rewrite orb_true_iff, !String.eqb_eq.
    destruct delete_after_arg as [a|]; simpl.
    + split.
      * intros [H|H]; exists a; (split; [done|]); [by left|right].
        by destruct a.
      * intros (a' & [= <-] & [H| ->]); [by left|by right].
    + split; [by intros [?|?]|]. by intros (a & ? & _).
  - unfold archive_submission. simpl negb. cbv iota. rewrite Hsub.
    destruct submission as [|x submission']; [done|].
    rewrite (dict_item_Some _ _ _ Hc). simpl obind. rewrite Hacc. simpl negb.
    cbv iota.
    destruct (archive_manager _ _) as [a|se|e]; [|done|done].
    eexists. split; [reflexivity|]. split; [apply dict_get_set_eq|].
    intros k Hk. by apply dict_get_set_ne.
Qed.

(** X25. A refusal does not involve the archive manager: with the archive
    disabled, an unknown submission, no caller or a caller who may not see
    the submission, the answer is the same whatever the manager would do,
    and it is a 403 or a 404. *)
Theorem archive_submission_refusal (m1 m2 : dict → bool → archive_outcome)
    (archive_enabled : bool) (submissions : gmap string dict) (sid : string)
    (u : option Signature.user) (delete_after_arg : option string) :
  archive_enabled = false
  ∨ submissions !! sid = None
  ∨ u = None
  ∨ (∃ usr submission c,
       u = Some usr ∧ submissions !! sid = Some submission
       ∧ dict_get "classification" submission = Some c
       ∧ is_accessible (Signature.classification usr) c = false) →
  archive_submission is_accessible m1 archive_enabled submissions sid u
    delete_after_arg
  = archive_submission is_accessible m2 archive_enabled submissions sid u
      delete_after_arg
  ∧ ∃ r, archive_submission is_accessible m1 archive_enabled submissions sid u
           delete_after_arg = Ok r
         ∧ (status_code r = 403 ∨ status_code r = 404).
Proof.
  unfold archive_submission.
  intros [->|[Hnone|[->|(usr & sub & c & -> & Hsub & Hc & Hacc)]]]; simpl.
  - split; [done|]. eexists. split; [done|by left].
  - destruct archive_enabled; simpl; rewrite ?Hnone;
      (split; [done|]); eexists; (split; [done|]); first [by left | by right].
  - destruct archive_enabled; simpl.
    + destruct (submissions !! sid) as [[|x sub]|];
        (split; [done|]); eexists; (split; [done|]); first [by left | by right].
    + split; [done|]. eexists. split; [done|by left].
  - destruct archive_enabled; simpl.
    + rewrite Hsub. destruct sub as [|x sub]; [done|].
      rewrite (dict_item_Some _ _ _ Hc). simpl. rewrite Hacc. simpl.
      split; [done|]. eexists. split; [done|by left].
    + split; [done|]. eexists. split; [done|by left].
Qed.

End Props.

(** An archive manager that resubmits and says so with [success] false,
    asked with [delete_after=TRUE]. *)
Lemma archive_submission_outcomes_witness :
  ∃ payload,
    archive_submission Examples.is_accessible
      (λ _ delete_after,
         Action [("success", VBool false); ("action", VStr "resubmit");
                 ("delete_after", VBool delete_after)])
      true (<["s1" := [("classification", VStr "U")]]> (∅ : gmap string dict)) "s1"
      (Some Examples.admin) (Some "TRUE")
    = Ok (make_api_response (VDict payload) "" 200)
    ∧ dict_get "success" payload = Some (VBool true)
    ∧ dict_get "delete_after" payload = Some (VBool true).
Proof.
  destruct (archive_submission_outcomes Examples.is_accessible
              (λ _ delete_after,
                 Action [("success", VBool false); ("action", VStr "resubmit");
                         ("delete_after", VBool delete_after)])
              (<["s1" := [("classification", VStr "U")]]> (∅ : gmap string dict)) "s1"
              Examples.admin (Some "TRUE") [("classification", VStr "U")]
              (VStr "U") (lookup_insert_eq _ _ _) eq_refl eq_refl)
    as (delete_after & Hflag & payload & Hrun & Hok & Hkeep).
  assert (delete_after = true) as -> by (apply Hflag; exists "TRUE"; by split; [|left]).
  exists payload. split; [exact Hrun|]. split; [exact Hok|].
  rewrite Hkeep by discriminate. reflexivity.
Defined.

(** A server with the archive disabled. *)
Lemma archive_submission_refusal_witness :
  ∃ r, archive_submission Examples.is_accessible (λ _ _, Action []) false
         (<["s1" := [("classification", VStr "U")]]> (∅ : gmap string dict)) "s1"
         (Some Examples.admin) None = Ok r
       ∧ (status_code r = 403 ∨ status_code r = 404).
Proof.
  exact (proj2 (archive_submission_refusal Examples.is_accessible
                  (λ _ _, Action []) (λ _ _, Failure (TypeError "unused"))
                  false (<["s1" := [("classification", VStr "U")]]> (∅ : gmap string dict)) "s1"
                  (Some Examples.admin) None (or_introl eq_refl))).
Defined.
End Submission.

(** ** The AI helper *)

Module AiProps.
Import Ai.

Section Props.
Variable config : ai_config.
Variable post : string → dict → dict → outcome http_reply.

Local Abbreviation _call_ai_backend := (_call_ai_backend config post).

(** X26. What the helper returns is [None] or a content that counts as
    true: an empty string, a zero or an empty list in the reply comes
    back as [None]. It returns only when the call succeeded with a reply
    that is ok. *)
Theorem call_ai_backend_returns_content_or_none
    (data system_message action : string) (content : value) :
  _call_ai_backend data system_message action = AiReturn content →
  (content = VNone ∨ truthy content = true)
  ∧ ∃ resp, post (chat_url config) (headers config)
              (chat_request config data system_message) = Ok resp
            ∧ ok resp = true.
Proof.
  unfold Ai._call_ai_backend.
  destruct (post _ _ _) as [resp|e]; [|done].
  unfold read_reply. destruct (ok resp) eqn:Hok; simpl.
  2:{ destruct (json resp) as [msg_data|]; [|done].
      by destruct (let? err := _ in _). }
  intros H. split; [|by exists resp].
  destruct (json resp) as [body|]; simpl in H; [|done].
  destruct (value_get_default "choices" (VList []) body) as [responses|];
    simpl in H; [|done].
  destruct (truthy responses); [|injection H as <-; by left].
  destruct (first_item responses) as [first|]; simpl in H; [|done].
  destruct (value_get_default "message" (VDict []) first) as [message|];
    simpl in H; [|done].
  destruct (value_get_default "content" VNone message) as [c|];
    simpl in H; [|done].
  destruct (truthy c) eqn:Hc; injection H as <-; [by right|by left].
Qed.

(** X27. A call that cannot be made, or a reply that is not ok, never
    returns: when [requests.post] raises, the helper raises
    [AiApiException] with the action, the server and the text of the
    exception; when the reply is not ok it raises [AiApiException], with
    the message of the reply's [error] when there is one, or lets the
    exception of reading the reply through. *)
Theorem call_ai_backend_failure (data system_message action : string) :
  (∀ e, post (chat_url config) (headers config)
          (chat_request config data system_message) = Raise e →
        _call_ai_backend data system_message action
        = AiApiException
            ("An exception occured while trying to " ++ action
             ++ " with AI on server " ++ chat_url config ++ ". ["
             ++ exn_str e ++ "]"))
  ∧ (∀ resp, post (chat_url config) (headers config)
               (chat_request config data system_message) = Ok resp →
             ok resp = false →
             (∀ content,
                _call_ai_backend data system_message action ≠ AiReturn content)
             ∧ (∀ body err m,
                  json resp = Ok (VDict body) →
                  dict_get "error" body = Some (VDict err) →
                  dict_get "message" err = Some m → truthy m = true →
                  _call_ai_backend data system_message action
                  = AiApiException
                      ("The AI API denied the request to " ++ action
                       ++ " with the following message: " ++ py_str m))).
Proof.
  unfold Ai._call_ai_backend. split.
  - by intros e ->.
  - intros resp -> Hok. unfold read_reply. rewrite Hok. simpl. split.
    + intros content. destruct (json resp) as [msg_data|]; [|done].
      by destruct (let? err := _ in _).
    + intros body err m -> Herr Hm Ht. simpl.
      unfold dict_get_default. rewrite Herr. simpl.
      unfold dict_get_default. rewrite Hm. by rewrite Ht.
Qed.

Lemma dict_update_other (d upd : dict) k :
  k ∉ upd.*1 → dict_get k (dict_update d upd) = dict_get k d.
Proof.
  unfold dict_update. revert d.
  induction upd as [|[k' v'] upd IH]; intros d Hk; [done|].
  csimpl in *. apply not_elem_of_cons in Hk as [Hne Hk].
  rewrite IH by done. by apply dict_get_set_ne.
Qed.

Lemma dict_update_member (d upd : dict) k v :
  NoDup upd.*1 → (k, v) ∈ upd → dict_get k (dict_update d upd) = Some v.
Proof.
  revert d.
  induction upd as [|[k' v'] upd IH]; intros d Hnd Hin;
    [by apply elem_of_nil in Hin|].
  change (dict_update d ((k', v') :: upd))
    with (dict_update (dict_set k' v' d) upd).
  csimpl in Hnd. apply NoDup_cons in Hnd as [Hnotin Hnd].
  apply elem_of_cons in Hin as [[= <- <-]|Hin]; [|by apply IH].
  rewrite dict_update_other by done. apply dict_get_set_eq.
Qed.

(** X28. The configured options win over the request the helper builds:
    a key of the options, [messages] and [model] included, has the value
    the options give it in the request sent, and a key the options do not
    hold has the value the helper set. *)
Theorem chat_request_options_override (data system_message : string)
    (k : string) :
  NoDup (options config).*1 →
  (∀ v, (k, v) ∈ options config →
        dict_get k (chat_request config data system_message) = Some v)
  ∧ (k ∉ (options config).*1 →
     dict_get k (chat_request config data system_message)
     = dict_get k
         [("max_tokens", max_tokens config);
          ("messages",
           VList [VDict [("role", VStr "system");
                         ("content", VStr system_message)];
                  VDict [("role", VStr "user"); ("content", VStr data)]]);
          ("model", model_name config);
          ("stream", VBool false)]).
Proof.
  intros Hnd. unfold chat_request. split.
  - intros v Hin. by apply dict_update_member.
  - intros Hk. by apply dict_update_other.
Qed.

End Props.

Local Abbreviation config_ex :=
  (AiConfig (VInt 1024) (VStr "model-a")
     [("temperature", VInt 0); ("model", VStr "model-b")]
     "http://ai/v1/chat/completions" [] "Summarize the report."
     "Summarize the code.").

Local Abbreviation empty_content_post :=
  (λ (_ : string) (_ _ : dict),
     Ok (HttpReply true
           (Ok (VDict
                  [("choices",
                    VList [VDict [("message",
                                   VDict [("content", VStr "")])]])])))).

(** A reply that is ok and whose first choice has an empty content. *)
Lemma call_ai_backend_returns_content_or_none_witness :
  _call_ai_backend config_ex empty_content_post "print(1)"
    "Summarize the code." "summarize code snippet" = AiReturn VNone
  ∧ (VNone = VNone ∨ truthy VNone = true).
Proof.
  split; [reflexivity|].
  apply (call_ai_backend_returns_content_or_none config_ex empty_content_post
           "print(1)" "Summarize the code." "summarize code snippet" VNone).
  reflexivity.
Defined.

(** Options that set the temperature and replace the model. *)
Lemma chat_request_options_override_witness :
  dict_get "model" (chat_request config_ex "print(1)" "Summarize the code.")
  = Some (VStr "model-b").
Proof.
  apply (chat_request_options_override config_ex "print(1)"
           "Summarize the code." "model").
  - by_compute.
  - right. left.
Defined.
End AiProps.
